(** * aioftp server core: a shallow embedding and its verified properties

    The development follows [aioftp/common.py] and [aioftp/server.py].
    Part I gives the model, one Rocq module per Python class or group of
    functions; Parts II and III state and prove its properties; Part IV
    adds login, greeting and the command channel.  In Parts I to IV a
    handler is one step; Part V cuts the passive-mode handlers at their
    await and follows handlers that overlap.  Part VI is [get_paths] on
    a Windows host.

    Python [str] values are modelled by [string], read as the UTF-8
    encoding of the text: the byte ['/'] and the strings [".."] and ["."]
    never occur inside a multi-byte sequence, so splitting and comparing
    on bytes agrees with splitting and comparing on code points.
    The built-ins that consult the Unicode database ([str.isdigit],
    [int], [repr], [str.lower], [str.rstrip]) are given for text of
    one-byte characters; a statement that reads their result off says
    so with [ascii_only].  Python [int] is [Z]. *)

From Stdlib Require Import ZArith List String Ascii Bool Lia Permutation.
From Stdlib Require Import QArith Qround.
Import ListNotations.

Local Open Scope string_scope.
Local Open Scope Z_scope.

(* ================================================================== *)
(** * Part I. The model                                                *)
(* ================================================================== *)

(** ** Small Python built-ins on strings and integers *)

Module Py.

(** [s.split(sep)] for a one-character separator: every separator cuts,
    empty pieces are kept. *)
Fixpoint split (sep : ascii) (s : string) : list string :=
  match s with
  | EmptyString => [EmptyString]
  | String c s' =>
      if Ascii.eqb c sep then EmptyString :: split sep s'
      else match split sep s' with
           | [] => [String c EmptyString]
           | h :: t => String c h :: t
           end
  end.

(** [sep.join(l)] *)
Fixpoint join (sep : string) (l : list string) : string :=
  match l with
  | [] => ""
  | [x] => x
  | x :: t => x ++ sep ++ join sep t
  end.

Definition is_ascii_digit (c : ascii) : bool :=
  let n := N_of_ascii c in (48 <=? n)%N && (n <=? 57)%N.

(** [s.isdigit()] for text of one-byte characters: non-empty and all
    decimal digits.  (Beyond ASCII, [str.isdigit] also accepts the
    digits of other scripts and superscripts.) *)
Definition isdigit (s : string) : bool :=
  match s with
  | EmptyString => false
  | _ => forallb is_ascii_digit (list_ascii_of_string s)
  end.

(** The value of a string of decimal digits. *)
Definition int_of_digits (s : string) : Z :=
  fold_left (fun acc c => 10 * acc + (Z.of_N (N_of_ascii c) - 48))
            (list_ascii_of_string s) 0.

(** [sys.get_int_max_str_digits()], the interpreter's default. *)
Definition int_max_str_digits : nat := 4300.

(** [int(s)], where [None] is a [ValueError].  Only plain strings of
    ASCII decimal digits are accepted here (the signs, blanks and
    underscores Python also accepts are not modelled), and, as in
    Python, at most [int_max_str_digits] of them, leading zeros
    counted. *)
Definition int (s : string) : option Z :=
  if isdigit s && (String.length s <=? int_max_str_digits)%nat
  then Some (int_of_digits s)
  else None.

Definition digit_char (d : Z) : ascii := ascii_of_N (Z.to_N (48 + d)).

Fixpoint str_pos_fuel (fuel : nat) (n : Z) (acc : string) : string :=
  match fuel with
  | O => acc
  | S f =>
      let acc' := String (digit_char (n mod 10)) acc in
      if n <? 10 then acc' else str_pos_fuel f (n / 10) acc'
  end.

(** [str(n)] for an integer. *)
Definition str (n : Z) : string :=
  if n <? 0 then String "-" (str_pos_fuel (S (Z.to_nat (Z.log2 (- n)))) (- n) "")
  else str_pos_fuel (S (Z.to_nat (Z.log2 n))) n "".

(** The message of the [ValueError] that [int(s)] raises for a digit
    string longer than [int_max_str_digits]. *)
Definition int_limit_message (s : string) : string :=
  "Exceeds the limit (" ++ str (Z.of_nat int_max_str_digits)
  ++ " digits) for integer string conversion: value has "
  ++ str (Z.of_nat (String.length s))
  ++ " digits; use sys.set_int_max_str_digits() to increase the limit".

(** The one-character string holding a double quote. *)
Definition dquote : string := String (ascii_of_nat 34) EmptyString.

Definition has_char (c : ascii) (s : string) : bool :=
  existsb (Ascii.eqb c) (list_ascii_of_string s).

(** The backslash. *)
Definition backslash : ascii := ascii_of_nat 92.

Definition hex_digit (n : N) : ascii :=
  ascii_of_N (if (n <? 10)%N then 48 + n else 87 + n)%N.

(** How [repr] writes one character between quotes [quote]: the quote
    and the backslash get a backslash, tab, line feed and carriage
    return their letter, the other control characters and DEL a
    two-digit hexadecimal escape.  A byte of 128 or more is kept: it
    belongs to a character beyond ASCII, which [repr] keeps when it is
    printable. *)
Definition repr_char (quote c : ascii) : string :=
  let n := N_of_ascii c in
  if Ascii.eqb c quote || Ascii.eqb c backslash
  then String backslash (String c EmptyString)
  else if (n =? 9)%N then "\t"
  else if (n =? 10)%N then "\n"
  else if (n =? 13)%N then "\r"
  else if (n <? 32)%N || (n =? 127)%N
  then String backslash
         (String "x"%char
            (String (hex_digit (n / 16)) (String (hex_digit (n mod 16))
                                            EmptyString)))
  else String c EmptyString.

Fixpoint repr_body (quote : ascii) (s : string) : string :=
  match s with
  | EmptyString => EmptyString
  | String c s' => repr_char quote c ++ repr_body quote s'
  end.

(** [repr(s)] for a string: in single quotes, unless the text has a
    single quote and no double quote, which puts it in double quotes. *)
Definition repr (s : string) : string :=
  let quote :=
    if has_char "'"%char s && negb (has_char (ascii_of_nat 34) s)
    then ascii_of_nat 34 else "'"%char in
  String quote (repr_body quote s ++ String quote EmptyString).

(** [v == s] for a value [v] that is a string or [None]. *)
Definition eq_str (v : option string) (s : string) : bool :=
  match v with
  | Some x => String.eqb x s
  | None => false
  end.

(** Truth value of a string: non-empty. *)
Definition truthy (s : string) : bool := negb (String.eqb s "").

End Py.

(** Text of one-byte characters only (bytes below 128). *)
Definition ascii_only (s : string) : bool :=
  forallb (fun c => (nat_of_ascii c <? 128)%nat) (list_ascii_of_string s).

(** ** [pathlib.PurePosixPath]

    A pure path is its root ([""], ["/"] or ["//"]) and the list of its
    components.  [pathlib.Path] on a POSIX host has the same lexical
    behaviour, so real paths use the same type. *)

Module PurePosixPath.

Record t : Type := mk { root : string; tail : list string }.

(** [posixpath.splitroot]: no leading slash, no root; exactly two
    leading slashes are kept as the root; otherwise the root is one
    slash and the rest starts after it. *)
Definition splitroot (p : string) : string * string :=
  match p with
  | String c0 r0 =>
      if negb (Ascii.eqb c0 "/") then ("", p)
      else match r0 with
           | String c1 r1 =>
               if negb (Ascii.eqb c1 "/") then ("/", r0)
               else match r1 with
                    | String c2 _ =>
                        if Ascii.eqb c2 "/" then ("/", r0) else ("//", r1)
                    | EmptyString => ("//", r1)
                    end
           | EmptyString => ("/", r0)
           end
  | EmptyString => ("", p)
  end.

Definition keep_part (x : string) : bool :=
  negb (String.eqb x "") && negb (String.eqb x ".").

(** [PurePosixPath(s)]: components that are empty or ["."] are dropped. *)
Definition parse (s : string) : t :=
  let '(r, rel) := splitroot s in
  mk r (filter keep_part (Py.split "/" rel)).

(** [p.parts] *)
Definition parts (p : t) : list string :=
  if String.eqb (root p) "" then tail p else root p :: tail p.

(** [str(p)] *)
Definition to_string (p : t) : string :=
  match root p, tail p with
  | EmptyString, [] => "."
  | r, l => r ++ Py.join "/" l
  end.

(** [p.is_absolute()] *)
Definition is_absolute (p : t) : bool := negb (String.eqb (root p) "").

(** [p / q] for two paths. *)
Definition joinpath (p q : t) : t :=
  if is_absolute q then q else mk (root p) (tail p ++ tail q).

(** [p / s] for a string segment. *)
Definition joinstr (p : t) (s : string) : t := joinpath p (parse s).

(** [p.parent]: purely lexical, the root is its own parent. *)
Definition parent (p : t) : t := mk (root p) (removelast (tail p)).

Fixpoint strip_prefix (pre l : list string) : option (list string) :=
  match pre, l with
  | [], _ => Some l
  | x :: pre', y :: l' => if String.eqb x y then strip_prefix pre' l' else None
  | _ :: _, [] => None
  end.

(** [p.relative_to(other)]: [None] stands for [ValueError]. *)
Definition relative_to (p other : t) : option t :=
  if String.eqb (root p) (root other) then
    match strip_prefix (tail other) (tail p) with
    | Some rest => Some (mk "" rest)
    | None => None
    end
  else None.

(** The components pathlib can hold: non-empty, not ["."], no slash. *)
Definition valid_part (x : string) : bool :=
  keep_part x && negb (existsb (Ascii.eqb "/") (list_ascii_of_string x)).

Definition valid_root (r : string) : bool :=
  String.eqb r "" || String.eqb r "/" || String.eqb r "//".

Definition well_formed (p : t) : bool :=
  valid_root (root p) && forallb valid_part (tail p).

End PurePosixPath.

(** ** Exceptions raised by the modelled code *)

Inductive Exc : Type :=
| ValueError (msg : string)
| TypeError
| AttributeError
| UnboundLocalError
| PathIsNotAbsolute
| PathIOError
| QueueEmpty
| NoAvailablePort
| OSError (errno : Z)
| ConnectionResetError
| FuelExhausted.
(* [FuelExhausted] is no Python exception: it marks a loop model that
   ran out of fuel, and is shown unreachable in Part II. *)

(** [errno.EADDRINUSE] on Linux. *)
Definition EADDRINUSE : Z := 98.

(** The class hierarchy of [aioftp.errors], a module that is imported by
    [server.py] but is not part of the sources at hand: whether
    [NoAvailablePort] derives from [OSError] is left as a parameter. *)
Record ErrorsModule : Type := { NoAvailablePort_is_OSError : bool }.

(** [isinstance(e, OSError)] *)
Definition is_OSError (E : ErrorsModule) (e : Exc) : bool :=
  match e with
  | OSError _ => true
  | NoAvailablePort => NoAvailablePort_is_OSError E
  | _ => false
  end.

(** [e.errno]; [None] when the exception was built without arguments. *)
Definition errno_of (e : Exc) : option Z :=
  match e with
  | OSError n => Some n
  | _ => None
  end.

(** ** [common.Throttle] *)

(** Timestamps come from the event loop's clock.  The operations the
    throttle applies to them are collected in a class, so that the model
    does not commit to one representation of Python's [float]. *)
Class TimeOps (T : Type) : Type := {
  tsub : T -> T -> T;           (* [a - b] *)
  tmul_int : T -> Z -> T;       (* [a * n] for an integer [n] *)
  tround : T -> Z;              (* [round(a)] *)
  tgt : T -> T -> bool          (* [a > b] *)
}.

(** [round] on exact rationals: to nearest, ties to even. *)
Definition Qround_half_even (q : Q) : Z :=
  let f := Qfloor q in
  match Qcompare (q - inject_Z f) (1 # 2) with
  | Lt => f
  | Gt => f + 1
  | Eq => if Z.even f then f else f + 1
  end.

(** Exact rationals, for running the throttle on timestamps that
    floats hold exactly (where float arithmetic rounds, the two
    differ). *)
#[export] Instance QTime : TimeOps Q := {
  tsub := Qminus;
  tmul_int := fun a n => Qmult a (inject_Z n);
  tround := Qround_half_even;
  tgt := fun a b => negb (Qle_bool a b)
}.

Module Throttle.
Section WithTime.
Context {T : Type} `{TimeOps T}.

Record t : Type := mk {
  _limit : option Z;
  reset_rate : T;
  _start : option T;
  _sum : Z
}.

(** [Throttle.__init__] *)
Definition init (limit : option Z) (reset_rate : T) : t :=
  mk limit reset_rate None 0.

(** [Throttle.append] *)
Definition append (self : t) (data : list Byte.byte) (start : T) : t :=
  match _limit self with
  | Some limit =>
      if 0 <? limit then
        let start0 := match _start self with
                      | None => start
                      | Some s => s
                      end in
        let '(sum1, start1) :=
          if tgt (tsub start start0) (reset_rate self)
          then (_sum self - tround (tmul_int (tsub start start0) limit), start)
          else (_sum self, start0) in
        mk (_limit self) (reset_rate self) (Some start1)
           (sum1 + Z.of_nat (List.length data))
      else self
  | None => self
  end.

(** The [limit] setter. *)
Definition set_limit (self : t) (value : option Z) : t :=
  mk value (reset_rate self) None 0.

(** [Throttle.clone] *)
Definition clone (self : t) : t := init (_limit self) (reset_rate self).

End WithTime.
Arguments t T : clear implicits.
End Throttle.

(** ** [server.AvailableConnections] *)

Module AvailableConnections.

Record t : Type := mk { value : option Z; maximum_value : option Z }.

(** [__init__]: [self.value = self.maximum_value = value] *)
Definition init (v : option Z) : t := mk v v.

(** [locked] *)
Definition locked (self : t) : bool :=
  match value self with
  | Some v => v =? 0
  | None => false
  end.

(** [acquire]: the new state and the exception raised, if any. *)
Definition acquire (self : t) : t * option Exc :=
  match value self with
  | Some v =>
      let self' := mk (Some (v - 1)) (maximum_value self) in
      if v - 1 <? 0 then (self', Some (ValueError "Too many acquires"))
      else (self', None)
  | None => (self, None)
  end.

(** [release]; comparing an [int] with [None] is a [TypeError]. *)
Definition release (self : t) : t * option Exc :=
  match value self with
  | Some v =>
      let self' := mk (Some (v + 1)) (maximum_value self) in
      match maximum_value self with
      | Some m =>
          if m <? v + 1 then (self', Some (ValueError "Too many releases"))
          else (self', None)
      | None => (self', Some TypeError)
      end
  | None => (self, None)
  end.

End AvailableConnections.

(** ** [server.Permission] and [server.User] *)

Module Permission.

Record t : Type := mk {
  path : PurePosixPath.t;
  readable : bool;
  writable : bool
}.

(** [Permission(path, readable=..., writable=...)] *)
Definition init (p : string) (r w : bool) : t := mk (PurePosixPath.parse p) r w.

(** [Permission()] *)
Definition default : t := init "/" true true.

(** [is_parent]: [other.relative_to(self.path)] does not raise. *)
Definition is_parent (self : t) (other : PurePosixPath.t) : bool :=
  match PurePosixPath.relative_to other (path self) with
  | Some _ => true
  | None => false
  end.

(** [getattr(permission, name)] for the two flag names. *)
Inductive flag : Type := readable_flag | writable_flag.

Definition getattr (self : t) (f : flag) : bool :=
  match f with
  | readable_flag => readable self
  | writable_flag => writable self
  end.

End Permission.

(** The built-in [min(iterable, key=..., default=...)]: the first of the
    elements with the least key. *)
Fixpoint min_from {A : Type} (key : A -> nat) (best : A) (l : list A) : A :=
  match l with
  | [] => best
  | x :: l' =>
      if (key x <? key best)%nat then min_from key x l'
      else min_from key best l'
  end.

Definition py_min {A : Type} (key : A -> nat) (l : list A) (default : A) : A :=
  match l with
  | [] => default
  | x :: l' => min_from key x l'
  end.

Module User.

Record t : Type := mk {
  login : option string;
  password : option string;
  base_path : PurePosixPath.t;
  home_path : PurePosixPath.t;
  permissions : list Permission.t;
  maximum_connections : Z;
  read_speed_limit : option Z;
  write_speed_limit : option Z;
  read_speed_limit_per_connection : option Z;
  write_speed_limit_per_connection : option Z
}.

(** [User.__init__]: a relative [home_path] is refused, an empty
    permission list is replaced by [[Permission()]]. *)
Definition init (login password : option string)
    (base_path home_path : PurePosixPath.t)
    (permissions : list Permission.t) (maximum_connections : Z)
    (rl wl rlc wlc : option Z) : Exc + t :=
  if negb (PurePosixPath.is_absolute home_path) then inl PathIsNotAbsolute
  else inr (mk login password base_path home_path
              (match permissions with
               | [] => [Permission.default]
               | _ => permissions
               end)
              maximum_connections rl wl rlc wlc).

(** The key of [get_permissions]:
    [len(path_.relative_to(p.path).parts)].  It is only applied to the
    permissions that passed [is_parent], where [relative_to] succeeds. *)
Definition remaining_parts (path_ : PurePosixPath.t) (p : Permission.t) : nat :=
  match PurePosixPath.relative_to path_ (Permission.path p) with
  | Some r => List.length (PurePosixPath.parts r)
  | None => O
  end.

(** [User.get_permissions] *)
Definition get_permissions (self : t) (path_ : PurePosixPath.t) : Permission.t :=
  let parents :=
    filter (fun p => Permission.is_parent p path_) (permissions self) in
  py_min (remaining_parts path_) parents Permission.default.

End User.

(** ** Sockets, listeners and the data-port queue *)

Inductive Family : Type := AF_INET | AF_INET6 | AF_UNIX.

Record Socket : Type := {
  family : Family;
  sockname_host : string;
  sockname_port : Z
}.

(** An [asyncio] listening server, as far as the handlers look at it. *)
Record PassiveServer : Type := { sockets : list Socket }.

(** [asyncio.PriorityQueue] of [(priority, port)] pairs, unbounded.  The
    queue is kept as a list in ascending order of the pairs, so that the
    least pair is at the head. *)
Module PriorityQueue.

Definition item : Type := (Z * Z)%type.
Definition t : Type := list item.

Definition item_leb (a b : item) : bool :=
  (fst a <? fst b) || ((fst a =? fst b) && (snd a <=? snd b)).

(** [put_nowait] *)
Fixpoint put_nowait (q : t) (x : item) : t :=
  match q with
  | [] => [x]
  | y :: q' => if item_leb x y then x :: y :: q' else y :: put_nowait q' x
  end.

(** [get_nowait]: [None] stands for [asyncio.QueueEmpty]. *)
Definition get_nowait (q : t) : option (item * t) :=
  match q with
  | [] => None
  | x :: q' => Some (x, q')
  end.

(** The queue built by [Server.__init__] from [data_ports]. *)
Definition of_ports (data_ports : list Z) : t :=
  fold_left (fun q p => put_nowait q (0, p)) data_ports [].

Definition ports (q : t) : list Z := map snd q.

End PriorityQueue.

(** ** Connection and server state *)

(** The argument of [connection.response(code, info)]: one line or a
    list of lines. *)
Inductive Info : Type := Line (s : string) | Lines (l : list string).

Definition Response : Type := (string * Info)%type.

(** The transfer workers a handler can leave in [extra_workers]; each
    closes over the real path resolved by its handler. *)
Inductive Worker : Type :=
| retr_worker (real_path : PurePosixPath.t)
| stor_worker (real_path : PurePosixPath.t) (mode : string).

Record Connection : Type := mkConnection {
  server_host : string;
  passive_server_port : Z;
  user : option User.t;
  logged : option bool;
  current_directory : option PurePosixPath.t;
  passive_server : option PassiveServer;
  data_connection : option nat;
  transfer_type : option string;
  rename_from : option PurePosixPath.t;
  restart_offset : Z;
  block_size : Z;
  acquired : bool;
  extra_workers : list Worker;
  response_queue : list Response
}.

(** [Connection.__init__] as the dispatcher calls it. *)
Definition new_connection (host : string) : Connection :=
  mkConnection host 0 None None None None None None None 0 8192 false [] [].

Definition set_passive_server_port (v : Z) (c : Connection) : Connection :=
  mkConnection (server_host c) v (user c) (logged c) (current_directory c)
    (passive_server c) (data_connection c) (transfer_type c) (rename_from c)
    (restart_offset c) (block_size c) (acquired c) (extra_workers c)
    (response_queue c).

Definition set_current_directory (v : option PurePosixPath.t) (c : Connection)
  : Connection :=
  mkConnection (server_host c) (passive_server_port c) (user c) (logged c) v
    (passive_server c) (data_connection c) (transfer_type c) (rename_from c)
    (restart_offset c) (block_size c) (acquired c) (extra_workers c)
    (response_queue c).

Definition set_passive_server (v : option PassiveServer) (c : Connection)
  : Connection :=
  mkConnection (server_host c) (passive_server_port c) (user c) (logged c)
    (current_directory c) v (data_connection c) (transfer_type c)
    (rename_from c) (restart_offset c) (block_size c) (acquired c)
    (extra_workers c) (response_queue c).

Definition set_data_connection (v : option nat) (c : Connection) : Connection :=
  mkConnection (server_host c) (passive_server_port c) (user c) (logged c)
    (current_directory c) (passive_server c) v (transfer_type c)
    (rename_from c) (restart_offset c) (block_size c) (acquired c)
    (extra_workers c) (response_queue c).

Definition set_transfer_type (v : option string) (c : Connection) : Connection :=
  mkConnection (server_host c) (passive_server_port c) (user c) (logged c)
    (current_directory c) (passive_server c) (data_connection c) v
    (rename_from c) (restart_offset c) (block_size c) (acquired c)
    (extra_workers c) (response_queue c).

Definition set_restart_offset (v : Z) (c : Connection) : Connection :=
  mkConnection (server_host c) (passive_server_port c) (user c) (logged c)
    (current_directory c) (passive_server c) (data_connection c)
    (transfer_type c) (rename_from c) v (block_size c) (acquired c)
    (extra_workers c) (response_queue c).

Definition set_extra_workers (v : list Worker) (c : Connection) : Connection :=
  mkConnection (server_host c) (passive_server_port c) (user c) (logged c)
    (current_directory c) (passive_server c) (data_connection c)
    (transfer_type c) (rename_from c) (restart_offset c) (block_size c)
    (acquired c) v (response_queue c).

(** [connection.response(code, info)] puts the pair on the response
    queue. *)
Definition push_response (r : Response) (c : Connection) : Connection :=
  mkConnection (server_host c) (passive_server_port c) (user c) (logged c)
    (current_directory c) (passive_server c) (data_connection c)
    (transfer_type c) (rename_from c) (restart_offset c) (block_size c)
    (acquired c) (extra_workers c) (response_queue c ++ [r]).

(** The part of [Server] the handlers below read or write. *)
Record Server : Type := mkServer {
  available_data_ports : option PriorityQueue.t;
  ipv4_pasv_forced_response_address : option string
}.

(** Calls to the path-I/O layer, in the order they are made. *)
Inductive PathIOCall : Type :=
| io_exists (p : PurePosixPath.t)
| io_is_dir (p : PurePosixPath.t)
| io_is_file (p : PurePosixPath.t)
| io_size (p : PurePosixPath.t)
| io_open (p : PurePosixPath.t) (mode : string)
| io_seek (offset : Z)
| io_copy_blocks (block_size : Z).

Record World : Type := mkWorld {
  server : Server;
  connection : Connection;
  io_log : list PathIOCall
}.

(** What a handler returns: [True], [False] or [None]. *)
Inductive PyResult : Type := PyBool (b : bool) | PyNone.

(** The names of [Server.commands_mapping]. *)
Inductive Command : Type :=
| c_abor | c_appe | c_cdup | c_cwd | c_dele | c_epsv | c_list | c_mkd
| c_mlsd | c_mlst | c_pass | c_pasv | c_pbsz | c_prot | c_pwd | c_quit
| c_rest | c_retr | c_rmd | c_rnfr | c_rnto | c_stor | c_syst | c_type
| c_user | c_size | c_noop.

(** The surroundings of one handler run: the operating system's answer
    to [asyncio.start_server], the answers of the path-I/O layer, and
    the behaviour of the handlers that are not modelled here. *)
Record Env : Type := mkEnv {
  start_server : string -> Z -> Exc + PassiveServer;
  path_exists : PurePosixPath.t -> Exc + bool;
  path_is_dir : PurePosixPath.t -> Exc + bool;
  path_is_file : PurePosixPath.t -> Exc + bool;
  path_size : PurePosixPath.t -> Exc + Z;
  path_open : PurePosixPath.t -> string -> option Exc;
  other_handler : Command -> string -> World -> (Exc + PyResult) * World
}.

(** ** A monad for handlers: environment, state and exceptions *)

Definition M (A : Type) : Type := Env -> World -> (Exc + A) * World.

Definition ret {A : Type} (a : A) : M A := fun _ w => (inr a, w).

Definition bind {A B : Type} (m : M A) (k : A -> M B) : M B :=
  fun env w =>
    match m env w with
    | (inl e, w') => (inl e, w')
    | (inr a, w') => k a env w'
    end.

Definition raise {A : Type} (e : Exc) : M A := fun _ w => (inl e, w).

Notation "x <- m ;; k" := (bind m (fun x => k))
  (at level 61, m at next level, right associativity).
Notation "m ;;; k" := (bind m (fun _ => k))
  (at level 61, right associativity).

Definition ask : M Env := fun env w => (inr env, w).
Definition get_connection : M Connection := fun _ w => (inr (connection w), w).
Definition get_server : M Server := fun _ w => (inr (server w), w).

Definition modify_connection (f : Connection -> Connection) : M unit :=
  fun _ w => (inr tt, mkWorld (server w) (f (connection w)) (io_log w)).

Definition put_server (s : Server) : M unit :=
  fun _ w => (inr tt, mkWorld s (connection w) (io_log w)).

Definition log_io (c : PathIOCall) : M unit :=
  fun _ w => (inr tt, mkWorld (server w) (connection w) (io_log w ++ [c])).

Definition lift {A : Type} (r : Exc + A) : M A :=
  match r with
  | inl e => raise e
  | inr a => ret a
  end.

Definition response (code : string) (info : Info) : M unit :=
  modify_connection (push_response (code, info)).

(** [try: m except <classes>: h] *)
Definition try_except {A : Type} (m : M A) (catches : Exc -> bool)
    (h : Exc -> M A) : M A :=
  fun env w =>
    match m env w with
    | (inl e, w') => if catches e then h e env w' else (inl e, w')
    | r => r
    end.

(** ** [Server.get_paths] *)

Definition root_path : PurePosixPath.t := PurePosixPath.parse "/".

(** One turn of the loop over [virtual_path.parts[1:]]. *)
Definition resolve_step (resolved : PurePosixPath.t) (part : string)
  : PurePosixPath.t :=
  if String.eqb part ".." then PurePosixPath.parent resolved
  else PurePosixPath.joinstr resolved part.

(** [get_paths(connection, path)] returns [(real_path, virtual_path)],
    on a POSIX host: [base_path] and the real path are [pathlib.Path]
    values, which there have the lexical behaviour of [PurePosixPath].
    ([get_paths_windows] below is the same function on a Windows host.)
    A relative [path] with no current directory is a [TypeError], a
    connection without user an [AttributeError]. *)
Definition get_paths (c : Connection) (path : string)
  : Exc + (PurePosixPath.t * PurePosixPath.t) :=
  let virtual_path := PurePosixPath.parse path in
  let joined :=
    if PurePosixPath.is_absolute virtual_path then inr virtual_path
    else match current_directory c with
         | Some cwd => inr (PurePosixPath.joinpath cwd virtual_path)
         | None => inl TypeError
         end in
  match joined with
  | inl e => inl e
  | inr virtual_path' =>
      let resolved_virtual_path :=
        fold_left resolve_step (List.tl (PurePosixPath.parts virtual_path'))
                  root_path in
      match user c with
      | None => inl AttributeError
      | Some u =>
          let base_path := User.base_path u in
          match PurePosixPath.relative_to resolved_virtual_path root_path with
          | None => inl (ValueError "not in the subpath")
          | Some rel =>
              let real_path := PurePosixPath.joinpath base_path rel in
              match PurePosixPath.relative_to real_path base_path with
              | Some _ => inr (real_path, resolved_virtual_path)
              | None => inr (base_path, root_path)
              end
          end
      end
  end.

Definition get_paths_M (path : string)
  : M (PurePosixPath.t * PurePosixPath.t) :=
  c <- get_connection ;; lift (get_paths c path).

(** ** The three guard decorators *)

(** The connection attributes [ConnectionConditions] can require. *)
Inductive ConnField : Type :=
| f_user | f_logged | f_passive_server | f_data_connection | f_rename_from.

Definition field_is_None (c : Connection) (f : ConnField) : bool :=
  match f with
  | f_user => match user c with None => true | _ => false end
  | f_logged => match logged c with None => true | _ => false end
  | f_passive_server =>
      match passive_server c with None => true | _ => false end
  | f_data_connection =>
      match data_connection c with None => true | _ => false end
  | f_rename_from => match rename_from c with None => true | _ => false end
  end.

Definition user_required := (f_user, "no user (use USER firstly)").
Definition login_required := (f_logged, "not logged in").
Definition passive_server_started :=
  (f_passive_server, "no listen socket created (use PASV firstly)").
Definition data_connection_made :=
  (f_data_connection, "no data connection made").
Definition rename_from_required :=
  (f_rename_from, "no filename (use RNFR firstly)").

Definition handler : Type := string -> M PyResult.

(** [ConnectionConditions(fields..., wait, fail_code, fail_info)(f)].  The
    wrapper reads [fail_code] only; the first missing field answers with
    its own message and the wrapper returns what [response] returns,
    that is [None]. *)
Definition ConnectionConditions (fields : list (ConnField * string))
    (wait : bool) (fail_code : string) (fail_info : option string)
    (f : handler) : handler :=
  fun rest =>
    c <- get_connection ;;
    match find (fun fm => field_is_None c (fst fm)) fields with
    | Some (_, msg) => response fail_code (Line msg) ;;; ret PyNone
    | None => f rest
    end.

(** The path-I/O predicates [PathConditions] can call. *)
Inductive PathTest : Type := t_exists | t_is_dir | t_is_file.

Definition path_must_exists := (t_exists, false, "path does not exists").
Definition path_must_not_exists := (t_exists, true, "path already exists").
Definition path_must_be_dir := (t_is_dir, false, "path is not a directory").
Definition path_must_be_file := (t_is_file, false, "path is not a file").

(** [await getattr(connection.path_io, name)(real_path)] *)
Definition path_io_test (t : PathTest) (p : PurePosixPath.t) : M bool :=
  env <- ask ;;
  match t with
  | t_exists => log_io (io_exists p) ;;; lift (path_exists env p)
  | t_is_dir => log_io (io_is_dir p) ;;; lift (path_is_dir env p)
  | t_is_file => log_io (io_is_file p) ;;; lift (path_is_file env p)
  end.

Fixpoint check_conditions (conds : list (PathTest * bool * string))
    (real_path : PurePosixPath.t) (k : M PyResult) : M PyResult :=
  match conds with
  | [] => k
  | (name, fail, message) :: conds' =>
      b <- path_io_test name real_path ;;
      if Bool.eqb b fail
      then response "550" (Line message) ;;; ret (PyBool true)
      else check_conditions conds' real_path k
  end.

(** [PathConditions(conditions...)(f)] *)
Definition PathConditions (conditions : list (PathTest * bool * string))
    (f : handler) : handler :=
  fun rest =>
    rv <- get_paths_M rest ;;
    check_conditions conditions (fst rv) (f rest).

(** [PathPermissions(permissions...)(f)].  In the source the line
    [return await f(...)] stands inside the [for] loop, so the first turn
    of the loop always returns: only the first declared flag is looked
    at, and with no flag declared the loop body never runs and the
    wrapper returns [None]. *)
Definition PathPermissions (permissions : list Permission.flag)
    (f : handler) : handler :=
  fun rest =>
    rv <- get_paths_M rest ;;
    c <- get_connection ;;
    match user c with
    | None => raise AttributeError
    | Some u =>
        let current_permission := User.get_permissions u (snd rv) in
        match permissions with
        | [] => ret PyNone
        | permission :: _ =>
            if negb (Permission.getattr current_permission permission)
            then response "550" (Line "permission denied") ;;; ret (PyBool true)
            else f rest
        end
    end.

(** ** Command handlers *)

(** [ftp_quit] *)
Definition ftp_quit : handler :=
  fun rest => response "221" (Line "bye") ;;; ret (PyBool false).

(** [ftp_pwd] *)
Definition ftp_pwd : handler :=
  ConnectionConditions [login_required] false "503" None (fun rest =>
    c <- get_connection ;;
    let shown := match current_directory c with
                 | Some d => PurePosixPath.to_string d
                 | None => "None"
                 end in
    response "257" (Line (Py.dquote ++ shown ++ Py.dquote)) ;;;
    ret (PyBool true)).

(** [ftp_cwd] *)
Definition ftp_cwd : handler :=
  ConnectionConditions [login_required] false "503" None
  (PathConditions [path_must_exists; path_must_be_dir]
  (PathPermissions [Permission.readable_flag] (fun rest =>
    rv <- get_paths_M rest ;;
    modify_connection (set_current_directory (Some (snd rv))) ;;;
    response "250" (Line "") ;;;
    ret (PyBool true)))).

(** [ftp_size] *)
Definition ftp_size_body : handler :=
  fun rest =>
    c <- get_connection ;;
    if Py.eq_str (transfer_type c) "A" then
      response "550" (Line "SIZE not allowed in ASCII mode") ;;;
      ret (PyBool true)
    else
      rv <- get_paths_M rest ;;
      env <- ask ;;
      log_io (io_size (fst rv)) ;;;
      file_size <- lift (path_size env (fst rv)) ;;
      response "213" (Line (Py.str file_size)) ;;;
      ret (PyBool true).

Definition ftp_size : handler :=
  ConnectionConditions [login_required] false "503" None
  (PathConditions [path_must_exists; path_must_be_file] ftp_size_body).

(** [ftp_noop] *)
Definition ftp_noop : handler :=
  ConnectionConditions [login_required] false "503" None (fun rest =>
    response "200" (Line "I successfully did nothing") ;;; ret (PyBool true)).

(** [ftp_type] *)
Definition ftp_type : handler :=
  ConnectionConditions [login_required] false "503" None (fun rest =>
    (if String.eqb rest "I" || String.eqb rest "A"
     then modify_connection (set_transfer_type (Some rest)) ;;;
          response "200" (Line "")
     else response "502" (Line ("type " ++ Py.repr rest ++ " not implemented")))
    ;;; ret (PyBool true)).

(** [ftp_pbsz] *)
Definition ftp_pbsz : handler :=
  ConnectionConditions [login_required] false "503" None (fun rest =>
    response "200" (Line "") ;;; ret (PyBool true)).

(** [ftp_prot] *)
Definition ftp_prot : handler :=
  ConnectionConditions [login_required] false "503" None (fun rest =>
    (if String.eqb rest "P" then response "200" (Line "")
     else response "502" (Line "")) ;;;
    ret (PyBool true)).

(** [ftp_syst] *)
Definition ftp_syst : handler :=
  fun rest => response "215" (Line "UNIX Type: L8") ;;; ret (PyBool true).

(** [ftp_rest], for an argument of one-byte characters.  A digit
    string longer than [int] converts makes [int(rest)] raise. *)
Definition ftp_rest : handler :=
  fun rest =>
    (if Py.isdigit rest
     then match Py.int rest with
          | Some offset =>
              modify_connection (set_restart_offset offset) ;;;
              response "350" (Line ("restarting at " ++ rest))
          | None => raise (ValueError (Py.int_limit_message rest))
          end
     else modify_connection (set_restart_offset 0) ;;;
          response "501"
            (Line ("syntax error, can't restart at " ++ Py.repr rest))) ;;;
    ret (PyBool true).

(** *** Transfers

    A transfer handler leaves a worker in [extra_workers]; the worker
    runs later, as a task of its own.  The bytes moved are not
    modelled: a worker logs the file it opens, the seek it performs and
    the block copy. *)

Definition add_worker (w : Worker) : M unit :=
  modify_connection (fun c => set_extra_workers (extra_workers c ++ [w]) c).

(** [ftp_retr] *)
Definition ftp_retr : handler :=
  ConnectionConditions [login_required; passive_server_started] false "503" None
  (PathConditions [path_must_exists; path_must_be_file]
  (PathPermissions [Permission.readable_flag] (fun rest =>
    rv <- get_paths_M rest ;;
    add_worker (retr_worker (fst rv)) ;;;
    response "150" (Line "data transfer started") ;;;
    ret (PyBool true)))).

(** [ftp_stor(connection, rest, mode)] *)
Definition ftp_stor (mode : string) : handler :=
  ConnectionConditions [login_required; passive_server_started] false "503" None
  (PathPermissions [Permission.writable_flag] (fun rest =>
    rv <- get_paths_M rest ;;
    env <- ask ;;
    log_io (io_is_dir (PurePosixPath.parent (fst rv))) ;;;
    d <- lift (path_is_dir env (PurePosixPath.parent (fst rv))) ;;
    (if d : bool
     then add_worker (stor_worker (fst rv) mode) ;;;
          response "150" (Line "data transfer started")
     else response "550" (Line "path unreachable")) ;;;
    ret (PyBool true))).

(** [ftp_appe] *)
Definition ftp_appe : handler := ftp_stor "ab".

(** [path_io.open(path, mode)] entered by [async with]. *)
Definition open_file (p : PurePosixPath.t) (mode : string) : M unit :=
  env <- ask ;;
  log_io (io_open p mode) ;;;
  match path_open env p mode with
  | Some e => raise e
  | None => ret tt
  end.

(** The body shared by the workers once the file is open:
    [if connection.restart_offset: await file.seek(...)], then the copy
    loop. *)
Definition seek_and_copy : M unit :=
  c <- get_connection ;;
  (if restart_offset c =? 0 then ret tt
   else log_io (io_seek (restart_offset c))) ;;;
  log_io (io_copy_blocks (block_size c)).

(** The [worker] decorator: it awaits the body and returns nothing, so
    the value the body returns is dropped.  What it does when the task
    is cancelled is not modelled. *)
Definition worker (f : handler) : handler :=
  fun rest => f rest ;;; ret PyNone.

(** [retr_worker] and [stor_worker] under [worker] and their
    [ConnectionConditions(data_connection_made, wait=True,
    fail_code="425", fail_info="Can't open data connection")]. *)
Definition run_worker (w : Worker) : M PyResult :=
  ConnectionConditions [data_connection_made] true "425"
    (Some "Can't open data connection")
    (worker (fun _ =>
       modify_connection (set_data_connection None) ;;;
       c <- get_connection ;;
       match w with
       | retr_worker real_path =>
           open_file real_path "rb" ;;;
           seek_and_copy ;;;
           response "226" (Line "data transfer done") ;;;
           ret (PyBool true)
       | stor_worker real_path mode =>
           let file_mode := if restart_offset c =? 0 then mode else "r+b" in
           open_file real_path file_mode ;;;
           seek_and_copy ;;;
           response "226" (Line "data transfer done") ;;;
           ret (PyBool true)
       end)) "".

(** *** Passive mode *)

Inductive LoopOutcome : Type :=
| Bound (srv : PassiveServer) (port : Z)
| Raised (e : Exc)
| NoFuel.

(** The [while True] loop of [_start_passive_server] over the port
    queue.  [start port] is the outcome of [asyncio.start_server] on
    that port.  An exception raised inside the [try] goes through the
    two [except] clauses in order: [QueueEmpty] is turned into
    [NoAvailablePort]; an [OSError] puts the port back with
    [priority + 1] and is re-raised unless its errno is [EADDRINUSE], in
    which case the loop goes on; anything else propagates. *)
Fixpoint passive_loop (E : ErrorsModule) (start : Z -> Exc + PassiveServer)
    (fuel : nat) (q : PriorityQueue.t) (viewed_ports : list Z)
  : PriorityQueue.t * LoopOutcome :=
  match fuel with
  | O => (q, NoFuel)
  | S fuel' =>
      match PriorityQueue.get_nowait q with
      | None => (q, Raised NoAvailablePort)
      | Some ((priority, port), q1) =>
          let seen := existsb (Z.eqb port) viewed_ports in
          let attempt := if seen then inl NoAvailablePort else start port in
          let viewed_ports' := if seen then viewed_ports
                               else port :: viewed_ports in
          match attempt with
          | inr passive_server => (q1, Bound passive_server port)
          | inl QueueEmpty => (q1, Raised NoAvailablePort)
          | inl err =>
              if is_OSError E err then
                let q2 := PriorityQueue.put_nowait q1 (priority + 1, port) in
                match errno_of err with
                | Some n =>
                    if n =? EADDRINUSE
                    then passive_loop E start fuel' q2 viewed_ports'
                    else (q2, Raised err)
                | None => (q2, Raised err)
                end
              else (q1, Raised err)
          end
      end
  end.

Definition set_available_data_ports (q : option PriorityQueue.t) (s : Server)
  : Server :=
  mkServer q (ipv4_pasv_forced_response_address s).

(** [_start_passive_server] *)
Definition _start_passive_server (E : ErrorsModule) : M PassiveServer :=
  env <- ask ;;
  s <- get_server ;;
  c <- get_connection ;;
  match available_data_ports s with
  | Some q =>
      let '(q', out) :=
        passive_loop E (start_server env (server_host c))
                     (S (List.length q)) q [] in
      put_server (set_available_data_ports (Some q') s) ;;;
      match out with
      | Bound passive_server port =>
          modify_connection (set_passive_server_port port) ;;;
          ret passive_server
      | Raised e => raise e
      | NoFuel => raise FuelExhausted
      end
  | None => lift (start_server env (server_host c) (passive_server_port c))
  end.

Definition is_NoAvailablePort (e : Exc) : bool :=
  match e with
  | NoAvailablePort => true
  | _ => false
  end.

(** The first part of [ftp_pasv] and [ftp_epsv]: start a listener unless
    there is one.  [None] is the early [return False] after the 421
    reply, otherwise the first line of the success reply. *)
Definition ensure_passive_server (E : ErrorsModule) : M (option string) :=
  c <- get_connection ;;
  match passive_server c with
  | None =>
      try_except
        (srv <- _start_passive_server E ;;
         modify_connection (set_passive_server (Some srv)) ;;;
         ret (Some "listen socket created"))
        is_NoAvailablePort
        (fun _ => response "421" (Lines ["no free ports"]) ;;; ret None)
  | Some _ => ret (Some "listen socket already exists")
  end.

(** [if connection.data_connection is not None: close it and clear it] *)
Definition drop_stale_data_connection : M unit :=
  modify_connection (set_data_connection None).

Fixpoint int_all (l : list string) : option (list Z) :=
  match l with
  | [] => Some []
  | x :: l' =>
      match Py.int x, int_all l' with
      | Some n, Some ns => Some (n :: ns)
      | _, _ => None
      end
  end.

(** [ftp_pasv] *)
Definition ftp_pasv (E : ErrorsModule) : handler :=
  ConnectionConditions [login_required] false "503" None (fun rest =>
    first <- ensure_passive_server E ;;
    match first with
    | None => ret (PyBool false)
    | Some line =>
        c <- get_connection ;;
        s <- get_server ;;
        match passive_server c with
        | None => raise AttributeError
        | Some srv =>
            match find (fun sock => match family sock with
                                    | AF_INET => true
                                    | _ => false
                                    end) (sockets srv) with
            | None =>
                response "503" (Lines ["this server started in ipv6 mode"]) ;;;
                ret (PyBool false)
            | Some sock =>
                let host :=
                  match ipv4_pasv_forced_response_address s with
                  | Some forced =>
                      if Py.truthy forced then forced else sockname_host sock
                  | None => sockname_host sock
                  end in
                let port := sockname_port sock in
                match int_all (Py.split "." host) with
                | None => raise (ValueError "invalid literal for int()")
                | Some octets =>
                    let nums :=
                      (octets ++ [Z.shiftr port 8; Z.land port 255])%list in
                    let address :=
                      "(" ++ Py.join "," (map Py.str nums) ++ ")" in
                    drop_stale_data_connection ;;;
                    response "227" (Lines [line; address]) ;;;
                    ret (PyBool true)
                end
            end
        end
    end).

(** [ftp_epsv]; when no socket of the listener is an internet socket the
    name [port] is unbound at its use. *)
Definition ftp_epsv (E : ErrorsModule) : handler :=
  ConnectionConditions [login_required] false "503" None (fun rest =>
    if Py.truthy rest then
      response "522" (Lines ["custom protocols support not implemented"]) ;;;
      ret (PyBool false)
    else
      first <- ensure_passive_server E ;;
      match first with
      | None => ret (PyBool false)
      | Some line =>
          c <- get_connection ;;
          match passive_server c with
          | None => raise AttributeError
          | Some srv =>
              match find (fun sock => match family sock with
                                      | AF_INET | AF_INET6 => true
                                      | _ => false
                                      end) (sockets srv) with
              | None => raise UnboundLocalError
              | Some sock =>
                  let port := sockname_port sock in
                  drop_stale_data_connection ;;;
                  response "229"
                    (Lines [line ++ " (|||" ++ Py.str port ++ "|)"]) ;;;
                  ret (PyBool true)
              end
          end
      end).

(** ** [Server.dispatcher] *)

Definition commands_table : list (string * Command) :=
  [ ("abor", c_abor); ("appe", c_appe); ("cdup", c_cdup); ("cwd", c_cwd);
    ("dele", c_dele); ("epsv", c_epsv); ("list", c_list); ("mkd", c_mkd);
    ("mlsd", c_mlsd); ("mlst", c_mlst); ("pass", c_pass); ("pasv", c_pasv);
    ("pbsz", c_pbsz); ("prot", c_prot); ("pwd", c_pwd); ("quit", c_quit);
    ("rest", c_rest); ("retr", c_retr); ("rmd", c_rmd); ("rnfr", c_rnfr);
    ("rnto", c_rnto); ("stor", c_stor); ("syst", c_syst); ("type", c_type);
    ("user", c_user); ("size", c_size); ("noop", c_noop) ].

(** [self.commands_mapping.get(cmd)] *)
Definition commands_mapping (cmd : string) : option Command :=
  option_map snd (find (fun kv => String.eqb (fst kv) cmd) commands_table).

(** The coroutine behind each entry of the table.  The handlers that
    are not modelled ([abor], [cdup], [dele], [list], [mkd], [mlsd],
    [mlst], [pass], [rmd], [rnfr], [rnto], [user]) are taken from the
    environment. *)
Definition run_command (E : ErrorsModule) (f : Command) : handler :=
  match f with
  | c_quit => ftp_quit
  | c_pwd => ftp_pwd
  | c_cwd => ftp_cwd
  | c_size => ftp_size
  | c_noop => ftp_noop
  | c_type => ftp_type
  | c_pbsz => ftp_pbsz
  | c_prot => ftp_prot
  | c_syst => ftp_syst
  | c_rest => ftp_rest
  | c_retr => ftp_retr
  | c_stor => ftp_stor "wb"
  | c_appe => ftp_appe
  | c_pasv => ftp_pasv E
  | c_epsv => ftp_epsv E
  | other => fun rest env w => other_handler env other rest w
  end.

(** [cmd not in ("retr", "stor", "appe")] *)
Definition is_transfer_command (cmd : string) : bool :=
  String.eqb cmd "retr" || String.eqb cmd "stor" || String.eqb cmd "appe".

Definition update_connection (f : Connection -> Connection) (w : World)
  : World :=
  mkWorld (server w) (f (connection w)) (io_log w).

(** The dispatcher's branch for a parsed command: the handler task is
    created (it starts running only when the dispatcher next awaits),
    then [restart_offset] is cleared unless the command is a transfer.
    An unknown command is answered with 502. *)
Definition dispatch (cmd rest : string) (w : World) : World * option Command :=
  match commands_mapping cmd with
  | Some f =>
      (if is_transfer_command cmd then w
       else update_connection (set_restart_offset 0) w, Some f)
  | None =>
      (update_connection
         (push_response ("502", Line (Py.repr cmd ++ " not implemented"))) w,
       None)
  end.

(** Why a session ended: a handler returned [False], or an exception
    other than a path-I/O error reached the dispatcher. *)
Inductive SessionEnd : Type := ReturnedFalse | Crashed (e : Exc).

(** The dispatcher's look at a finished task. *)
Definition after_task (r : (Exc + PyResult) * World)
  : World * option SessionEnd :=
  match r with
  | (inl PathIOError, w) =>
      (update_connection (push_response ("451", Line "file system error")) w,
       None)
  | (inl e, w) => (w, Some (Crashed e))
  | (inr (PyBool false), w) => (w, Some ReturnedFalse)
  | (inr _, w) => (w, None)
  end.

(** What the dispatcher of one session reacts to, when handlers run one
    at a time: the handler of a command runs to its end before the next
    input is looked at, and so does a worker once it is started.  That
    is the run of a client that sends a line when the reply to the line
    before has arrived.  The dispatcher itself starts every handler as a
    task and goes on reading: a line that is already there when a
    handler starts is dispatched while that handler is under way (Part V
    follows [PASV] and [EPSV] handlers that overlap). *)
Inductive Input : Type :=
| in_command (cmd rest : string)
| in_data_connect (stream : nat)
| in_worker
| in_disconnect.

(** The accept callback installed by [ftp_pasv] and [ftp_epsv]: the
    first data connection is kept, later ones are closed at once. *)
Definition accept_data_connection (stream : nat) (c : Connection)
  : Connection :=
  match passive_server c, data_connection c with
  | Some _, None => set_data_connection (Some stream) c
  | _, _ => c
  end.

Definition dispatcher_step (E : ErrorsModule) (i : Input) (env : Env)
    (w : World) : World * option SessionEnd :=
  match i with
  | in_command cmd rest =>
      match dispatch cmd rest w with
      | (w1, Some f) => after_task (run_command E f rest env w1)
      | (w1, None) => (w1, None)
      end
  | in_data_connect stream =>
      (update_connection (accept_data_connection stream) w, None)
  | in_worker =>
      match extra_workers (connection w) with
      | [] => (w, None)
      | wk :: rest =>
          after_task
            (run_worker wk env (update_connection (set_extra_workers rest) w))
      end
  | in_disconnect => (w, Some (Crashed ConnectionResetError))
  end.

(** The [finally] block, as far as it touches the modelled state: the
    pending workers are cancelled, and the port of a listener goes back
    to the queue with priority 0.  Closing the streams, releasing the
    connection counters and the logout notification are left out. *)
Definition dispatcher_finally (w : World) : World :=
  let c := connection w in
  let s := server w in
  let s' := match passive_server c, available_data_ports s with
            | Some _, Some q =>
                set_available_data_ports
                  (Some (PriorityQueue.put_nowait q (0, passive_server_port c)))
                  s
            | _, _ => s
            end in
  mkWorld s' (set_extra_workers [] c) (io_log w).

(** The session loop over a list of inputs, handled one at a time:
    [None] when the inputs are used up and the session is still open. *)
Fixpoint dispatcher (E : ErrorsModule) (inputs : list (Input * Env))
    (w : World) : World * option SessionEnd :=
  match inputs with
  | [] => (w, None)
  | (i, env) :: inputs' =>
      match dispatcher_step E i env w with
      | (w', Some e) => (dispatcher_finally w', Some e)
      | (w', None) => dispatcher E inputs' w'
      end
  end.

(** ** Several sessions on one server *)

Record System : Type := mkSystem {
  sys_server : Server;
  sessions : list Connection
}.

Definition replace_nth {A : Type} (n : nat) (x : A) (l : list A) : list A :=
  (firstn n l ++ x :: skipn (S n) l)%list.

Definition remove_nth {A : Type} (n : nat) (l : list A) : list A :=
  (firstn n l ++ skipn (S n) l)%list.

(** One input to the [n]-th open session, handled to its end before
    the next input of any session.  A session that ends runs its
    [finally] block and leaves the list. *)
Definition system_step (E : ErrorsModule) (sys : System)
    (ev : nat * Input * Env) : System :=
  let '(n, i, env) := ev in
  match nth_error (sessions sys) n with
  | None => sys
  | Some c =>
      match dispatcher_step E i env (mkWorld (sys_server sys) c []) with
      | (w, None) =>
          mkSystem (server w) (replace_nth n (connection w) (sessions sys))
      | (w, Some _) =>
          mkSystem (server (dispatcher_finally w)) (remove_nth n (sessions sys))
      end
  end.

Definition system_run (E : ErrorsModule) (evs : list (nat * Input * Env))
    (sys : System) : System :=
  fold_left (system_step E) evs sys.

(* ================================================================== *)
(** * Part II. Properties                                              *)
(* ================================================================== *)

(** ** [AvailableConnections]: the bounds of [acquire] and [release] *)

Section AvailableConnectionsFacts.
Import AvailableConnections.

Lemma acquire_unbounded (m : option Z) :
  acquire (mk None m) = (mk None m, None).
Proof. reflexivity. Qed.

Lemma release_unbounded (m : option Z) :
  release (mk None m) = (mk None m, None).
Proof. reflexivity. Qed.

Lemma acquire_value (v : Z) (m : option Z) :
  value (fst (acquire (mk (Some v) m))) = Some (v - 1).
Proof. unfold acquire; simpl. destruct (v - 1 <? 0); reflexivity. Qed.

Lemma release_value (v m : Z) :
  value (fst (release (mk (Some v) (Some m)))) = Some (v + 1).
Proof. unfold release; simpl. destruct (m <? v + 1); reflexivity. Qed.

Lemma acquire_raises_iff (v : Z) (m : option Z) :
  snd (acquire (mk (Some v) m)) = Some (ValueError "Too many acquires")
  <-> v <= 0.
Proof.
  unfold acquire; simpl.
  destruct (Z.ltb_spec (v - 1) 0); simpl; split; intros; try lia;
    try discriminate; reflexivity.
Qed.

Lemma release_raises_iff (v m : Z) :
  snd (release (mk (Some v) (Some m))) = Some (ValueError "Too many releases")
  <-> m <= v.
Proof.
  unfold release; simpl.
  destruct (Z.ltb_spec m (v + 1)); simpl; split; intros; try lia;
    try discriminate; reflexivity.
Qed.

(** C10, as the code has it.  On a counter holding [v] with maximum [m]:
    [acquire] raises [ValueError] exactly when [v <= 0] and otherwise
    returns normally, and in both cases leaves [v - 1] in the counter;
    [release] raises [ValueError] exactly when [v >= m] and otherwise
    returns normally, and in both cases leaves [v + 1], which is [m + 1]
    for a release at the maximum.  Neither touches the maximum. *)
Theorem available_connections_bounds (v m : Z) :
  let a := mk (Some v) (Some m) in
  (snd (acquire a) = Some (ValueError "Too many acquires") <-> v <= 0)
  /\ (snd (acquire a) = None <-> 0 < v)
  /\ fst (acquire a) = mk (Some (v - 1)) (Some m)
  /\ (snd (release a) = Some (ValueError "Too many releases") <-> m <= v)
  /\ (snd (release a) = None <-> v < m)
  /\ fst (release a) = mk (Some (v + 1)) (Some m)
  /\ (v = m -> value (fst (release a)) = Some (m + 1)).
Proof.
  cbv zeta. repeat split; intros;
    try (apply acquire_raises_iff; assumption);
    try (apply release_raises_iff; assumption);
    unfold acquire, release in *; simpl in *;
    try destruct (Z.ltb_spec (v - 1) 0); try destruct (Z.ltb_spec m (v + 1));
    simpl in *; subst; try reflexivity; try discriminate; try lia.
Qed.

(** C10 as stated fails for [release]: after one failed release the
    counter of [AvailableConnections(1)] holds 2, which is not the
    maximum, and the next release raises all the same. *)
Lemma release_raises_above_maximum :
  let a := fst (release (init (Some 1))) in
  value a = Some 2
  /\ maximum_value a = Some 1
  /\ value a <> maximum_value a
  /\ snd (release a) = Some (ValueError "Too many releases").
Proof. cbv. repeat split. discriminate. Qed.

End AvailableConnectionsFacts.

(** ** [Throttle.append] *)

Section ThrottleFacts.
Import Throttle.
Context {T : Type} `{TimeOps T}.

Lemma append_unlimited (self : Throttle.t T) (data : list Byte.byte) (start : T) :
  _limit self = None -> append self data start = self.
Proof. intros Hl. unfold append. rewrite Hl. reflexivity. Qed.

Lemma append_nonpositive (self : Throttle.t T) (data : list Byte.byte)
    (start : T) (limit : Z) :
  _limit self = Some limit -> limit <= 0 -> append self data start = self.
Proof.
  intros Hl Hle. unfold append. rewrite Hl.
  destruct (Z.ltb_spec 0 limit); [lia | reflexivity].
Qed.

(** C6.  With a limit that is set and positive, [append(data, start)]
    takes [start] as the window start when none is set; if
    [start - window_start > reset_rate] it subtracts
    [round((start - window_start) * limit)] from the byte count and
    moves the window start to [start]; then it adds [len(data)].  The
    limit and the reset rate stay.  With no limit, or a limit that is not
    positive, the throttle is unchanged. *)
Theorem throttle_append_spec (self : Throttle.t T) (data : list Byte.byte)
    (start : T) :
  (forall limit, _limit self = Some limit -> 0 < limit ->
     let window_start := match _start self with
                         | None => start
                         | Some s => s
                         end in
     let elapsed := tsub start window_start in
     let self' := append self data start in
     (tgt elapsed (reset_rate self) = true ->
        _start self' = Some start
        /\ _sum self' = _sum self - tround (tmul_int elapsed limit)
                        + Z.of_nat (List.length data))
     /\ (tgt elapsed (reset_rate self) = false ->
        _start self' = Some window_start
        /\ _sum self' = _sum self + Z.of_nat (List.length data))
     /\ _limit self' = _limit self
     /\ reset_rate self' = reset_rate self)
  /\ (_limit self = None -> append self data start = self)
  /\ (forall limit, _limit self = Some limit -> limit <= 0 ->
        append self data start = self).
Proof.
  split; [| split].
  - intros limit Hl Hpos. cbv zeta. unfold append. rewrite Hl.
    destruct (Z.ltb_spec 0 limit); [| lia].
    destruct (tgt _ _); simpl; repeat split; intros; try discriminate;
      reflexivity.
  - apply append_unlimited.
  - intros limit. apply append_nonpositive.
Qed.

End ThrottleFacts.

(** A run on exact rational time: limit 100 bytes per second, reset
    rate 10 seconds, window opened at time 0 with 5000 bytes counted;
    three bytes appended at time 25. *)
Lemma throttle_append_witness :
  let self := Throttle.mk (Some 100) (10 # 1)%Q (Some (0 # 1)%Q) 5000 in
  let data := [Byte.x00; Byte.x01; Byte.x02] in
  Throttle._limit self = Some 100 /\ 0 < 100
  /\ Throttle._start (Throttle.append self data (25 # 1)%Q) = Some (25 # 1)%Q
  /\ Throttle._sum (Throttle.append self data (25 # 1)%Q) = 2503.
Proof.
  cbv zeta.
  split; [reflexivity | split; [lia |]].
  pose proof (throttle_append_spec
                (Throttle.mk (Some 100) (10 # 1)%Q (Some (0 # 1)%Q) 5000)
                [Byte.x00; Byte.x01; Byte.x02] (25 # 1)%Q) as [Hpos _].
  specialize (Hpos 100 eq_refl ltac:(lia)).
  cbv zeta in Hpos. destruct Hpos as [Hgt _].
  specialize (Hgt eq_refl). exact Hgt.
Defined.

(** ** [User.get_permissions]: the nearest parent *)

Section MinFacts.
Context {A : Type} (key : A -> nat).

(** [min_from] returns the first of the least elements: the list splits
    around the result, with strictly larger keys before it. *)
Lemma min_from_split (l : list A) : forall best,
  exists l1 l2,
    best :: l = (l1 ++ min_from key best l :: l2)%list
    /\ (forall x, In x l1 -> (key (min_from key best l) < key x)%nat)
    /\ (forall x, In x l2 -> (key (min_from key best l) <= key x)%nat).
Proof.
  induction l as [| y l IH]; intros best; simpl.
  - exists [], []. repeat split; intros x [].
  - destruct (Nat.ltb_spec (key y) (key best)) as [Hlt | Hge].
    + destruct (IH y) as (l1 & l2 & Heq & H1 & H2).
      exists (best :: l1), l2. repeat split.
      * simpl. f_equal. exact Heq.
      * intros x [<- | Hin]; [| apply H1; exact Hin].
        assert (Hy : (key (min_from key y l) <= key y)%nat).
        { destruct l1 as [| z l1'].
          - simpl in Heq. injection Heq as Hz _. rewrite <- Hz. lia.
          - simpl in Heq. injection Heq as Hz _. subst z.
            specialize (H1 y (or_introl eq_refl)). lia. }
        lia.
      * exact H2.
    + destruct (IH best) as (l1 & l2 & Heq & H1 & H2).
      destruct l1 as [| z l1'].
      * simpl in Heq. injection Heq as Hb Hl.
        exists [], (y :: l2). repeat split.
        -- simpl. rewrite <- Hb. f_equal. f_equal. exact Hl.
        -- intros x [].
        -- intros x [<- | Hin]; [rewrite <- Hb; exact Hge | apply H2; exact Hin].
      * simpl in Heq. injection Heq as Hz Hl. subst z.
        exists (best :: y :: l1'), l2. repeat split.
        -- simpl. f_equal. f_equal. exact Hl.
        -- intros x [<- | [<- | Hin]].
           ++ apply H1. left. reflexivity.
           ++ specialize (H1 best (or_introl eq_refl)). lia.
           ++ apply H1. right. exact Hin.
        -- exact H2.
Qed.

End MinFacts.

Lemma filter_split {A : Type} (f : A -> bool) (l : list A) :
  forall l1 x l2,
    filter f l = (l1 ++ x :: l2)%list ->
    exists p1 p2,
      l = (p1 ++ x :: p2)%list /\ filter f p1 = l1 /\ filter f p2 = l2
      /\ f x = true.
Proof.
  induction l as [| y l IH]; intros l1 x l2 Heq; simpl in Heq.
  - destruct l1; discriminate.
  - destruct (f y) eqn:Hfy.
    + destruct l1 as [| z l1'].
      * simpl in Heq. injection Heq as Hy Hl. subst y.
        exists [], l. repeat split; auto.
      * simpl in Heq. injection Heq as Hy Hl. subst z.
        destruct (IH _ _ _ Hl) as (p1 & p2 & Hp & Hf1 & Hf2 & Hx).
        exists (y :: p1), p2. repeat split; auto.
        -- simpl. f_equal. exact Hp.
        -- simpl. rewrite Hfy. f_equal. exact Hf1.
    + destruct (IH _ _ _ Heq) as (p1 & p2 & Hp & Hf1 & Hf2 & Hx).
      exists (y :: p1), p2. repeat split; auto.
      * simpl. f_equal. exact Hp.
      * simpl. rewrite Hfy. exact Hf1.
Qed.

Section PathFacts.
Import PurePosixPath.

Lemma strip_prefix_app (pre l rest : list string) :
  strip_prefix pre l = Some rest <-> l = (pre ++ rest)%list.
Proof.
  revert l. induction pre as [| x pre IH]; intros l; simpl.
  - split; intros Heq; [injection Heq as <- | subst]; reflexivity.
  - destruct l as [| y l].
    + split; intros Heq; discriminate.
    + destruct (String.eqb_spec x y) as [-> | Hne].
      * rewrite IH. split; intros Heq; [subst | injection Heq as ->];
          reflexivity.
      * split; intros Heq; [discriminate | injection Heq as Hxy _].
        congruence.
Qed.

(** [relative_to] succeeds exactly on a path with the same root whose
    components extend those of [other]. *)
Lemma relative_to_Some (p other r : t) :
  relative_to p other = Some r
  <-> root p = root other /\ root r = ""
      /\ tail p = (tail other ++ tail r)%list.
Proof.
  unfold relative_to. destruct (String.eqb_spec (root p) (root other)) as [Hr | Hr].
  - destruct (strip_prefix (tail other) (tail p)) as [rest |] eqn:Hs.
    + apply strip_prefix_app in Hs. split.
      * intros Heq. injection Heq as <-. simpl. auto.
      * intros (_ & Hroot & Htail). destruct r as [rr rt]. simpl in *.
        subst rr. rewrite Hs in Htail. apply app_inv_head in Htail.
        subst. reflexivity.
    + split; [discriminate |]. intros (_ & _ & Htail).
      apply strip_prefix_app in Htail. congruence.
  - split; [discriminate | intros (Heq & _)]. contradiction.
Qed.

End PathFacts.

Section PermissionFacts.
Import PurePosixPath.

(** For a parent permission, the sort key of [get_permissions] is the
    number of components of the query below the permission's path. *)
Lemma remaining_parts_parent (P : PurePosixPath.t) (p : Permission.t) :
  Permission.is_parent p P = true ->
  List.length (tail P)
  = (List.length (tail (Permission.path p)) + User.remaining_parts P p)%nat.
Proof.
  unfold Permission.is_parent, User.remaining_parts.
  destruct (relative_to P (Permission.path p)) as [r |] eqn:Hr;
    [intros _ | discriminate].
  apply relative_to_Some in Hr. destruct Hr as (_ & Hroot & Htail).
  rewrite Htail, length_app. unfold parts. rewrite Hroot. reflexivity.
Qed.

(** C7.  [get_permissions(P)] is the default permission
    [{path "/", readable, writable}] when no permission of the user is a
    parent of [P].  Otherwise it is an entry of the list, at some index
    [i], that is a parent of [P], and against every other parent [q] at
    index [j]: it leaves no more parts of [P] unmatched than [q] does
    (its path is at least as long), and when both leave the same number
    it comes first ([i <= j]). *)
Theorem get_permissions_nearest_parent (u : User.t) (P : PurePosixPath.t) :
  let r := User.get_permissions u P in
  ((forall p, In p (User.permissions u) -> Permission.is_parent p P = false) ->
     r = Permission.default
     /\ Permission.path r = PurePosixPath.mk "/" []
     /\ Permission.readable r = true /\ Permission.writable r = true)
  /\ ((exists p, In p (User.permissions u) /\ Permission.is_parent p P = true) ->
      exists i,
        nth_error (User.permissions u) i = Some r
        /\ Permission.is_parent r P = true
        /\ forall j q,
             nth_error (User.permissions u) j = Some q ->
             Permission.is_parent q P = true ->
             (User.remaining_parts P r <= User.remaining_parts P q)%nat
             /\ (List.length (tail (Permission.path q))
                 <= List.length (tail (Permission.path r)))%nat
             /\ (User.remaining_parts P q = User.remaining_parts P r ->
                 (i <= j)%nat)).
Proof.
  cbv zeta. unfold User.get_permissions.
  set (f := fun p => Permission.is_parent p P).
  set (perms := User.permissions u).
  split.
  - intros Hnone.
    assert (Hnil : filter f perms = []).
    { destruct (filter f perms) as [| x l] eqn:Hf; [reflexivity |].
      assert (Hin : In x (filter f perms)) by (rewrite Hf; left; reflexivity).
      apply filter_In in Hin. destruct Hin as [Hin Hfx].
      unfold f in Hfx. rewrite (Hnone x Hin) in Hfx. discriminate. }
    rewrite Hnil. simpl. repeat split; reflexivity.
  - intros (p & Hin & Hp).
    destruct (filter f perms) as [| x l] eqn:Hf.
    { assert (Hin' : In p (filter f perms)) by (apply filter_In; auto).
      rewrite Hf in Hin'. destruct Hin'. }
    simpl.
    destruct (min_from_split (User.remaining_parts P) l x)
      as (l1 & l2 & Heq & H1 & H2).
    set (r := min_from (User.remaining_parts P) x l) in *.
    rewrite <- Hf in Heq.
    destruct (filter_split f perms l1 r l2 Heq)
      as (p1 & p2 & Hperms & Hf1 & Hf2 & Hr).
    exists (List.length p1). split; [| split].
    + rewrite Hperms, nth_error_app2 by lia.
      rewrite Nat.sub_diag. reflexivity.
    + exact Hr.
    + intros j q Hj Hq.
      assert (Hcmp : (User.remaining_parts P r <= User.remaining_parts P q)%nat
                     /\ (User.remaining_parts P q = User.remaining_parts P r ->
                         (List.length p1 <= j)%nat)).
      { destruct (Nat.lt_ge_cases j (List.length p1)) as [Hlt | Hge].
        - rewrite Hperms, nth_error_app1 in Hj by exact Hlt.
          apply nth_error_In in Hj.
          assert (Hq1 : In q l1) by (rewrite <- Hf1; apply filter_In; auto).
          specialize (H1 q Hq1). split; lia.
        - split; [| intros _; exact Hge].
          rewrite Hperms, nth_error_app2 in Hj by exact Hge.
          destruct (j - List.length p1)%nat as [| k] eqn:Hk; simpl in Hj.
          + injection Hj as <-. lia.
          + apply nth_error_In in Hj.
            assert (Hq2 : In q l2) by (rewrite <- Hf2; apply filter_In; auto).
            apply H2. exact Hq2. }
      destruct Hcmp as [Hle Hfirst]. split; [exact Hle | split; [| exact Hfirst]].
      pose proof (remaining_parts_parent P r Hr) as Er.
      pose proof (remaining_parts_parent P q Hq) as Eq.
      lia.
Qed.

End PermissionFacts.

(** Three permissions, two of them on ["/a"]: for ["/a/b"] the first of
    the two wins over the later one and over the root permission. *)
Lemma get_permissions_witness :
  let perms := [Permission.init "/" true false;
                Permission.init "/a" false true;
                Permission.init "/a" true true] in
  let u := User.mk None None (PurePosixPath.parse "/srv")
             (PurePosixPath.parse "/") perms 10 None None None None in
  let P := PurePosixPath.parse "/a/b" in
  (exists p, In p (User.permissions u) /\ Permission.is_parent p P = true)
  /\ User.get_permissions u P = Permission.init "/a" false true
  /\ exists i, nth_error (User.permissions u) i = Some (User.get_permissions u P).
Proof.
  cbv zeta.
  assert (Hex : exists p,
             In p [Permission.init "/" true false;
                   Permission.init "/a" false true;
                   Permission.init "/a" true true]
             /\ Permission.is_parent p (PurePosixPath.parse "/a/b") = true).
  { exists (Permission.init "/" true false). split; [left |]; reflexivity. }
  split; [exact Hex | split; [reflexivity |]].
  destruct (get_permissions_nearest_parent
              (User.mk None None (PurePosixPath.parse "/srv")
                 (PurePosixPath.parse "/")
                 [Permission.init "/" true false;
                  Permission.init "/a" false true;
                  Permission.init "/a" true true] 10 None None None None)
              (PurePosixPath.parse "/a/b")) as [_ Hsome].
  destruct (Hsome Hex) as (i & Hi & _).
  exists i. exact Hi.
Defined.

(** ** [get_paths]: the path jail *)

Section SplitFacts.

Definition no_char (sep : ascii) (x : string) : bool :=
  negb (existsb (Ascii.eqb sep) (list_ascii_of_string x)).

Lemma split_not_nil (sep : ascii) (s : string) : Py.split sep s <> [].
Proof.
  destruct s as [| c s]; simpl; [discriminate |].
  destruct (Ascii.eqb c sep); [discriminate |].
  destruct (Py.split sep s); discriminate.
Qed.

(** No piece of a split holds the separator. *)
Lemma split_pieces (sep : ascii) (s : string) :
  Forall (fun x => no_char sep x = true) (Py.split sep s).
Proof.
  induction s as [| c s IH]; simpl.
  - constructor; [reflexivity | constructor].
  - destruct (Ascii.eqb c sep) eqn:Hc.
    + constructor; [reflexivity | exact IH].
    + destruct (Py.split sep s) as [| h t].
      * constructor; [| constructor].
        unfold no_char. simpl. rewrite Ascii.eqb_sym, Hc. reflexivity.
      * inversion IH as [| ? ? Hh Ht]; subst. constructor; [| exact Ht].
        unfold no_char in *. simpl. rewrite Ascii.eqb_sym, Hc. exact Hh.
Qed.

(** A string without the separator is its own single piece. *)
Lemma split_whole (sep : ascii) (s : string) :
  no_char sep s = true -> Py.split sep s = [s].
Proof.
  unfold no_char. induction s as [| c s IH]; simpl; intros Hno.
  - reflexivity.
  - rewrite Ascii.eqb_sym in Hno.
    destruct (Ascii.eqb c sep) eqn:Hc; simpl in Hno; [discriminate |].
    rewrite (IH Hno). reflexivity.
Qed.

End SplitFacts.

Section ParseFacts.
Import PurePosixPath.

Lemma valid_part_no_slash (x : string) :
  valid_part x = true <-> keep_part x = true /\ no_char "/" x = true.
Proof. unfold valid_part, no_char. apply andb_true_iff. Qed.

Lemma splitroot_root (s : string) : valid_root (fst (splitroot s)) = true.
Proof.
  destruct s as [| c0 [| c1 [| c2 r]]]; simpl; try reflexivity;
    repeat match goal with
           | |- context [Ascii.eqb ?a ?b] => destruct (Ascii.eqb a b); simpl
           end; reflexivity.
Qed.

(** Whatever the string, [PurePosixPath(s)] holds valid components. *)
Lemma parse_well_formed (s : string) : well_formed (parse s) = true.
Proof.
  unfold well_formed, parse.
  pose proof (splitroot_root s) as Hr.
  destruct (splitroot s) as [r rel]. simpl in *. rewrite Hr. simpl.
  apply forallb_forall. intros x Hin. apply filter_In in Hin.
  destruct Hin as [Hin Hk]. apply valid_part_no_slash. split; [exact Hk |].
  pose proof (split_pieces "/" rel) as Hall.
  rewrite Forall_forall in Hall. apply Hall. exact Hin.
Qed.

(** A valid component, read as a path, is that one component. *)
Lemma parse_valid_part (x : string) :
  valid_part x = true -> parse x = mk "" [x].
Proof.
  intros Hv. apply valid_part_no_slash in Hv. destruct Hv as [Hk Hno].
  unfold parse.
  assert (Hs : splitroot x = ("", x)).
  { destruct x as [| c x']; [reflexivity |].
    unfold no_char in Hno. cbn [list_ascii_of_string existsb] in Hno.
    rewrite Ascii.eqb_sym in Hno. cbn [splitroot].
    destruct (Ascii.eqb c "/"); [discriminate | reflexivity]. }
  rewrite Hs, (split_whole "/" x Hno). simpl. rewrite Hk. reflexivity.
Qed.

Lemma In_removelast {A : Type} (x : A) (l : list A) :
  In x (removelast l) -> In x l.
Proof.
  induction l as [| y l IH]; simpl; [tauto |].
  destruct l as [| z l']; [intros [] |].
  intros [-> | Hin]; [left; reflexivity | right; apply IH; exact Hin].
Qed.

Lemma forallb_removelast {A : Type} (f : A -> bool) (l : list A) :
  forallb f l = true -> forallb f (removelast l) = true.
Proof.
  intros Hall. apply forallb_forall. intros x Hin.
  rewrite forallb_forall in Hall. apply Hall, In_removelast, Hin.
Qed.

(** The state kept by the loop of [get_paths]: rooted at ["/"], valid
    components, none of them [".."]. *)
Definition resolved_ok (r : t) : Prop :=
  root r = "/" /\ forallb valid_part (tail r) = true /\ ~ In ".." (tail r).

Lemma resolve_step_ok (r : t) (part : string) :
  resolved_ok r -> valid_part part = true -> resolved_ok (resolve_step r part).
Proof.
  intros (Hroot & Hvalid & Hno) Hpart. unfold resolve_step.
  destruct (String.eqb_spec part "..") as [-> | Hne].
  - unfold parent, resolved_ok. simpl. repeat split.
    + exact Hroot.
    + apply forallb_removelast. exact Hvalid.
    + intros Hin. apply Hno, In_removelast, Hin.
  - unfold joinstr. rewrite (parse_valid_part part Hpart).
    unfold joinpath, resolved_ok. simpl. repeat split.
    + exact Hroot.
    + rewrite forallb_app, Hvalid. simpl. rewrite Hpart. reflexivity.
    + intros Hin. apply in_app_or in Hin. destruct Hin as [Hin | [Heq | []]].
      * exact (Hno Hin).
      * exact (Hne Heq).
Qed.

Lemma resolve_fold_ok (l : list string) : forall r,
  resolved_ok r -> forallb valid_part l = true ->
  resolved_ok (fold_left resolve_step l r).
Proof.
  induction l as [| x l IH]; intros r Hr Hl; simpl; [exact Hr |].
  simpl in Hl. apply andb_true_iff in Hl. destruct Hl as [Hx Hl].
  apply IH; [apply resolve_step_ok; assumption | exact Hl].
Qed.

End ParseFacts.

Section JailFacts.
Import PurePosixPath.

Lemma root_path_ok : resolved_ok root_path.
Proof. repeat split. intros []. Qed.

Lemma tl_parts_absolute (p : t) :
  is_absolute p = true -> List.tl (parts p) = tail p.
Proof.
  unfold is_absolute, parts. destruct (String.eqb (root p) "");
    [discriminate | reflexivity].
Qed.

Lemma relative_to_root (r : t) :
  root r = "/" -> relative_to r root_path = Some (mk "" (tail r)).
Proof. intros Hr. unfold relative_to. rewrite Hr. reflexivity. Qed.

Lemma relative_to_join (base : t) (l : list string) :
  relative_to (joinpath base (mk "" l)) base = Some (mk "" l).
Proof.
  apply relative_to_Some. unfold joinpath. simpl. auto.
Qed.

(** What [get_paths] returns once the path to resolve is known to be
    rooted with valid components. *)
Lemma get_paths_resolved (c : Connection) (u : User.t) (path : string)
    (joined : t) :
  user c = Some u ->
  (if is_absolute (parse path) then inr (parse path)
   else match current_directory c with
        | Some cwd => inr (joinpath cwd (parse path))
        | None => inl TypeError
        end) = inr joined ->
  let virt := fold_left resolve_step (List.tl (parts joined)) root_path in
  root virt = "/" ->
  get_paths c path
  = inr (joinpath (User.base_path u) (mk "" (tail virt)), virt).
Proof.
  intros Hu Hj virt Hroot. unfold get_paths. rewrite Hj, Hu.
  fold virt. rewrite (relative_to_root virt Hroot), relative_to_join.
  reflexivity.
Qed.

(** The jail on a POSIX host.  For a connection with a user and an
    absolute current directory, [get_paths] returns for every client
    path string: a
    virtual path that is rooted at ["/"] (so absolute) and has no [".."]
    component, and a real path that is the base path followed by the
    components of the virtual path, so that
    [real_path.relative_to(base_path)] succeeds and the remainder has no
    [".."]: the real path is the base path or lies below it. *)
Theorem get_paths_jail (c : Connection) (u : User.t) (cwd : t) (P : string) :
  user c = Some u ->
  current_directory c = Some cwd ->
  is_absolute cwd = true ->
  well_formed cwd = true ->
  exists real virt,
    get_paths c P = inr (real, virt)
    /\ root virt = "/"
    /\ is_absolute virt = true
    /\ well_formed virt = true
    /\ ~ In ".." (tail virt)
    /\ real = mk (root (User.base_path u))
                 (tail (User.base_path u) ++ tail virt)
    /\ relative_to real (User.base_path u) = Some (mk "" (tail virt)).
Proof.
  intros Hu Hcwd Habs Hwf.
  set (joined := if is_absolute (parse P) then parse P
                 else joinpath cwd (parse P)).
  assert (Hj : (if is_absolute (parse P) then inr (parse P)
                else match current_directory c with
                     | Some cwd => inr (joinpath cwd (parse P))
                     | None => inl TypeError
                     end) = (inr joined : Exc + t)).
  { unfold joined. rewrite Hcwd. destruct (is_absolute (parse P)); reflexivity. }
  assert (Hjabs : is_absolute joined = true).
  { unfold joined. destruct (is_absolute (parse P)) eqn:Hp; [exact Hp |].
    unfold joinpath. rewrite Hp. exact Habs. }
  assert (Hjvalid : forallb valid_part (tail joined) = true).
  { pose proof (parse_well_formed P) as HP. unfold well_formed in HP, Hwf.
    apply andb_true_iff in HP. destruct HP as [_ HP].
    apply andb_true_iff in Hwf. destruct Hwf as [_ Hwf].
    unfold joined. destruct (is_absolute (parse P)) eqn:Hp; [exact HP |].
    unfold joinpath. rewrite Hp. simpl. rewrite forallb_app, Hwf, HP.
    reflexivity. }
  pose proof (resolve_fold_ok (tail joined) root_path root_path_ok Hjvalid)
    as (Hroot & Hvalid & Hno).
  rewrite <- (tl_parts_absolute joined Hjabs) in Hroot, Hvalid, Hno.
  set (virt := fold_left resolve_step (List.tl (parts joined)) root_path) in *.
  exists (joinpath (User.base_path u) (mk "" (tail virt))), virt.
  split; [apply (get_paths_resolved c u P joined Hu Hj Hroot) |].
  split; [exact Hroot |].
  split; [unfold is_absolute; rewrite Hroot; reflexivity |].
  split; [unfold well_formed; rewrite Hroot, Hvalid; reflexivity |].
  split; [exact Hno |].
  split; [reflexivity | apply relative_to_join].
Qed.

(** A connection logged in as a user with base path ["/srv/ftp"], in the
    directory [cwd]. *)
Definition jailed_connection (cwd : string) : Connection :=
  set_current_directory (Some (parse cwd))
    (mkConnection "127.0.0.1" 0
       (Some (User.mk (Some "u") None (parse "/srv/ftp") (parse "/")
                [Permission.default] 10 None None None None))
       (Some true) None None None None None 0 8192 true [] []).

Lemma get_paths_jail_witness :
  exists real virt,
    get_paths (jailed_connection "/pub") "../../../etc/passwd"
    = inr (real, virt)
    /\ real = parse "/srv/ftp/etc/passwd" /\ virt = parse "/etc/passwd".
Proof.
  destruct (get_paths_jail (jailed_connection "/pub")
              (User.mk (Some "u") None (parse "/srv/ftp") (parse "/")
                 [Permission.default] 10 None None None None)
              (parse "/pub") "../../../etc/passwd"
              eq_refl eq_refl eq_refl eq_refl)
    as (real & virt & Hget & _).
  exists real, virt. split; [exact Hget |].
  vm_compute in Hget. injection Hget as <- <-. split; reflexivity.
Defined.

(** C8 as stated fails: from ["/"], the path ["../../etc"] resolves to
    the virtual path ["/etc"], not to ["/"]. *)
Lemma get_paths_dotdot_etc_is_not_root :
  exists real virt,
    get_paths (jailed_connection "/") "../../etc" = inr (real, virt)
    /\ virt = mk "/" ["etc"]
    /\ to_string virt = "/etc"
    /\ virt <> root_path.
Proof.
  exists (parse "/srv/ftp/etc"), (mk "/" ["etc"]).
  repeat split; try reflexivity. discriminate.
Qed.

End JailFacts.

(** ** Running handlers *)

(** Unfolding of the monad and of the decorators, for the proofs that
    run a handler on a symbolic world. *)
Ltac munfold :=
  unfold ConnectionConditions, PathConditions, PathPermissions, get_paths_M,
    path_io_test, add_worker, worker, open_file, seek_and_copy,
    drop_stale_data_connection, response, bind, ret, raise, lift, ask,
    get_connection, get_server, modify_connection, put_server, log_io,
    try_except, update_connection in *.

Ltac msimpl := repeat (progress (munfold; cbn)).

(** An environment in which nothing exists and every port is taken. *)
Definition barren_env : Env :=
  mkEnv (fun _ _ => inl (OSError EADDRINUSE))
        (fun _ => inr false) (fun _ => inr false) (fun _ => inr false)
        (fun _ => inr 0) (fun _ _ => None)
        (fun _ _ w => (inr (PyBool true), w)).

Definition plain_server : Server := mkServer None None.

Section CwdFacts.
Import PurePosixPath.

Lemma get_paths_dotdot_etc (c : Connection) (u : User.t) :
  user c = Some u ->
  current_directory c = Some root_path ->
  get_paths c "../../etc"
  = inr (mk (root (User.base_path u)) (tail (User.base_path u) ++ ["etc"]),
         mk "/" ["etc"]).
Proof.
  intros Hu Hcwd.
  rewrite (get_paths_resolved c u "../../etc" (mk "/" [".."; ".."; "etc"]) Hu).
  - reflexivity.
  - rewrite Hcwd. reflexivity.
  - reflexivity.
Qed.

(** C8, as the code has it.  For a logged-in connection whose current
    directory is ["/"], the client path ["../../etc"] resolves to the
    virtual path ["/etc"] and to the real path [base_path/etc]: the
    leading [".."] stop at the root and ["etc"] is appended.  When that
    directory exists and is readable, [CWD ../../etc] answers 250 and
    makes ["/etc"] the current directory, and [PWD] then reports
    ["/etc"]. *)
Theorem cwd_dotdot_etc_resolves_to_etc (w : World) (u : User.t) (env : Env)
    (b : bool) :
  user (connection w) = Some u ->
  current_directory (connection w) = Some root_path ->
  logged (connection w) = Some b ->
  let real := mk (root (User.base_path u)) (tail (User.base_path u) ++ ["etc"]) in
  let virt := mk "/" ["etc"] in
  get_paths (connection w) "../../etc" = inr (real, virt)
  /\ to_string virt = "/etc"
  /\ (path_exists env real = inr true ->
      path_is_dir env real = inr true ->
      Permission.readable (User.get_permissions u virt) = true ->
      let r := ftp_cwd "../../etc" env w in
      fst r = inr (PyBool true)
      /\ current_directory (connection (snd r)) = Some virt
      /\ response_queue (connection (snd r))
         = (response_queue (connection w) ++ [("250", Line "")])%list
      /\ response_queue (connection (snd (ftp_pwd "" env (snd r))))
         = (response_queue (connection (snd r))
            ++ [("257", Line (Py.dquote ++ "/etc" ++ Py.dquote))])%list).
Proof.
  intros Hu Hcwd Hl real virt.
  pose proof (get_paths_dotdot_etc (connection w) u Hu Hcwd) as Hget.
  split; [exact Hget | split; [reflexivity |]].
  intros He Hd Hp. destruct w as [s c log]. cbn in Hu, Hcwd, Hl, Hget.
  assert (Hrun : ftp_cwd "../../etc" env (mkWorld s c log)
                 = (inr (PyBool true),
                    mkWorld s
                      (push_response ("250", Line "")
                         (set_current_directory (Some virt) c))
                      (log ++ [io_exists real; io_is_dir real]))).
  { unfold ftp_cwd. msimpl. rewrite Hl. msimpl.
    rewrite Hget. msimpl. fold real. rewrite He. msimpl. rewrite Hd. msimpl.
    rewrite Hget. msimpl. rewrite Hu. msimpl. fold virt. rewrite Hp. msimpl.
    rewrite Hget. msimpl. rewrite <- app_assoc. reflexivity. }
  cbv zeta. rewrite Hrun. cbn [fst snd connection].
  repeat split.
  unfold ftp_pwd. msimpl. rewrite Hl. msimpl. reflexivity.
Qed.

(** The directory [/srv/ftp/etc] exists: [CWD ../../etc] from ["/"]
    lands in ["/etc"]. *)
Lemma cwd_dotdot_etc_witness :
  let env := mkEnv (fun _ _ => inl (OSError EADDRINUSE))
               (fun _ => inr true) (fun _ => inr true) (fun _ => inr false)
               (fun _ => inr 0) (fun _ _ => None)
               (fun _ _ w => (inr (PyBool true), w)) in
  let w := mkWorld plain_server (jailed_connection "/") [] in
  current_directory (connection w) = Some root_path
  /\ current_directory (connection (snd (ftp_cwd "../../etc" env w)))
     = Some (mk "/" ["etc"]).
Proof.
  cbv zeta. split; [reflexivity |].
  pose proof (cwd_dotdot_etc_resolves_to_etc
                (mkWorld plain_server (jailed_connection "/") [])
                (User.mk (Some "u") None (parse "/srv/ftp") (parse "/")
                   [Permission.default] 10 None None None None)
                (mkEnv (fun _ _ => inl (OSError EADDRINUSE))
                   (fun _ => inr true) (fun _ => inr true) (fun _ => inr false)
                   (fun _ => inr 0) (fun _ _ => None)
                   (fun _ _ w => (inr (PyBool true), w)))
                true eq_refl eq_refl eq_refl) as (_ & _ & Hcwd).
  destruct (Hcwd eq_refl eq_refl eq_refl) as (_ & Hdir & _).
  exact Hdir.
Defined.

End CwdFacts.

(** ** [PathPermissions]: which flags are checked *)

Section PermissionGuardFacts.

(** With one or more flags declared, the guard looks at the first flag
    only: it answers 550 when that flag is false and runs the body
    otherwise, whatever the other flags are. *)
Lemma PathPermissions_first_flag (flag0 : Permission.flag)
    (others : list Permission.flag) (f : handler) (rest : string)
    (env : Env) (w : World) (u : User.t)
    (real virt : PurePosixPath.t) :
  user (connection w) = Some u ->
  get_paths (connection w) rest = inr (real, virt) ->
  PathPermissions (flag0 :: others) f rest env w
  = if Permission.getattr (User.get_permissions u virt) flag0
    then f rest env w
    else (inr (PyBool true),
          update_connection (push_response ("550", Line "permission denied")) w).
Proof.
  intros Hu Hget. destruct w as [s c log]. cbn in Hu, Hget.
  msimpl. rewrite Hget. msimpl. rewrite Hu. msimpl.
  destruct (Permission.getattr (User.get_permissions u virt) flag0);
    reflexivity.
Qed.

(** With no flag declared the body never runs. *)
Lemma PathPermissions_no_flag (f : handler) (rest : string) (env : Env)
    (w : World) (u : User.t) (real virt : PurePosixPath.t) :
  user (connection w) = Some u ->
  get_paths (connection w) rest = inr (real, virt) ->
  PathPermissions [] f rest env w = (inr PyNone, w).
Proof.
  intros Hu Hget. destruct w as [s c log]. cbn in Hu, Hget.
  msimpl. rewrite Hget. msimpl. rewrite Hu. reflexivity.
Qed.

End PermissionGuardFacts.

(** A handler body that leaves a mark on the response queue. *)
Definition marked_body : handler :=
  fun rest => response "200" (Line "body ran") ;;; ret (PyBool true).

(** A connection whose user may read but not write anywhere. *)
Definition read_only_connection : Connection :=
  mkConnection "127.0.0.1" 0
    (Some (User.mk (Some "u") None (PurePosixPath.parse "/srv/ftp")
             (PurePosixPath.parse "/") [Permission.init "/" true false]
             10 None None None None))
    (Some true) (Some root_path) None None None None 0 8192 true [] [].

(** C3, the defect.  A handler guarded by
    [PathPermissions(readable, writable)] is run for a path whose
    permission is readable but not writable: the body is invoked and no
    550 is sent, although a declared flag is false.  And a guard with no
    flag declared never invokes the body. *)
Theorem path_permissions_second_flag_ignored :
  let w := mkWorld plain_server read_only_connection [] in
  let guarded :=
    PathPermissions [Permission.readable_flag; Permission.writable_flag]
      marked_body in
  (exists real virt u,
      get_paths (connection w) "f" = inr (real, virt)
      /\ user (connection w) = Some u
      /\ Permission.writable (User.get_permissions u virt) = false)
  /\ fst (guarded "f" barren_env w) = inr (PyBool true)
  /\ response_queue (connection (snd (guarded "f" barren_env w)))
     = [("200", Line "body ran")]
  /\ PathPermissions [] marked_body "f" barren_env w = (inr PyNone, w).
Proof.
  cbv zeta. split; [| repeat split].
  eexists _, _, _. repeat split.
Qed.

(** ** [ftp_size] *)

Section SizeFacts.


End SizeFacts.


(** ** Frame rules: what a handler leaves alone *)

Section Frame.

Variable Penv : Env -> Prop.
Variable R : World -> World -> Prop.
Hypothesis R_refl : forall w, R w w.
Hypothesis R_trans : forall w1 w2 w3, R w1 w2 -> R w2 w3 -> R w1 w3.
Hypothesis R_log :
  forall w c, R w (mkWorld (server w) (connection w) (io_log w ++ [c])).
Hypothesis R_response :
  forall w r, R w (update_connection (push_response r) w).

(** A computation keeps [R] when, in every environment that satisfies
    [Penv], its final world is related to its initial one, whether it
    returns or raises. *)
Definition keeps {A : Type} (m : M A) : Prop :=
  forall env w, Penv env -> R w (snd (m env w)).

Lemma keeps_ret {A : Type} (a : A) : keeps (ret a).
Proof. intros env w _. apply R_refl. Qed.

Lemma keeps_raise {A : Type} (e : Exc) : keeps (raise e : M A).
Proof. intros env w _. apply R_refl. Qed.

Lemma keeps_lift {A : Type} (r : Exc + A) : keeps (lift r).
Proof. destruct r; [apply keeps_raise | apply keeps_ret]. Qed.

Lemma keeps_ask : keeps ask.
Proof. intros env w _. apply R_refl. Qed.

Lemma keeps_get_connection : keeps get_connection.
Proof. intros env w _. apply R_refl. Qed.

Lemma keeps_get_server : keeps get_server.
Proof. intros env w _. apply R_refl. Qed.

Lemma keeps_log_io (c : PathIOCall) : keeps (log_io c).
Proof. intros env w _. apply R_log. Qed.

Lemma keeps_response (code : string) (info : Info) : keeps (response code info).
Proof. intros env w _. apply (R_response w (code, info)). Qed.

Lemma keeps_modify (f : Connection -> Connection) :
  (forall w, R w (update_connection f w)) -> keeps (modify_connection f).
Proof. intros Hf env w _. apply Hf. Qed.

Lemma keeps_bind {A B : Type} (m : M A) (k : A -> M B) :
  keeps m -> (forall a, keeps (k a)) -> keeps (bind m k).
Proof.
  intros Hm Hk env w Henv. unfold bind.
  specialize (Hm env w Henv). destruct (m env w) as [[e | a] w']; simpl in *.
  - exact Hm.
  - apply (R_trans _ _ _ Hm). apply Hk. exact Henv.
Qed.

Lemma keeps_try_except {A : Type} (m : M A) (catches : Exc -> bool)
    (h : Exc -> M A) :
  keeps m -> (forall e, keeps (h e)) -> keeps (try_except m catches h).
Proof.
  intros Hm Hh env w Henv. unfold try_except.
  specialize (Hm env w Henv). destruct (m env w) as [[e | a] w']; simpl in *.
  - destruct (catches e); [| exact Hm].
    apply (R_trans _ _ _ Hm). apply Hh. exact Henv.
  - exact Hm.
Qed.

Lemma keeps_path_io_test (t : PathTest) (p : PurePosixPath.t) :
  keeps (path_io_test t p).
Proof.
  unfold path_io_test. apply keeps_bind; [apply keeps_ask |].
  intros env. destruct t;
    (apply keeps_bind; [apply keeps_log_io | intros _; apply keeps_lift]).
Qed.

Lemma keeps_get_paths_M (path : string) : keeps (get_paths_M path).
Proof.
  unfold get_paths_M. apply keeps_bind; [apply keeps_get_connection |].
  intros c. apply keeps_lift.
Qed.

Lemma keeps_ConnectionConditions (fields : list (ConnField * string))
    (wait : bool) (fail_code : string) (fail_info : option string)
    (f : handler) (rest : string) :
  keeps (f rest) ->
  keeps (ConnectionConditions fields wait fail_code fail_info f rest).
Proof.
  intros Hf. unfold ConnectionConditions.
  apply keeps_bind; [apply keeps_get_connection |]. intros c.
  destruct (find _ fields) as [[fld msg] |]; [| exact Hf].
  apply keeps_bind; [apply keeps_response | intros _; apply keeps_ret].
Qed.

Lemma keeps_check_conditions (conds : list (PathTest * bool * string))
    (real_path : PurePosixPath.t) (k : M PyResult) :
  keeps k -> keeps (check_conditions conds real_path k).
Proof.
  intros Hk. induction conds as [| [[name fail] message] conds IH]; simpl.
  - exact Hk.
  - apply keeps_bind; [apply keeps_path_io_test |]. intros b.
    destruct (Bool.eqb b fail); [| exact IH].
    apply keeps_bind; [apply keeps_response | intros _; apply keeps_ret].
Qed.

Lemma keeps_PathConditions (conds : list (PathTest * bool * string))
    (f : handler) (rest : string) :
  keeps (f rest) -> keeps (PathConditions conds f rest).
Proof.
  intros Hf. unfold PathConditions.
  apply keeps_bind; [apply keeps_get_paths_M |]. intros rv.
  apply keeps_check_conditions. exact Hf.
Qed.

Lemma keeps_PathPermissions (perms : list Permission.flag) (f : handler)
    (rest : string) :
  keeps (f rest) -> keeps (PathPermissions perms f rest).
Proof.
  intros Hf. unfold PathPermissions.
  apply keeps_bind; [apply keeps_get_paths_M |]. intros rv.
  apply keeps_bind; [apply keeps_get_connection |]. intros c.
  destruct (user c) as [u |]; [| apply keeps_raise].
  destruct perms as [| p perms']; [apply keeps_ret |].
  destruct (negb _); [| exact Hf].
  apply keeps_bind; [apply keeps_response | intros _; apply keeps_ret].
Qed.

End Frame.

(** One step of a frame proof, for a relation [R] with its four closure
    properties. *)
Ltac kstep P R Hrefl Htrans Hlog Hresp :=
  first
    [ apply (keeps_ConnectionConditions P R Hrefl Htrans Hresp)
    | apply (keeps_PathConditions P R Hrefl Htrans Hlog Hresp)
    | apply (keeps_PathPermissions P R Hrefl Htrans Hresp)
    | apply (keeps_bind P R Htrans)
    | apply (keeps_try_except P R Htrans)
    | apply (keeps_ret P R Hrefl)
    | apply (keeps_raise P R Hrefl)
    | apply (keeps_lift P R Hrefl)
    | apply (keeps_ask P R Hrefl)
    | apply (keeps_get_connection P R Hrefl)
    | apply (keeps_get_server P R Hrefl)
    | apply (keeps_get_paths_M P R Hrefl Htrans)
    | apply (keeps_log_io P R Hlog)
    | apply (keeps_response P R Hresp)
    | match goal with
      | |- forall _, _ => intro
      | |- keeps _ _ (if ?b then _ else _) => destruct b
      | |- keeps _ _ (match ?x with _ => _ end) => destruct x
      end ].

(** ** The restart offset *)

Section RestartOffsetFacts.

(** The restart offset is the same in both worlds. *)
Definition same_offset (w w' : World) : Prop :=
  restart_offset (connection w') = restart_offset (connection w).

Lemma same_offset_refl (w : World) : same_offset w w.
Proof. reflexivity. Qed.

Lemma same_offset_trans (w1 w2 w3 : World) :
  same_offset w1 w2 -> same_offset w2 w3 -> same_offset w1 w3.
Proof. unfold same_offset. congruence. Qed.

Lemma same_offset_log (w : World) (c : PathIOCall) :
  same_offset w (mkWorld (server w) (connection w) (io_log w ++ [c])).
Proof. reflexivity. Qed.

Lemma same_offset_response (w : World) (r : Response) :
  same_offset w (update_connection (push_response r) w).
Proof. reflexivity. Qed.

Definition any_env (env : Env) : Prop := True.

Ltac offset_frame :=
  repeat first
    [ kstep any_env same_offset same_offset_refl same_offset_trans
            same_offset_log same_offset_response
    | apply (keeps_modify any_env same_offset); intros [? ? ?]; reflexivity ].

(** The transfer handlers read the restart offset and never write it. *)
Lemma ftp_retr_keeps_offset (rest : string) :
  keeps any_env same_offset (ftp_retr rest).
Proof. unfold ftp_retr, add_worker. offset_frame. Qed.

Lemma ftp_stor_keeps_offset (mode rest : string) :
  keeps any_env same_offset (ftp_stor mode rest).
Proof. unfold ftp_stor, add_worker. offset_frame. Qed.

(** Neither do the workers: a finished transfer leaves the offset as it
    found it. *)
Lemma run_worker_keeps_offset (wk : Worker) :
  keeps any_env same_offset (run_worker wk).
Proof.
  unfold run_worker, open_file, seek_and_copy. offset_frame.
Qed.

(** What a [RETR] worker asks of the path-I/O layer: the file is opened
    for reading and, when the restart offset is not zero, positioned at
    it before the blocks are copied. *)
Lemma retr_worker_seeks (p : PurePosixPath.t) (env : Env) (w : World)
    (d : nat) :
  data_connection (connection w) = Some d ->
  path_open env p "rb" = None ->
  io_log (snd (run_worker (retr_worker p) env w))
  = (io_log w ++ io_open p "rb"
     :: (if restart_offset (connection w) =? 0 then []
         else [io_seek (restart_offset (connection w))])
     ++ [io_copy_blocks (block_size (connection w))])%list.
Proof.
  intros Hd Ho. destruct w as [s c log]. cbn in Hd |- *.
  unfold run_worker. msimpl. rewrite Hd. msimpl. rewrite Ho. msimpl.
  destruct (restart_offset c =? 0); msimpl; rewrite <- !app_assoc; reflexivity.
Qed.

Lemma transfer_commands_mapped (cmd : string) :
  is_transfer_command cmd = true ->
  (cmd = "retr" /\ commands_mapping cmd = Some c_retr)
  \/ (cmd = "stor" /\ commands_mapping cmd = Some c_stor)
  \/ (cmd = "appe" /\ commands_mapping cmd = Some c_appe).
Proof.
  unfold is_transfer_command. intros Hc.
  apply orb_true_iff in Hc. destruct Hc as [Hc | Hc];
    [apply orb_true_iff in Hc; destruct Hc as [Hc | Hc] |];
    apply String.eqb_eq in Hc; subst; auto.
Qed.

(** C5, as the code has it.
    - [REST n] with a decimal [n] (ASCII digits, no more of them than
      [int] converts) stores [n] as the restart offset.
    - Dispatching a recognized command other than [RETR], [STOR] and
      [APPE] clears the restart offset, and the command's handler runs
      on the connection with the offset already cleared.
    - Dispatching [RETR], [STOR] or [APPE] leaves the connection as it
      is, and neither the handler nor a transfer worker writes the
      offset: it stays in force for every further transfer, until a
      recognized command that is not a transfer is dispatched. *)
Theorem restart_offset_lifecycle (E : ErrorsModule) :
  (forall rest env w,
      Py.isdigit rest = true ->
      (String.length rest <= Py.int_max_str_digits)%nat ->
      restart_offset (connection (snd (ftp_rest rest env w)))
      = Py.int_of_digits rest)
  /\ (forall cmd rest env w f,
        commands_mapping cmd = Some f ->
        is_transfer_command cmd = false ->
        let w0 := update_connection (set_restart_offset 0) w in
        restart_offset (connection w0) = 0
        /\ dispatch cmd rest w = (w0, Some f)
        /\ dispatcher_step E (in_command cmd rest) env w
           = after_task (run_command E f rest env w0))
  /\ (forall cmd rest env w,
        is_transfer_command cmd = true ->
        exists f,
          dispatch cmd rest w = (w, Some f)
          /\ dispatcher_step E (in_command cmd rest) env w
             = after_task (run_command E f rest env w)
          /\ restart_offset (connection (snd (run_command E f rest env w)))
             = restart_offset (connection w))
  /\ (forall wk env w,
        restart_offset (connection (snd (run_worker wk env w)))
        = restart_offset (connection w)).
Proof.
  split; [| split; [| split]].
  - intros rest env [s c log] Hd Hlen. unfold ftp_rest, Py.int.
    apply Nat.leb_le in Hlen. rewrite Hd, Hlen. reflexivity.
  - intros cmd rest env w f Hf Ht. cbv zeta.
    assert (Hd : dispatch cmd rest w
                 = (update_connection (set_restart_offset 0) w, Some f)).
    { unfold dispatch. rewrite Hf, Ht. reflexivity. }
    split; [reflexivity | split; [exact Hd |]].
    unfold dispatcher_step. rewrite Hd. reflexivity.
  - intros cmd rest env w Ht.
    destruct (transfer_commands_mapped cmd Ht)
      as [[-> Hf] | [[-> Hf] | [-> Hf]]].
    + exists c_retr. split; [reflexivity | split; [reflexivity |]].
      apply ftp_retr_keeps_offset. exact I.
    + exists c_stor. split; [reflexivity | split; [reflexivity |]].
      apply ftp_stor_keeps_offset. exact I.
    + exists c_appe. split; [reflexivity | split; [reflexivity |]].
      apply ftp_stor_keeps_offset. exact I.
  - intros wk env w. apply run_worker_keeps_offset. exact I.
Qed.

End RestartOffsetFacts.

(** A listener on one IPv4 socket. *)
Definition listener (port : Z) : PassiveServer :=
  Build_PassiveServer [Build_Socket AF_INET "127.0.0.1" port].

(** Logged in at ["/"], with a passive listener open. *)
Definition transfer_ready_connection : Connection :=
  set_passive_server (Some (listener 2121)) (jailed_connection "/").

(** Every path is an existing file in an existing directory; every port
    is taken. *)
Definition files_env : Env :=
  mkEnv (fun _ _ => inl (OSError EADDRINUSE))
        (fun _ => inr true) (fun _ => inr true) (fun _ => inr true)
        (fun _ => inr 5) (fun _ _ => None)
        (fun _ _ w => (inr (PyBool true), w)).

Definition oserror_errors : ErrorsModule := Build_ErrorsModule true.

Lemma restart_offset_witness :
  let w := mkWorld plain_server transfer_ready_connection [] in
  let w42 := snd (ftp_rest "42" files_env w) in
  Py.isdigit "42" = true
  /\ restart_offset (connection w42) = 42
  /\ commands_mapping "noop" = Some c_noop
  /\ is_transfer_command "noop" = false
  /\ restart_offset (connection (fst (dispatch "noop" "" w42))) = 0
  /\ is_transfer_command "retr" = true
  /\ restart_offset (connection (fst (dispatch "retr" "f" w42))) = 42.
Proof.
  cbv zeta.
  destruct (restart_offset_lifecycle oserror_errors)
    as (Hrest & Hclear & Hkeep & _).
  assert (Hlen : (String.length "42" <= Py.int_max_str_digits)%nat)
    by (apply Nat.leb_le; reflexivity).
  split; [reflexivity |].
  split; [exact (Hrest "42" files_env _ eq_refl Hlen) |].
  split; [reflexivity |]. split; [reflexivity |].
  split.
  - destruct (Hclear "noop" "" files_env
                (snd (ftp_rest "42" files_env
                        (mkWorld plain_server transfer_ready_connection [])))
                c_noop eq_refl eq_refl) as (H0 & Hd & _).
    rewrite Hd. exact H0.
  - split; [reflexivity |].
    destruct (Hkeep "retr" "f" files_env
                (snd (ftp_rest "42" files_env
                        (mkWorld plain_server transfer_ready_connection [])))
                eq_refl) as (f & Hd & _).
    rewrite Hd. exact (Hrest "42" files_env _ eq_refl Hlen).
Defined.

(** C5 as stated fails in its last part.  After [REST 3], two [RETR]
    commands in a row (each with its data connection and its worker):
    the second transfer is positioned at offset 3 as well. *)
Lemma second_transfer_after_rest_seeks :
  let f := PurePosixPath.parse "/srv/ftp/f" in
  let inputs :=
    [ (in_command "rest" "3", files_env);
      (in_command "retr" "f", files_env);
      (in_data_connect 1, files_env);
      (in_worker, files_env);
      (in_command "retr" "f", files_env);
      (in_data_connect 2, files_env);
      (in_worker, files_env) ] in
  let r := dispatcher oserror_errors inputs
             (mkWorld plain_server transfer_ready_connection []) in
  snd r = None
  /\ restart_offset (connection (fst r)) = 3
  /\ io_log (fst r)
     = [ io_exists f; io_is_file f;
         io_open f "rb"; io_seek 3; io_copy_blocks 8192;
         io_exists f; io_is_file f;
         io_open f "rb"; io_seek 3; io_copy_blocks 8192 ]
  /\ response_queue (connection (fst r))
     = [ ("350", Line "restarting at 3");
         ("150", Line "data transfer started");
         ("226", Line "data transfer done");
         ("150", Line "data transfer started");
         ("226", Line "data transfer done") ].
Proof. cbv zeta. repeat split. Qed.

(** ** No free port: the 421 reply ends the session *)

Section NoFreePortFacts.

Lemma ensure_passive_server_no_port (E : ErrorsModule) (env : Env)
    (w w1 : World) :
  passive_server (connection w) = None ->
  _start_passive_server E env w = (inl NoAvailablePort, w1) ->
  ensure_passive_server E env w
  = (inr None,
     update_connection (push_response ("421", Lines ["no free ports"])) w1).
Proof.
  intros Hp Hs. unfold ensure_passive_server.
  unfold bind at 1. unfold get_connection at 1. cbv iota beta.
  rewrite Hp. unfold try_except, bind at 1. rewrite Hs. cbn.
  reflexivity.
Qed.

(** C2, as the code has it.  On a logged-in connection without
    listener, when [_start_passive_server] raises [NoAvailablePort]:
    [ftp_pasv] and [ftp_epsv] put ["421"], ["no free ports"] on the
    response queue and return [False]; and [False] is the result on
    which the dispatcher leaves its loop: the session ends.  (Nothing is
    said about lines the dispatcher has taken in before it looks at this
    result.) *)
Theorem no_free_ports_ends_session (E : ErrorsModule) (env : Env)
    (w w1 : World) (b : bool) (rest : string) :
  logged (connection w) = Some b ->
  passive_server (connection w) = None ->
  _start_passive_server E env w = (inl NoAvailablePort, w1) ->
  let w2 :=
    update_connection (push_response ("421", Lines ["no free ports"])) w1 in
  ftp_pasv E rest env w = (inr (PyBool false), w2)
  /\ ftp_epsv E "" env w = (inr (PyBool false), w2)
  /\ after_task (ftp_pasv E rest env w) = (w2, Some ReturnedFalse)
  /\ after_task (ftp_epsv E "" env w) = (w2, Some ReturnedFalse).
Proof.
  intros Hl Hp Hs w2.
  pose proof (ensure_passive_server_no_port E env w w1 Hp Hs) as He.
  fold w2 in He.
  assert (Hpasv : ftp_pasv E rest env w = (inr (PyBool false), w2)).
  { unfold ftp_pasv, ConnectionConditions.
    unfold bind at 1. unfold get_connection at 1. cbv iota beta.
    cbn [find fst login_required field_is_None]. rewrite Hl.
    unfold bind at 1. rewrite He. reflexivity. }
  assert (Hepsv : ftp_epsv E "" env w = (inr (PyBool false), w2)).
  { unfold ftp_epsv, ConnectionConditions.
    unfold bind at 1. unfold get_connection at 1. cbv iota beta.
    cbn [find fst login_required field_is_None]. rewrite Hl.
    cbn [Py.truthy String.eqb negb].
    unfold bind at 1. rewrite He. reflexivity. }
  split; [exact Hpasv | split; [exact Hepsv |]].
  rewrite Hpasv, Hepsv. split; reflexivity.
Qed.

End NoFreePortFacts.

(** A server whose pool is the single port 2121. *)
Definition one_port_server : Server :=
  mkServer (Some (PriorityQueue.of_ports [2121])) None.

(** C2 as stated fails.  With the only data port taken, [PASV] is
    answered by 421 and the session is over: a [NOOP] sent after that
    reply is never answered. *)
Lemma session_ends_after_no_free_ports :
  let inputs := [ (in_command "pasv" "", barren_env);
                  (in_command "noop" "", barren_env) ] in
  let r := dispatcher oserror_errors inputs
             (mkWorld one_port_server (jailed_connection "/") []) in
  snd r = Some ReturnedFalse
  /\ response_queue (connection (fst r)) = [("421", Lines ["no free ports"])]
  /\ ftp_noop "" barren_env (mkWorld one_port_server (jailed_connection "/") [])
     = (inr (PyBool true),
        mkWorld one_port_server
          (push_response ("200", Line "I successfully did nothing")
             (jailed_connection "/")) []).
Proof. cbv zeta. repeat split. Qed.

Lemma no_free_ports_witness :
  let w := mkWorld one_port_server (jailed_connection "/") [] in
  logged (connection w) = Some true
  /\ passive_server (connection w) = None
  /\ fst (_start_passive_server oserror_errors barren_env w)
     = inl NoAvailablePort
  /\ fst (ftp_pasv oserror_errors "" barren_env w) = inr (PyBool false)
  /\ snd (after_task (ftp_pasv oserror_errors "" barren_env w))
     = Some ReturnedFalse.
Proof.
  cbv zeta. split; [reflexivity |]. split; [reflexivity |].
  split; [reflexivity |].
  destruct (no_free_ports_ends_session oserror_errors barren_env
              (mkWorld one_port_server (jailed_connection "/") [])
              (snd (_start_passive_server oserror_errors barren_env
                      (mkWorld one_port_server (jailed_connection "/") [])))
              true "" eq_refl eq_refl eq_refl) as (Hp & _ & Ha & _).
  rewrite Ha, Hp. split; reflexivity.
Defined.

(** ** The pool of data ports *)

Section QueueFacts.
Import PriorityQueue.

(** The queue is a multiset: putting an item adds exactly that item. *)
Lemma put_nowait_perm (q : PriorityQueue.t) (x : item) :
  Permutation (put_nowait q x) (x :: q).
Proof.
  induction q as [| y q IH]; simpl.
  - apply Permutation_refl.
  - destruct (item_leb x y).
    + apply Permutation_refl.
    + apply (perm_trans (perm_skip y IH)). apply perm_swap.
Qed.

Lemma put_nowait_ports (q : PriorityQueue.t) (x : item) :
  Permutation (ports (put_nowait q x)) (snd x :: ports q).
Proof.
  unfold ports. change (snd x :: map snd q) with (map snd (x :: q)).
  apply Permutation_map, put_nowait_perm.
Qed.

Lemma of_ports_perm (data_ports : list Z) :
  Permutation (ports (of_ports data_ports)) data_ports.
Proof.
  unfold of_ports.
  assert (Hgen : forall q,
             Permutation (ports (fold_left (fun q p => put_nowait q (0, p))
                                           data_ports q))
                         (ports q ++ data_ports)).
  { induction data_ports as [| p l IH]; intros q; simpl.
    - rewrite app_nil_r. apply Permutation_refl.
    - apply (perm_trans (IH _)).
      apply (perm_trans (Permutation_app_tail l (put_nowait_ports q (0, p)))).
      simpl. apply Permutation_middle. }
  apply (Hgen []).
Qed.

(** The entries of the queue whose port has not been tried yet in the
    current round. *)
Definition unviewed (viewed : list Z) (q : PriorityQueue.t) : nat :=
  List.length (filter (fun it => negb (existsb (Z.eqb (snd it)) viewed)) q).

Lemma unviewed_put (viewed : list Z) (q : PriorityQueue.t) (x : item) :
  unviewed viewed (put_nowait q x) = unviewed viewed (x :: q).
Proof.
  unfold unviewed. apply Permutation_length.
  induction q as [| y q IH]; simpl.
  - apply Permutation_refl.
  - destruct (item_leb x y); [apply Permutation_refl |]. simpl.
    destruct (negb (existsb (Z.eqb (snd y)) viewed));
      destruct (negb (existsb (Z.eqb (snd x)) viewed)) eqn:Hx;
      simpl in IH; rewrite ?Hx in IH.
    + apply (perm_trans (perm_skip y IH)). apply perm_swap.
    + apply perm_skip. exact IH.
    + exact IH.
    + exact IH.
Qed.

Lemma filter_length_mono {A : Type} (f g : A -> bool) (l : list A) :
  (forall x, f x = true -> g x = true) ->
  (List.length (filter f l) <= List.length (filter g l))%nat.
Proof.
  intros Hfg. induction l as [| y l IH]; [apply Nat.le_refl |].
  cbn [filter]. destruct (f y) eqn:Hf.
  - rewrite (Hfg y Hf). cbn [List.length]. lia.
  - destruct (g y); cbn [List.length]; lia.
Qed.

Lemma unviewed_more (viewed : list Z) (p : Z) (q : PriorityQueue.t) :
  (unviewed (p :: viewed) q <= unviewed viewed q)%nat.
Proof.
  unfold unviewed. apply filter_length_mono. intros x.
  cbn [existsb]. destruct (snd x =? p); [discriminate | auto].
Qed.

Lemma unviewed_cons (viewed : list Z) (x : item) (q : PriorityQueue.t) :
  unviewed viewed (x :: q)
  = if existsb (Z.eqb (snd x)) viewed then unviewed viewed q
    else S (unviewed viewed q).
Proof.
  unfold unviewed. cbn [filter].
  destruct (existsb (Z.eqb (snd x)) viewed); reflexivity.
Qed.

Lemma unviewed_length (viewed : list Z) (q : PriorityQueue.t) :
  (unviewed viewed q <= List.length q)%nat.
Proof. unfold unviewed. apply filter_length_le. Qed.

End QueueFacts.

Section PassiveLoopFacts.
Import PriorityQueue.

Variable E : ErrorsModule.
Variable start : Z -> Exc + PassiveServer.

(** The loop of [_start_passive_server] ends: each further turn tries a
    port that was not tried before, so fuel above the number of untried
    entries is never used up. *)
Lemma passive_loop_total (fuel : nat) :
  forall q viewed,
    (unviewed viewed q < fuel)%nat ->
    snd (passive_loop E start fuel q viewed) <> NoFuel.
Proof.
  induction fuel as [| fuel IH]; intros q viewed Hlt; [lia |].
  cbn [passive_loop]. destruct q as [| [priority port] q1]; cbn [get_nowait].
  { discriminate. }
  destruct (existsb (Z.eqb port) viewed) eqn:Hseen.
  - cbv iota. destruct (is_OSError E NoAvailablePort); cbn; discriminate.
  - cbv iota zeta.
    destruct (start port) as [err | srv]; [| discriminate].
    destruct err; cbn [is_OSError errno_of]; try discriminate;
      try (destruct (NoAvailablePort_is_OSError E); discriminate).
    destruct (errno =? EADDRINUSE); [| discriminate].
    apply IH.
    rewrite unviewed_put, unviewed_cons. cbn [snd existsb].
    rewrite Z.eqb_refl. cbn [orb].
    rewrite unviewed_cons in Hlt. cbn [snd] in Hlt. rewrite Hseen in Hlt.
    pose proof (unviewed_more viewed port q1). lia.
Qed.

(** [asyncio.start_server] either returns a listener or raises an
    [OSError]. *)
Definition binds_or_oserror : Prop :=
  forall port, match start port with
               | inr _ | inl (OSError _) => True
               | inl _ => False
               end.

Hypothesis E_oserror : NoAvailablePort_is_OSError E = true.
Hypothesis start_ok : binds_or_oserror.


(** What the loop raises is a Python exception, never the fuel
    marker. *)
Lemma passive_loop_raises_python (fuel : nat) :
  forall q viewed e,
    snd (passive_loop E start fuel q viewed) = Raised e -> e <> FuelExhausted.
Proof.
  clear E_oserror.
  induction fuel as [| fuel IH]; intros q viewed e; cbn [passive_loop];
    [discriminate |].
  destruct q as [| [priority port] q1]; cbn [get_nowait].
  { intros Heq. injection Heq as <-. discriminate. }
  destruct (existsb (Z.eqb port) viewed); cbv iota zeta.
  - cbn [is_OSError errno_of]. destruct (NoAvailablePort_is_OSError E); cbn;
      intros Heq; injection Heq as <-; discriminate.
  - pose proof (start_ok port) as Hs.
    destruct (start port) as [err | srv]; [| discriminate].
    destruct err; try contradiction. cbn [is_OSError errno_of].
    destruct (errno =? EADDRINUSE); [apply IH |].
    cbn. intros Heq. injection Heq as <-. discriminate.
Qed.

End PassiveLoopFacts.

(** *** One session: pool and listener together keep the ports *)



(** In this environment [asyncio.start_server] returns a listener or
    raises an [OSError], on every host and port. *)
Definition sane_env (env : Env) : Prop :=
  forall host, binds_or_oserror (start_server env host).

(** The commands whose handlers are modelled in Part I. *)
Definition modelled_command (f : Command) : bool :=
  match f with
  | c_abor | c_cdup | c_dele | c_list | c_mkd | c_mlsd | c_mlst | c_pass
  | c_rmd | c_rnfr | c_rnto | c_user => false
  | _ => true
  end.

Definition modelled_input (i : Input) : bool :=
  match i with
  | in_command cmd _ =>
      match commands_mapping cmd with
      | Some f => modelled_command f
      | None => true
      end
  | _ => true
  end.

Section SessionPoolFacts.






Variable E : ErrorsModule.
Hypothesis E_oserror : NoAvailablePort_is_OSError E = true.

Opaque passive_loop.


(** The fuel given to the loop by [_start_passive_server] is enough:
    the marker [FuelExhausted] is never raised. *)
Lemma start_passive_server_has_fuel (env : Env) (w : World) :
  sane_env env ->
  fst (_start_passive_server E env w) <> inl FuelExhausted.
Proof.
  intros Henv. destruct w as [s c log].
  unfold _start_passive_server. msimpl.
  destruct (available_data_ports s) as [q |].
  - pose proof (passive_loop_total E (start_server env (server_host c))
                  (S (List.length q)) q []
                  ltac:(pose proof (unviewed_length [] q); lia)) as Hfuel.
    pose proof (passive_loop_raises_python E (start_server env (server_host c))
                  (Henv (server_host c)) (S (List.length q)) q [])
      as Hraised.
    destruct (passive_loop E (start_server env (server_host c))
                (S (List.length q)) q []) as [q' out].
    destruct out as [srv port | e |]; msimpl.
    + discriminate.
    + intros Heq. injection Heq as ->. exact (Hraised _ eq_refl eq_refl).
    + exfalso. apply Hfuel. reflexivity.
  - pose proof (Henv (server_host c) (passive_server_port c)) as Hs.
    destruct (start_server env (server_host c) (passive_server_port c))
      as [err | srv]; msimpl; [| discriminate].
    destruct err; try contradiction. discriminate.
Qed.

Transparent passive_loop.








End SessionPoolFacts.

(** *** All sessions of a server *)



Section SystemPoolFacts.



Variable E : ErrorsModule.
Hypothesis E_oserror : NoAvailablePort_is_OSError E = true.




End SystemPoolFacts.


(** Binding always succeeds. *)
Definition free_ports_env : Env :=
  mkEnv (fun _ port => inr (listener port))
        (fun _ => inr false) (fun _ => inr false) (fun _ => inr false)
        (fun _ => inr 0) (fun _ _ => None)
        (fun _ _ w => (inr (PyBool true), w)).

Definition two_port_server : Server :=
  mkServer (Some (PriorityQueue.of_ports [2121; 2122])) None.


(** Were [NoAvailablePort] not an [OSError], the port met for the second
    time in a round would not be put back: the pool of one port is empty
    after a failed [PASV]. *)
Lemma port_lost_unless_oserror :
  let w := mkWorld one_port_server (jailed_connection "/") [] in
  let r := ftp_pasv (Build_ErrorsModule false) "" barren_env w in
  fst r = inr (PyBool false)
  /\ available_data_ports (server (snd r)) = Some [].
Proof. cbv zeta. split; reflexivity. Qed.

(* ================================================================== *)
(** * Part III. Further properties of the modelled code                *)
(* ================================================================== *)

(** ** The guards *)

Section GuardFacts.

Lemma find_none_all {A : Type} (f : A -> bool) (l : list A) :
  (forall x, In x l -> f x = false) -> find f l = None.
Proof.
  induction l as [| y l IH]; intros Hall; [reflexivity |].
  cbn [find]. rewrite (Hall y (or_introl eq_refl)).
  apply IH. intros x Hx. apply Hall. right. exact Hx.
Qed.

Lemma find_first {A : Type} (f : A -> bool) (l1 l2 : list A) (x : A) :
  (forall y, In y l1 -> f y = false) -> f x = true ->
  find f (l1 ++ x :: l2) = Some x.
Proof.
  induction l1 as [| y l1 IH]; intros Hall Hx; cbn [app find].
  - rewrite Hx. reflexivity.
  - rewrite (Hall y (or_introl eq_refl)).
    apply IH; [| exact Hx]. intros z Hz. apply Hall. right. exact Hz.
Qed.

(** [ConnectionConditions]: when every required attribute is set the
    decorated handler is the handler itself.  Otherwise the first
    missing attribute, in the order of declaration, decides: the reply is
    [fail_code] with that attribute's own message, the handler is not
    run and the wrapper returns [None].  Neither [wait] nor [fail_info]
    has any effect. *)
Theorem connection_conditions_first_missing
    (fields : list (ConnField * string)) (wait : bool) (fail_code : string)
    (fail_info : option string) (f : handler) (rest : string) (env : Env)
    (w : World) :
  ((forall fm, In fm fields -> field_is_None (connection w) (fst fm) = false) ->
     ConnectionConditions fields wait fail_code fail_info f rest env w
     = f rest env w)
  /\ (forall before fld msg after,
        fields = (before ++ (fld, msg) :: after)%list ->
        (forall fm, In fm before ->
                    field_is_None (connection w) (fst fm) = false) ->
        field_is_None (connection w) fld = true ->
        ConnectionConditions fields wait fail_code fail_info f rest env w
        = (inr PyNone,
           update_connection (push_response (fail_code, Line msg)) w)).
Proof.
  split.
  - intros Hall. unfold ConnectionConditions, bind, get_connection.
    rewrite (find_none_all _ fields Hall). reflexivity.
  - intros before fld msg after -> Hbefore Hfld.
    unfold ConnectionConditions, bind, get_connection.
    rewrite (find_first _ before after (fld, msg) Hbefore Hfld).
    destruct w. reflexivity.
Qed.

Lemma connection_conditions_witness :
  let w := mkWorld plain_server (new_connection "127.0.0.1") [] in
  field_is_None (connection w) f_logged = true
  /\ ftp_retr "f" barren_env w
     = (inr PyNone,
        update_connection (push_response ("503", Line "not logged in")) w).
Proof.
  cbv zeta. split; [reflexivity |].
  destruct (connection_conditions_first_missing
              [login_required; passive_server_started] false "503" None
              (PathConditions [path_must_exists; path_must_be_file]
                 (PathPermissions [Permission.readable_flag]
                    (fun rest =>
                       rv <- get_paths_M rest ;;
                       add_worker (retr_worker (fst rv)) ;;;
                       response "150" (Line "data transfer started") ;;;
                       ret (PyBool true))))
              "f" barren_env
              (mkWorld plain_server (new_connection "127.0.0.1") []))
    as [_ Hmiss].
  exact (Hmiss [] f_logged "not logged in" [passive_server_started]
           eq_refl ltac:(intros fm []) eq_refl).
Defined.

(** The path-I/O call and the answer behind one path test. *)
Definition test_call (t : PathTest) (p : PurePosixPath.t) : PathIOCall :=
  match t with
  | t_exists => io_exists p
  | t_is_dir => io_is_dir p
  | t_is_file => io_is_file p
  end.

Definition test_answer (env : Env) (t : PathTest) (p : PurePosixPath.t)
  : Exc + bool :=
  match t with
  | t_exists => path_exists env p
  | t_is_dir => path_is_dir env p
  | t_is_file => path_is_file env p
  end.

Definition add_log (calls : list PathIOCall) (w : World) : World :=
  mkWorld (server w) (connection w) (io_log w ++ calls).

Lemma path_io_test_run (t : PathTest) (p : PurePosixPath.t) (env : Env)
    (w : World) (b : bool) :
  test_answer env t p = inr b ->
  path_io_test t p env w = (inr b, add_log [test_call t p] w).
Proof.
  intros Ha. destruct t; cbn in Ha; unfold path_io_test; msimpl; rewrite Ha;
    reflexivity.
Qed.

Lemma add_log_app (l1 l2 : list PathIOCall) (w : World) :
  add_log l2 (add_log l1 w) = add_log (l1 ++ l2) w.
Proof. unfold add_log. cbn. rewrite <- app_assoc. reflexivity. Qed.

Lemma check_conditions_pass (conds : list (PathTest * bool * string))
    (real : PurePosixPath.t) (k : M PyResult) (env : Env) :
  (forall t fail msg, In (t, fail, msg) conds ->
                      test_answer env t real = inr (negb fail)) ->
  forall w,
    check_conditions conds real k env w
    = k env (add_log (map (fun c => test_call (fst (fst c)) real) conds) w).
Proof.
  induction conds as [| [[t fail] msg] conds IH]; intros Hall w.
  - cbn. unfold add_log. rewrite app_nil_r. destruct w. reflexivity.
  - cbn [check_conditions map fst]. unfold bind at 1.
    rewrite (path_io_test_run t real env w (negb fail)
               (Hall t fail msg (or_introl eq_refl))).
    replace (Bool.eqb (negb fail) fail) with false by (destruct fail; reflexivity).
    rewrite IH.
    + rewrite add_log_app. reflexivity.
    + intros t' fail' msg' Hin. apply (Hall t' fail' msg'). right. exact Hin.
Qed.

(** [PathConditions]: the conditions are tested on the real path in the
    order of declaration.  When all hold, the handler runs, and the only
    trace of the guard is its calls in the path-I/O log.  The first
    condition that fails is answered with 550 and its message, the
    wrapper returns [True], and neither the later conditions nor the
    handler are run. *)
Theorem path_conditions_first_failure
    (conds : list (PathTest * bool * string)) (f : handler) (rest : string)
    (env : Env) (w : World) (real virt : PurePosixPath.t) :
  get_paths (connection w) rest = inr (real, virt) ->
  ((forall t fail msg, In (t, fail, msg) conds ->
                       test_answer env t real = inr (negb fail)) ->
     PathConditions conds f rest env w
     = f rest env
         (add_log (map (fun c => test_call (fst (fst c)) real) conds) w))
  /\ (forall before t fail msg after,
        conds = (before ++ (t, fail, msg) :: after)%list ->
        (forall t' fail' msg', In (t', fail', msg') before ->
                               test_answer env t' real = inr (negb fail')) ->
        test_answer env t real = inr fail ->
        PathConditions conds f rest env w
        = (inr (PyBool true),
           update_connection (push_response ("550", Line msg))
             (add_log (map (fun c => test_call (fst (fst c)) real) before
                       ++ [test_call t real]) w))).
Proof.
  intros Hget.
  assert (Hunfold : PathConditions conds f rest env w
                    = check_conditions conds real (f rest) env w).
  { unfold PathConditions, get_paths_M, bind, get_connection, lift.
    rewrite Hget. reflexivity. }
  rewrite Hunfold. split.
  - intros Hall. apply check_conditions_pass. exact Hall.
  - intros before t fail msg after -> Hbefore Hfail.
    clear Hunfold Hget. revert w.
    induction before as [| [[t0 fail0] msg0] before IH]; intros w.
    + cbn [app check_conditions map]. unfold bind at 1.
      rewrite (path_io_test_run t real env w fail Hfail).
      rewrite Bool.eqb_reflx. msimpl. reflexivity.
    + cbn [app check_conditions map fst]. unfold bind at 1.
      rewrite (path_io_test_run t0 real env w (negb fail0)
                 (Hbefore t0 fail0 msg0 (or_introl eq_refl))).
      replace (Bool.eqb (negb fail0) fail0) with false
        by (destruct fail0; reflexivity).
      rewrite IH.
      * rewrite add_log_app. reflexivity.
      * intros t' fail' msg' Hin. apply (Hbefore t' fail' msg').
        right. exact Hin.
Qed.

End GuardFacts.

Lemma path_conditions_witness :
  let w := mkWorld plain_server (jailed_connection "/") [] in
  let real := PurePosixPath.parse "/srv/ftp/x" in
  get_paths (connection w) "x" = inr (real, PurePosixPath.parse "/x")
  /\ PathConditions [path_must_exists; path_must_be_dir] marked_body "x"
       barren_env w
     = (inr (PyBool true),
        update_connection
          (push_response ("550", Line "path does not exists"))
          (add_log [io_exists real] w)).
Proof.
  cbv zeta. split; [reflexivity |].
  destruct (path_conditions_first_failure
              [path_must_exists; path_must_be_dir] marked_body "x" barren_env
              (mkWorld plain_server (jailed_connection "/") [])
              (PurePosixPath.parse "/srv/ftp/x") (PurePosixPath.parse "/x")
              eq_refl) as [_ Hfail].
  exact (Hfail [] t_exists false "path does not exists" [path_must_be_dir]
           eq_refl ltac:(intros ? ? ? []) eq_refl).
Defined.

(** ** Dispatching *)

Section DispatchFacts.

Variable E : ErrorsModule.

(** A command of one-byte characters that is not in the table is
    answered with 502, [repr(cmd)] and [" not implemented"]; the session
    goes on and the connection is otherwise untouched: in particular
    the restart offset set by an earlier [REST] is not cleared, and a
    [RETR] dispatched next still finds it. *)
Theorem unknown_command_keeps_offset (cmd rest : string) (env : Env)
    (w : World) :
  ascii_only cmd = true ->
  commands_mapping cmd = None ->
  let r := dispatcher_step E (in_command cmd rest) env w in
  r = (update_connection
         (push_response ("502", Line (Py.repr cmd ++ " not implemented"))) w,
       None)
  /\ restart_offset (connection (fst r)) = restart_offset (connection w)
  /\ restart_offset
       (connection (fst (dispatch "retr" rest (fst r))))
     = restart_offset (connection w).
Proof.
  intros _ Hnone. cbv zeta.
  assert (Hstep : dispatcher_step E (in_command cmd rest) env w
                  = (update_connection
                       (push_response
                          ("502", Line (Py.repr cmd ++ " not implemented"))) w,
                     None)).
  { cbn [dispatcher_step]. unfold dispatch. rewrite Hnone. reflexivity. }
  rewrite Hstep. destruct w. repeat split.
Qed.

End DispatchFacts.

Lemma unknown_command_witness :
  let w := snd (ftp_rest "7" barren_env
                  (mkWorld plain_server (jailed_connection "/") [])) in
  ascii_only "feat" = true
  /\ commands_mapping "feat" = None
  /\ Py.repr "feat" = "'feat'"
  /\ restart_offset
       (connection (fst (dispatcher_step oserror_errors
                           (in_command "feat" "") barren_env w))) = 7.
Proof.
  cbv zeta. split; [reflexivity |]. split; [reflexivity |].
  split; [reflexivity |].
  destruct (unknown_command_keeps_offset oserror_errors "feat" "" barren_env
              (snd (ftp_rest "7" barren_env
                      (mkWorld plain_server (jailed_connection "/") [])))
              eq_refl eq_refl) as (_ & Hkeep & _).
  exact Hkeep.
Defined.

(** ** Passive mode replies *)

(** The host [ftp_pasv] advertises: the forced address when one is
    configured and not empty, else the socket's own. *)
Definition advertised_host (s : Server) (sock : Socket) : string :=
  match ipv4_pasv_forced_response_address s with
  | Some forced => if Py.truthy forced then forced else sockname_host sock
  | None => sockname_host sock
  end.

(** The second line of the 227 reply. *)
Definition pasv_address (octets : list Z) (port : Z) : string :=
  "(" ++ Py.join "," (map Py.str (octets ++ [Z.shiftr port 8; Z.land port 255]))
  ++ ")".

Section PassiveReplyFacts.

Variable E : ErrorsModule.

Lemma port_bytes (port : Z) :
  Z.shiftr port 8 * 256 + Z.land port 255 = port
  /\ 0 <= Z.land port 255 < 256.
Proof.
  rewrite Z.shiftr_div_pow2 by lia.
  change 255 with (Z.ones 8). rewrite Z.land_ones by lia.
  change (2 ^ 8) with 256.
  pose proof (Z.div_mod port 256 ltac:(lia)).
  pose proof (Z.mod_pos_bound port 256 ltac:(lia)). lia.
Qed.

(** The part of [ftp_pasv] after the listener is there. *)
Lemma ftp_pasv_after_listener (rest line : string) (env : Env) (w w1 : World)
    (b : bool) (srv : PassiveServer) (sock : Socket) (octets : list Z) :
  logged (connection w) = Some b ->
  ensure_passive_server E env w = (inr (Some line), w1) ->
  passive_server (connection w1) = Some srv ->
  find (fun sock => match family sock with
                    | AF_INET => true
                    | _ => false
                    end) (sockets srv) = Some sock ->
  int_all (Py.split "." (advertised_host (server w1) sock)) = Some octets ->
  ftp_pasv E rest env w
  = (inr (PyBool true),
     update_connection
       (fun c => push_response
                   ("227", Lines [line; pasv_address octets (sockname_port sock)])
                   (set_data_connection None c)) w1).
Proof.
  intros Hl He Hsrv Hsock Hint.
  unfold ftp_pasv, ConnectionConditions.
  unfold bind at 1. unfold get_connection at 1. cbv iota beta.
  cbn [find fst login_required field_is_None]. rewrite Hl.
  unfold bind at 1. rewrite He. destruct w1 as [s1 c1 log1].
  cbn [connection server] in Hsrv, Hint. msimpl.
  rewrite Hsrv, Hsock. unfold advertised_host in Hint. rewrite Hint.
  reflexivity.
Qed.

(** [PASV] on a connection that already has a listener: no port is
    taken and the operating system is not asked (the reply is the same
    in every environment); the reply is 227 with
    ["listen socket already exists"] and the address
    [(h1,h2,h3,h4,p1,p2)] of the listener's first IPv4 socket, where
    [p1 * 256 + p2] is the port; a data connection left over is
    dropped. *)
Theorem pasv_reuses_listener (rest : string) (env : Env) (w : World)
    (b : bool) (srv : PassiveServer) (sock : Socket) (octets : list Z) :
  logged (connection w) = Some b ->
  passive_server (connection w) = Some srv ->
  find (fun sock => match family sock with
                    | AF_INET => true
                    | _ => false
                    end) (sockets srv) = Some sock ->
  int_all (Py.split "." (advertised_host (server w) sock)) = Some octets ->
  let port := sockname_port sock in
  ftp_pasv E rest env w
  = (inr (PyBool true),
     mkWorld (server w)
       (push_response
          ("227", Lines ["listen socket already exists";
                         "(" ++ Py.join ","
                                  (map Py.str
                                     (octets ++ [Z.shiftr port 8;
                                                 Z.land port 255]))
                         ++ ")"])
          (set_data_connection None (connection w)))
       (io_log w))
  /\ Z.shiftr port 8 * 256 + Z.land port 255 = port
  /\ 0 <= Z.land port 255 < 256.
Proof.
  intros Hl Hsrv Hsock Hint port. split; [| apply port_bytes].
  assert (He : ensure_passive_server E env w
               = (inr (Some "listen socket already exists"), w)).
  { unfold ensure_passive_server, bind, get_connection. rewrite Hsrv.
    reflexivity. }
  rewrite (ftp_pasv_after_listener rest _ env w w b srv sock octets
             Hl He Hsrv Hsock Hint).
  destruct w. reflexivity.
Qed.

(** [PASV] on a server without port pool and a connection without
    listener: the operating system is asked for a listener on the
    connection's passive port (0 at first, hence an ephemeral port), the
    listener is stored, and the reply is 227 with
    ["listen socket created"] and the encoded address. *)
Theorem pasv_unconstrained_creates_listener (rest : string) (env : Env)
    (w : World) (b : bool) (srv : PassiveServer) (sock : Socket)
    (octets : list Z) :
  logged (connection w) = Some b ->
  passive_server (connection w) = None ->
  available_data_ports (server w) = None ->
  start_server env (server_host (connection w))
    (passive_server_port (connection w)) = inr srv ->
  find (fun sock => match family sock with
                    | AF_INET => true
                    | _ => false
                    end) (sockets srv) = Some sock ->
  int_all (Py.split "." (advertised_host (server w) sock)) = Some octets ->
  ftp_pasv E rest env w
  = (inr (PyBool true),
     mkWorld (server w)
       (push_response
          ("227", Lines ["listen socket created";
                         pasv_address octets (sockname_port sock)])
          (set_data_connection None
             (set_passive_server (Some srv) (connection w))))
       (io_log w)).
Proof.
  intros Hl Hnone Hpool Hstart Hsock Hint.
  assert (He : ensure_passive_server E env w
               = (inr (Some "listen socket created"),
                  update_connection (set_passive_server (Some srv)) w)).
  { unfold ensure_passive_server.
    unfold bind at 1. unfold get_connection at 1. cbv iota beta.
    rewrite Hnone. unfold _start_passive_server. destruct w as [s c log].
    cbn [connection server] in *. msimpl. rewrite Hpool. msimpl.
    rewrite Hstart. reflexivity. }
  rewrite (ftp_pasv_after_listener rest _ env w _ b srv sock octets
             Hl He ltac:(destruct w; reflexivity) Hsock
             ltac:(destruct w; exact Hint)).
  destruct w. reflexivity.
Qed.

(** [EPSV] with an argument, on a logged-in connection: the reply is
    522, no listener is started, no port is taken, and the handler
    returns [False], the result on which the dispatcher leaves its
    loop. *)
Theorem epsv_with_argument_ends_session (rest : string) (env : Env)
    (w : World) (b : bool) :
  logged (connection w) = Some b ->
  rest <> "" ->
  let w1 :=
    update_connection
      (push_response
         ("522", Lines ["custom protocols support not implemented"])) w in
  ftp_epsv E rest env w = (inr (PyBool false), w1)
  /\ after_task (ftp_epsv E rest env w) = (w1, Some ReturnedFalse)
  /\ server w1 = server w
  /\ passive_server (connection w1) = passive_server (connection w).
Proof.
  intros Hl Hrest w1.
  assert (Ht : Py.truthy rest = true).
  { unfold Py.truthy. destruct (String.eqb_spec rest ""); [contradiction |].
    reflexivity. }
  assert (Hrun : ftp_epsv E rest env w = (inr (PyBool false), w1)).
  { subst w1. unfold ftp_epsv, ConnectionConditions.
    destruct w as [s c log]. cbn [connection] in Hl. msimpl.
    rewrite Hl, Ht. reflexivity. }
  rewrite Hrun. destruct w. repeat split.
Qed.

(** The accept callback binds at most one data connection: with a
    listener and no data connection the first client is kept, and a
    client that connects while a data connection is bound changes
    nothing; without listener nothing is ever bound. *)
Theorem single_data_connection (c : Connection) (first second : nat) :
  accept_data_connection second (accept_data_connection first c)
  = accept_data_connection first c
  /\ (passive_server c <> None -> data_connection c = None ->
      data_connection (accept_data_connection first c) = Some first)
  /\ (passive_server c = None -> accept_data_connection first c = c).
Proof.
  unfold accept_data_connection. repeat split.
  - destruct (passive_server c) eqn:Hp; destruct (data_connection c) eqn:Hd;
      cbn; rewrite ?Hp, ?Hd; reflexivity.
  - intros Hp Hd. rewrite Hd. destruct (passive_server c);
      [reflexivity | contradiction].
  - intros Hp. rewrite Hp. reflexivity.
Qed.

End PassiveReplyFacts.

Lemma pasv_reuses_listener_witness :
  let w := mkWorld plain_server transfer_ready_connection [] in
  logged (connection w) = Some true
  /\ response_queue (connection (snd (ftp_pasv oserror_errors "" barren_env w)))
     = [("227", Lines ["listen socket already exists"; "(127,0,0,1,8,73)"])].
Proof.
  cbv zeta. split; [reflexivity |].
  destruct (pasv_reuses_listener oserror_errors "" barren_env
              (mkWorld plain_server transfer_ready_connection [])
              true (listener 2121)
              (Build_Socket AF_INET "127.0.0.1" 2121) [127; 0; 0; 1]
              eq_refl eq_refl eq_refl eq_refl) as [Hrun _].
  rewrite Hrun. reflexivity.
Defined.

Lemma pasv_unconstrained_witness :
  let w := mkWorld plain_server (jailed_connection "/") [] in
  passive_server (connection w) = None
  /\ response_queue
       (connection (snd (ftp_pasv oserror_errors "" free_ports_env w)))
     = [("227", Lines ["listen socket created"; "(127,0,0,1,0,0)"])].
Proof.
  cbv zeta. split; [reflexivity |].
  rewrite (pasv_unconstrained_creates_listener oserror_errors ""
             free_ports_env
             (mkWorld plain_server (jailed_connection "/") [])
             true (listener 0) (Build_Socket AF_INET "127.0.0.1" 0)
             [127; 0; 0; 1] eq_refl eq_refl eq_refl eq_refl eq_refl eq_refl).
  reflexivity.
Defined.

Lemma epsv_with_argument_witness :
  let w := mkWorld one_port_server (jailed_connection "/") [] in
  logged (connection w) = Some true
  /\ fst (ftp_epsv oserror_errors "1" free_ports_env w) = inr (PyBool false)
  /\ server (snd (ftp_epsv oserror_errors "1" free_ports_env w))
     = one_port_server.
Proof.
  cbv zeta. split; [reflexivity |].
  destruct (epsv_with_argument_ends_session oserror_errors "1" free_ports_env
              (mkWorld one_port_server (jailed_connection "/") [])
              true eq_refl ltac:(discriminate)) as [Hrun _].
  rewrite Hrun. split; reflexivity.
Defined.

Lemma single_data_connection_witness :
  data_connection
    (accept_data_connection 2
       (accept_data_connection 1 transfer_ready_connection)) = Some 1%nat.
Proof.
  destruct (single_data_connection transfer_ready_connection 1 2)
    as (Hsame & Hfirst & _).
  rewrite Hsame. apply Hfirst; [discriminate | reflexivity].
Defined.

(** ** Transfer type, transfers and the end of a session *)

Section HandlerFacts.

(** [TYPE]: only the exact arguments ["I"] and ["A"] are accepted and
    stored (reply 200); any other argument of one-byte characters, the
    lower-case letters included, is answered with 502 and its [repr],
    and leaves the transfer type as it was.  Either way the handler
    returns [True]. *)
Theorem type_accepts_only_I_and_A (rest : string) (env : Env) (w : World)
    (b : bool) :
  logged (connection w) = Some b ->
  ((rest = "I" \/ rest = "A") ->
     ftp_type rest env w
     = (inr (PyBool true),
        update_connection
          (fun c => push_response ("200", Line "")
                      (set_transfer_type (Some rest) c)) w))
  /\ (ascii_only rest = true -> rest <> "I" -> rest <> "A" ->
      ftp_type rest env w
      = (inr (PyBool true),
         update_connection
           (push_response
              ("502", Line ("type " ++ Py.repr rest ++ " not implemented")))
           w)
      /\ transfer_type (connection (snd (ftp_type rest env w)))
         = transfer_type (connection w)).
Proof.
  intros Hl. destruct w as [s c log]. cbn [connection] in Hl. split.
  - intros Hrest. unfold ftp_type. msimpl. rewrite Hl. msimpl.
    destruct Hrest as [-> | ->]; reflexivity.
  - intros _ HI HA.
    assert (Hrun : ftp_type rest env (mkWorld s c log)
                   = (inr (PyBool true),
                      update_connection
                        (push_response
                           ("502",
                            Line ("type " ++ Py.repr rest ++ " not implemented")))
                        (mkWorld s c log))).
    { unfold ftp_type. msimpl. rewrite Hl. msimpl.
      destruct (String.eqb_spec rest "I"); [contradiction |].
      destruct (String.eqb_spec rest "A"); [contradiction |].
      reflexivity. }
    rewrite Hrun. split; reflexivity.
Qed.

(** A transfer worker that finds no data connection answers 425 with the
    message of the missing attribute, ["no data connection made"] (the
    [fail_info] text of the decorator is not used), touches no file and
    returns [None]. *)
Theorem worker_without_data_connection (wk : Worker) (env : Env) (w : World) :
  data_connection (connection w) = None ->
  run_worker wk env w
  = (inr PyNone,
     update_connection
       (push_response ("425", Line "no data connection made")) w).
Proof.
  intros Hd. destruct w as [s c log]. cbn [connection] in Hd.
  unfold run_worker. msimpl. rewrite Hd. reflexivity.
Qed.

(** A [STOR] or [APPE] worker with a data connection: the data
    connection is taken out of the connection; the file is opened in
    the handler's mode (["wb"] or ["ab"]) when the restart offset is
    zero, and otherwise in ["r+b"] and positioned at the offset; then
    the blocks are copied and 226 is sent.  The task's result is [None]:
    the [worker] decorator drops the [True] of the body. *)
Theorem stor_worker_file_mode (p : PurePosixPath.t) (mode : string)
    (env : Env) (w : World) (d : nat) :
  data_connection (connection w) = Some d ->
  let offset := restart_offset (connection w) in
  let file_mode := if offset =? 0 then mode else "r+b" in
  path_open env p file_mode = None ->
  run_worker (stor_worker p mode) env w
  = (inr PyNone,
     mkWorld (server w)
       (push_response ("226", Line "data transfer done")
          (set_data_connection None (connection w)))
       (io_log w
        ++ io_open p file_mode
           :: (if offset =? 0 then [] else [io_seek offset])
           ++ [io_copy_blocks (block_size (connection w))])).
Proof.
  intros Hd offset file_mode Ho. destruct w as [s c log].
  cbn [connection server io_log] in *. subst offset file_mode.
  unfold run_worker. msimpl. rewrite Hd. msimpl.
  destruct (restart_offset c =? 0) eqn:Hz; msimpl; rewrite ?Hz, Ho; msimpl;
    rewrite ?Hz; msimpl; rewrite <- ?app_assoc; reflexivity.
Qed.

Variable E : ErrorsModule.

(** A path-I/O error raised while a handler runs is answered with
    ["451 file system error"] and the session goes on; any other
    exception ends it.  Shown on [SIZE], whose first path-I/O call may
    raise. *)
Theorem path_io_error_is_answered_451 (rest : string) (env : Env) (w : World)
    (b : bool) (real virt : PurePosixPath.t) (e : Exc) :
  logged (connection w) = Some b ->
  get_paths (connection w) rest = inr (real, virt) ->
  path_exists env real = inl e ->
  let w1 := add_log [io_exists real]
              (update_connection (set_restart_offset 0) w) in
  dispatcher_step E (in_command "size" rest) env w
  = match e with
    | PathIOError =>
        (update_connection
           (push_response ("451", Line "file system error")) w1, None)
    | _ => (w1, Some (Crashed e))
    end.
Proof.
  intros Hl Hget He w1. subst w1.
  cbn [dispatcher_step]. unfold dispatch.
  change (commands_mapping "size") with (Some c_size).
  change (is_transfer_command "size") with false. cbv iota.
  cbn [run_command]. destruct w as [s c log].
  cbn [connection] in Hl, Hget.
  assert (Hrun : ftp_size rest env
                   (update_connection (set_restart_offset 0) (mkWorld s c log))
                 = (inl e,
                    add_log [io_exists real]
                      (update_connection (set_restart_offset 0)
                         (mkWorld s c log)))).
  { unfold ftp_size. msimpl. rewrite Hl. msimpl.
    assert (Hget0 : get_paths (set_restart_offset 0 c) rest = inr (real, virt))
      by exact Hget.
    rewrite Hget0. msimpl. rewrite He. reflexivity. }
  rewrite Hrun. destruct e; reflexivity.
Qed.

End HandlerFacts.

Lemma type_witness :
  let w := mkWorld plain_server (jailed_connection "/") [] in
  logged (connection w) = Some true
  /\ transfer_type (connection (snd (ftp_type "A" barren_env w))) = Some "A"
  /\ transfer_type (connection (snd (ftp_type "a" barren_env w))) = None
  /\ Py.repr "it's" = Py.dquote ++ "it's" ++ Py.dquote.
Proof.
  cbv zeta. split; [reflexivity |].
  destruct (type_accepts_only_I_and_A "A" barren_env
              (mkWorld plain_server (jailed_connection "/") []) true eq_refl)
    as [Hok _].
  destruct (type_accepts_only_I_and_A "a" barren_env
              (mkWorld plain_server (jailed_connection "/") []) true eq_refl)
    as [_ Hbad].
  split; [| split].
  - rewrite (Hok (or_intror eq_refl)). reflexivity.
  - destruct (Hbad eq_refl ltac:(discriminate) ltac:(discriminate))
      as [_ Hkeep].
    exact Hkeep.
  - reflexivity.
Defined.

Lemma worker_without_data_connection_witness :
  response_queue
    (connection
       (snd (run_worker (retr_worker (PurePosixPath.parse "/srv/ftp/f"))
               files_env (mkWorld plain_server transfer_ready_connection []))))
  = [("425", Line "no data connection made")].
Proof.
  rewrite (worker_without_data_connection
             (retr_worker (PurePosixPath.parse "/srv/ftp/f")) files_env
             (mkWorld plain_server transfer_ready_connection []) eq_refl).
  reflexivity.
Defined.

Lemma stor_worker_witness :
  let c := set_restart_offset 3
             (set_data_connection (Some 1%nat) transfer_ready_connection) in
  let f := PurePosixPath.parse "/srv/ftp/f" in
  data_connection c = Some 1%nat
  /\ io_log (snd (run_worker (stor_worker f "wb") files_env
                    (mkWorld plain_server c [])))
     = [io_open f "r+b"; io_seek 3; io_copy_blocks 8192].
Proof.
  cbv zeta. split; [reflexivity |].
  rewrite (stor_worker_file_mode (PurePosixPath.parse "/srv/ftp/f") "wb"
             files_env
             (mkWorld plain_server
                (set_restart_offset 3
                   (set_data_connection (Some 1%nat) transfer_ready_connection))
                []) 1 eq_refl eq_refl).
  reflexivity.
Defined.

Lemma path_io_error_witness :
  let env := mkEnv (fun _ _ => inl (OSError EADDRINUSE))
               (fun _ => inl PathIOError) (fun _ => inr false)
               (fun _ => inr false) (fun _ => inr 0) (fun _ _ => None)
               (fun _ _ w => (inr (PyBool true), w)) in
  let w := mkWorld plain_server (jailed_connection "/") [] in
  logged (connection w) = Some true
  /\ snd (dispatcher_step oserror_errors (in_command "size" "f") env w) = None
  /\ response_queue
       (connection
          (fst (dispatcher_step oserror_errors (in_command "size" "f") env w)))
     = [("451", Line "file system error")].
Proof.
  cbv zeta. split; [reflexivity |].
  rewrite (path_io_error_is_answered_451 oserror_errors "f"
             (mkEnv (fun _ _ => inl (OSError EADDRINUSE))
                (fun _ => inl PathIOError) (fun _ => inr false)
                (fun _ => inr false) (fun _ => inr 0) (fun _ _ => None)
                (fun _ _ w => (inr (PyBool true), w)))
             (mkWorld plain_server (jailed_connection "/") []) true
             (PurePosixPath.parse "/srv/ftp/f") (PurePosixPath.parse "/f")
             PathIOError eq_refl eq_refl eq_refl).
  split; reflexivity.
Defined.

(** ** Decimal numbers in commands and replies *)

Section DecimalFacts.

Definition digit_step (acc : Z) (c : ascii) : Z :=
  10 * acc + (Z.of_N (N_of_ascii c) - 48).

Lemma int_of_digits_fold (s : string) :
  Py.int_of_digits s = fold_left digit_step (list_ascii_of_string s) 0.
Proof. reflexivity. Qed.

Lemma digit_char_value (d : Z) :
  0 <= d < 10 ->
  Z.of_N (N_of_ascii (Py.digit_char d)) - 48 = d
  /\ Py.is_ascii_digit (Py.digit_char d) = true.
Proof.
  intros Hd.
  assert (Hcases : d = 0 \/ d = 1 \/ d = 2 \/ d = 3 \/ d = 4 \/ d = 5
                   \/ d = 6 \/ d = 7 \/ d = 8 \/ d = 9) by lia.
  repeat (destruct Hcases as [-> | Hcases]; [split; reflexivity |]).
  subst. split; reflexivity.
Qed.

(** Reading the digits written by [str_pos_fuel] in front of [acc]
    gives back the number, carried into the reading of [acc]. *)
Lemma str_pos_value (fuel : nat) :
  forall n acc,
    0 <= n < 2 ^ Z.of_nat fuel ->
    fold_left digit_step (list_ascii_of_string (Py.str_pos_fuel fuel n acc)) 0
    = fold_left digit_step (list_ascii_of_string acc) n.
Proof.
  induction fuel as [| fuel IH]; intros n acc Hn.
  - cbn in Hn. assert (n = 0) by lia. subst. reflexivity.
  - cbn [Py.str_pos_fuel].
    assert (Hmod : 0 <= n mod 10 < 10) by (apply Z.mod_pos_bound; lia).
    destruct (digit_char_value (n mod 10) Hmod) as [Hval _].
    destruct (Z.ltb_spec n 10) as [Hlt | Hge].
    + cbn [list_ascii_of_string fold_left]. unfold digit_step at 2.
      rewrite Hval, Z.mod_small by lia. f_equal.
    + rewrite IH.
      * cbn [list_ascii_of_string fold_left]. unfold digit_step at 2.
        rewrite Hval. f_equal. pose proof (Z.div_mod n 10 ltac:(lia)). lia.
      * rewrite Nat2Z.inj_succ, Z.pow_succ_r in Hn by lia.
        split; [apply Z.div_pos; lia |].
        apply Z.div_lt_upper_bound; lia.
Qed.

Lemma str_pos_digits (fuel : nat) :
  forall n acc,
    0 <= n ->
    forallb Py.is_ascii_digit (list_ascii_of_string acc) = true ->
    forallb Py.is_ascii_digit
            (list_ascii_of_string (Py.str_pos_fuel fuel n acc)) = true.
Proof.
  induction fuel as [| fuel IH]; intros n acc Hn Hacc; [exact Hacc |].
  cbn [Py.str_pos_fuel].
  assert (Hmod : 0 <= n mod 10 < 10) by (apply Z.mod_pos_bound; lia).
  destruct (digit_char_value (n mod 10) Hmod) as [_ Hdig].
  assert (Hacc' : forallb Py.is_ascii_digit
                    (list_ascii_of_string
                       (String (Py.digit_char (n mod 10)) acc)) = true).
  { cbn [list_ascii_of_string forallb]. rewrite Hdig, Hacc. reflexivity. }
  destruct (n <? 10); [exact Hacc' |].
  apply IH; [apply Z.div_pos; lia | exact Hacc'].
Qed.

Lemma str_pos_not_empty (fuel : nat) :
  forall n acc, acc <> "" -> Py.str_pos_fuel fuel n acc <> "".
Proof.
  induction fuel as [| fuel IH]; intros n acc Hacc; [exact Hacc |].
  cbn [Py.str_pos_fuel]. destruct (n <? 10); [discriminate |].
  apply IH. discriminate.
Qed.

Lemma str_nonnegative (n : Z) :
  0 <= n ->
  Py.isdigit (Py.str n) = true /\ Py.int_of_digits (Py.str n) = n.
Proof.
  intros Hn. unfold Py.str. destruct (Z.ltb_spec n 0); [lia |].
  assert (Hfuel : 0 <= n < 2 ^ Z.of_nat (S (Z.to_nat (Z.log2 n)))).
  { split; [exact Hn |].
    rewrite Nat2Z.inj_succ, Z2Nat.id by apply Z.log2_nonneg.
    destruct (Z.eq_dec n 0) as [-> | Hpos]; [reflexivity |].
    apply Z.log2_spec. lia. }
  split.
  - unfold Py.isdigit.
    pose proof (str_pos_digits (S (Z.to_nat (Z.log2 n))) n "" Hn eq_refl)
      as Hdig.
    destruct (Py.str_pos_fuel (S (Z.to_nat (Z.log2 n))) n "") eqn:Hs;
      [| exact Hdig].
    exfalso. cbn [Py.str_pos_fuel] in Hs.
    destruct (n <? 10); [discriminate |].
    revert Hs. apply str_pos_not_empty. discriminate.
  - rewrite int_of_digits_fold, str_pos_value by exact Hfuel. reflexivity.
Qed.

Lemma str_pos_length (fuel : nat) :
  forall n acc k,
    0 <= n < 10 ^ Z.of_nat k ->
    (1 <= k)%nat ->
    (String.length (Py.str_pos_fuel fuel n acc) <= String.length acc + k)%nat.
Proof.
  induction fuel as [| fuel IH]; intros n acc k Hn Hk; [cbn; lia |].
  cbn [Py.str_pos_fuel]. destruct (Z.ltb_spec n 10) as [Hlt | Hge].
  - cbn [String.length]. lia.
  - destruct k as [| [| k]]; [lia | cbn in Hn; lia |].
    etransitivity.
    + apply (IH (n / 10) _ (S k)); [| lia].
      rewrite (Nat2Z.inj_succ (S k)), Z.pow_succ_r in Hn by lia.
      split; [apply Z.div_pos; lia |].
      apply Z.div_lt_upper_bound; lia.
    + cbn [String.length]. lia.
Qed.

Lemma str_length (n : Z) (k : nat) :
  0 <= n < 10 ^ Z.of_nat k -> (1 <= k)%nat ->
  (String.length (Py.str n) <= k)%nat.
Proof.
  intros Hn Hk. unfold Py.str. destruct (Z.ltb_spec n 0); [lia |].
  apply (str_pos_length _ n "" k Hn Hk).
Qed.

(** [REST] and decimal numbers.  The decimal text of a size below
    [10^4300] that [SIZE] sends in its 213 reply reads back as that
    size; sent as the argument of [REST] it is accepted, stored as the
    restart offset and echoed in the 350 reply.  An argument of one-byte
    characters that is not made of decimal digits only is answered with
    501 and sets the restart offset to 0.  A string of more digits than
    [int] converts makes the handler raise [ValueError] with the
    connection untouched. *)
Theorem rest_reads_decimal (n : Z) (rest : string) (env : Env) (w : World) :
  (0 <= n < 10 ^ Z.of_nat Py.int_max_str_digits ->
     Py.int (Py.str n) = Some n
     /\ ftp_rest (Py.str n) env w
        = (inr (PyBool true),
           update_connection
             (fun c => push_response
                         ("350", Line ("restarting at " ++ Py.str n))
                         (set_restart_offset n c)) w))
  /\ (ascii_only rest = true ->
      Py.isdigit rest = false ->
      ftp_rest rest env w
      = (inr (PyBool true),
         update_connection
           (fun c => push_response
                       ("501",
                        Line ("syntax error, can't restart at "
                              ++ Py.repr rest))
                       (set_restart_offset 0 c)) w))
  /\ (Py.isdigit rest = true ->
      (Py.int_max_str_digits < String.length rest)%nat ->
      ftp_rest rest env w
      = (inl (ValueError (Py.int_limit_message rest)), w)).
Proof.
  split; [| split].
  - intros Hn. destruct (str_nonnegative n (proj1 Hn)) as [Hdig Hval].
    assert (Hlen : (String.length (Py.str n) <=? Py.int_max_str_digits)%nat
                   = true).
    { apply Nat.leb_le, str_length; [exact Hn |].
      unfold Py.int_max_str_digits. lia. }
    assert (Hint : Py.int (Py.str n) = Some n)
      by (unfold Py.int; rewrite Hdig, Hlen, Hval; reflexivity).
    split; [exact Hint |].
    unfold ftp_rest. rewrite Hdig, Hint. destruct w. reflexivity.
  - intros _ Hnot. unfold ftp_rest. rewrite Hnot. destruct w. reflexivity.
  - intros Hdig Hlong. unfold ftp_rest, Py.int.
    apply Nat.leb_gt in Hlong. rewrite Hdig, Hlong. destruct w. reflexivity.
Qed.

End DecimalFacts.

Lemma rest_reads_decimal_witness :
  let w := mkWorld plain_server (jailed_connection "/") [] in
  0 <= 1048576 < 10 ^ Z.of_nat Py.int_max_str_digits
  /\ restart_offset (connection (snd (ftp_rest "1048576" barren_env w)))
     = 1048576
  /\ ascii_only "-1" = true
  /\ Py.isdigit "-1" = false
  /\ restart_offset
       (connection
          (snd (ftp_rest "-1" barren_env
                  (snd (ftp_rest "1048576" barren_env w))))) = 0.
Proof.
  cbv zeta.
  assert (Hsmall : 0 <= 1048576 < 10 ^ Z.of_nat Py.int_max_str_digits).
  { split; [lia |]. apply Z.ltb_lt. vm_compute. reflexivity. }
  split; [exact Hsmall |].
  destruct (rest_reads_decimal 1048576 "-1" barren_env
              (mkWorld plain_server (jailed_connection "/") []))
    as [Hok _].
  destruct (Hok Hsmall) as [_ Hrun].
  split; [change "1048576" with (Py.str 1048576); rewrite Hrun; reflexivity |].
  split; [reflexivity |]. split; [reflexivity |].
  destruct (rest_reads_decimal 1048576 "-1" barren_env
              (snd (ftp_rest "1048576" barren_env
                      (mkWorld plain_server (jailed_connection "/") []))))
    as (_ & Hbad & _).
  rewrite (Hbad eq_refl eq_refl). reflexivity.
Defined.

(** ** Resolved paths are fixed points *)

Section ResolvedPathFacts.
Import PurePosixPath.

Lemma split_app_sep (sep : ascii) (x s : string) :
  no_char sep x = true ->
  Py.split sep (x ++ String sep s) = x :: Py.split sep s.
Proof.
  unfold no_char. induction x as [| c x IH]; intros Hno.
  - cbn. rewrite Ascii.eqb_refl. reflexivity.
  - cbn [list_ascii_of_string existsb] in Hno.
    rewrite Ascii.eqb_sym in Hno.
    cbn [append Py.split].
    destruct (Ascii.eqb c sep); [discriminate |].
    rewrite (IH Hno). reflexivity.
Qed.

Lemma split_join (l : list string) :
  l <> [] ->
  forallb valid_part l = true ->
  Py.split "/" (Py.join "/" l) = l.
Proof.
  induction l as [| x l IH]; intros Hne Hall; [contradiction |].
  cbn [forallb] in Hall. apply andb_true_iff in Hall.
  destruct Hall as [Hx Hl]. apply valid_part_no_slash in Hx.
  destruct Hx as [_ Hno].
  destruct l as [| y l].
  - cbn [Py.join]. apply split_whole. exact Hno.
  - change (Py.join "/" (x :: y :: l))
      with (x ++ String "/" (Py.join "/" (y :: l))).
    rewrite (split_app_sep "/" x _ Hno), IH; [reflexivity | discriminate |].
    exact Hl.
Qed.

Lemma filter_keep_valid (l : list string) :
  forallb valid_part l = true -> filter keep_part l = l.
Proof.
  induction l as [| x l IH]; intros Hall; [reflexivity |].
  cbn [forallb] in Hall. apply andb_true_iff in Hall.
  destruct Hall as [Hx Hl]. apply valid_part_no_slash in Hx.
  destruct Hx as [Hk _]. cbn [filter]. rewrite Hk, (IH Hl). reflexivity.
Qed.

(** [PurePosixPath(str(p)) == p] for a path rooted at ["/"]. *)
Lemma parse_to_string (p : t) :
  root p = "/" -> forallb valid_part (tail p) = true ->
  parse (to_string p) = p.
Proof.
  destruct p as [r l]. cbn [root tail]. intros -> Hall.
  destruct l as [| x l]; [reflexivity |].
  assert (Hx : valid_part x = true).
  { cbn [forallb] in Hall. apply andb_true_iff in Hall. apply Hall. }
  apply valid_part_no_slash in Hx. destruct Hx as [Hk Hno].
  destruct x as [| c x']; [discriminate |].
  assert (Hc : Ascii.eqb c "/" = false).
  { unfold no_char in Hno. cbn [list_ascii_of_string existsb] in Hno.
    rewrite Ascii.eqb_sym in Hno.
    destruct (Ascii.eqb c "/"); [discriminate | reflexivity]. }
  assert (Hjoin : exists s, Py.join "/" (String c x' :: l) = String c s).
  { destruct l; cbn [Py.join append]; eexists; reflexivity. }
  destruct Hjoin as [s Hs].
  unfold to_string, parse. cbn [root tail].
  change ("/" ++ Py.join "/" (String c x' :: l))
    with (String "/" (Py.join "/" (String c x' :: l))).
  assert (Hsplit : splitroot (String "/" (Py.join "/" (String c x' :: l)))
                   = ("/", Py.join "/" (String c x' :: l))).
  { rewrite Hs. cbn [splitroot]. rewrite Ascii.eqb_refl, Hc. reflexivity. }
  rewrite Hsplit, split_join, filter_keep_valid;
    [reflexivity | exact Hall | discriminate | exact Hall].
Qed.

Lemma resolve_fold_verbatim (l : list string) : forall r,
  forallb valid_part l = true -> ~ In ".." l ->
  fold_left resolve_step l r = mk (root r) (tail r ++ l).
Proof.
  induction l as [| x l IH]; intros r Hall Hno.
  - cbn. rewrite app_nil_r. destruct r. reflexivity.
  - cbn [forallb] in Hall. apply andb_true_iff in Hall.
    destruct Hall as [Hx Hl]. cbn [fold_left].
    assert (Hstep : resolve_step r x = mk (root r) (tail r ++ [x])).
    { unfold resolve_step.
      destruct (String.eqb_spec x "..") as [-> | _];
        [exfalso; apply Hno; left; reflexivity |].
      unfold joinstr. rewrite (parse_valid_part x Hx). reflexivity. }
    rewrite Hstep, IH; [| exact Hl | intros Hin; apply Hno; right; exact Hin].
    cbn [root tail]. rewrite <- app_assoc. reflexivity.
Qed.



End ResolvedPathFacts.


(** ** Changing directory *)

(** [ftp_cdup]: [ftp_cwd(connection, connection.current_directory.parent)]
    behind its own login guard.  The source hands the parent over as a
    path object, of which [get_paths] makes a path again; here it is
    handed over as its text, which reads back as the same path
    ([parse_to_string]). *)
Definition ftp_cdup : handler :=
  ConnectionConditions [login_required] false "503" None (fun rest =>
    c <- get_connection ;;
    match current_directory c with
    | None => raise AttributeError
    | Some d => ftp_cwd (PurePosixPath.to_string (PurePosixPath.parent d))
    end).

Section CwdCdupFacts.
Import PurePosixPath.

Lemma ftp_cwd_accepted (rest : string) (env : Env) (w : World)
    (b : bool) (u : User.t) (real virt : t) :
  logged (connection w) = Some b ->
  user (connection w) = Some u ->
  get_paths (connection w) rest = inr (real, virt) ->
  path_exists env real = inr true ->
  path_is_dir env real = inr true ->
  Permission.readable (User.get_permissions u virt) = true ->
  ftp_cwd rest env w
  = (inr (PyBool true),
     update_connection
       (fun c => push_response ("250", Line "")
                   (set_current_directory (Some virt) c))
       (add_log [io_exists real; io_is_dir real] w)).
Proof.
  intros Hl Hu Hget He Hdir Hperm.
  destruct w as [s c log]. cbn [connection] in Hl, Hu, Hget.
  unfold add_log. cbn [server connection io_log].
  unfold ftp_cwd. msimpl. rewrite Hl. msimpl. rewrite Hget. msimpl.
  rewrite He. msimpl. rewrite Hdir. msimpl.
  rewrite ?Hget. msimpl. rewrite ?Hu. msimpl. rewrite Hperm. msimpl.
  rewrite ?Hget. msimpl. rewrite <- ?app_assoc. reflexivity.
Qed.

(** [CWD] changes the current directory only to a path that exists, is a
    directory and is readable, and then answers 250.  In every other
    case the answer is 550 (with the message of the first check that
    fails) and the current directory stays. *)
Theorem cwd_only_to_readable_directory (rest : string) (env : Env) (w : World)
    (b : bool) (u : User.t) (real virt : t) :
  logged (connection w) = Some b ->
  user (connection w) = Some u ->
  get_paths (connection w) rest = inr (real, virt) ->
  let refused msg calls :=
    (inr (PyBool true) : Exc + PyResult,
     update_connection (push_response ("550", Line msg)) (add_log calls w)) in
  (path_exists env real = inr false ->
     ftp_cwd rest env w = refused "path does not exists" [io_exists real])
  /\ (path_exists env real = inr true -> path_is_dir env real = inr false ->
      ftp_cwd rest env w
      = refused "path is not a directory" [io_exists real; io_is_dir real])
  /\ (path_exists env real = inr true -> path_is_dir env real = inr true ->
      Permission.readable (User.get_permissions u virt) = false ->
      ftp_cwd rest env w
      = refused "permission denied" [io_exists real; io_is_dir real])
  /\ (path_exists env real = inr true -> path_is_dir env real = inr true ->
      Permission.readable (User.get_permissions u virt) = true ->
      ftp_cwd rest env w
      = (inr (PyBool true),
         update_connection
           (fun c => push_response ("250", Line "")
                       (set_current_directory (Some virt) c))
           (add_log [io_exists real; io_is_dir real] w))).
Proof.
  intros Hl Hu Hget refused. subst refused.
  destruct w as [s c log]. cbn [connection] in Hl, Hu, Hget.
  unfold add_log. cbn [server connection io_log].
  repeat split; intros;
    unfold ftp_cwd; msimpl; rewrite Hl; msimpl; rewrite Hget; msimpl;
    repeat match goal with
           | H : path_exists env real = _ |- _ => rewrite H; clear H; msimpl
           | H : path_is_dir env real = _ |- _ => rewrite H; clear H; msimpl
           end;
    rewrite ?Hget; msimpl; rewrite ?Hu; msimpl;
    repeat match goal with
           | H : Permission.readable _ = _ |- _ => rewrite H; clear H; msimpl
           end;
    rewrite ?Hget; msimpl; rewrite <- ?app_assoc; reflexivity.
Qed.

Lemma parent_resolved_ok (d : t) : resolved_ok d -> resolved_ok (parent d).
Proof.
  intros (Hroot & Hvalid & Hno). unfold parent, resolved_ok. cbn.
  repeat split.
  - exact Hroot.
  - apply forallb_removelast. exact Hvalid.
  - intros Hin. apply Hno, In_removelast, Hin.
Qed.

Lemma get_paths_of_resolved (c : Connection) (u : User.t) (virt : t) :
  user c = Some u ->
  resolved_ok virt ->
  get_paths c (to_string virt)
  = inr (mk (root (User.base_path u)) (tail (User.base_path u) ++ tail virt),
         virt).
Proof.
  intros Hu (Hroot & Hvalid & Hno).
  assert (Hparse : parse (to_string virt) = virt)
    by (apply parse_to_string; assumption).
  assert (Habs : is_absolute virt = true)
    by (unfold is_absolute; rewrite Hroot; reflexivity).
  assert (Hfold : fold_left resolve_step (List.tl (parts virt)) root_path
                  = virt).
  { rewrite (tl_parts_absolute virt Habs),
      (resolve_fold_verbatim (tail virt) root_path Hvalid Hno).
    destruct virt as [r l]. cbn in Hroot |- *. subst r. reflexivity. }
  rewrite (get_paths_resolved c u (to_string virt) virt Hu).
  - rewrite Hfold. reflexivity.
  - rewrite Hparse, Habs. reflexivity.
  - rewrite Hfold. exact Hroot.
Qed.

(** [CDUP] from a resolved current directory [d] goes to the lexical
    parent of [d] when that directory exists and is readable, whatever
    the argument; the parent of the root is the root, so [CDUP] at ["/"]
    stays at ["/"]. *)
Theorem cdup_goes_to_parent (rest : string) (env : Env) (w : World)
    (b : bool) (u : User.t) (d : t) :
  logged (connection w) = Some b ->
  user (connection w) = Some u ->
  current_directory (connection w) = Some d ->
  resolved_ok d ->
  let up := parent d in
  let real := mk (root (User.base_path u))
                 (tail (User.base_path u) ++ tail up) in
  path_exists env real = inr true ->
  path_is_dir env real = inr true ->
  Permission.readable (User.get_permissions u up) = true ->
  ftp_cdup rest env w
  = (inr (PyBool true),
     update_connection
       (fun c => push_response ("250", Line "")
                   (set_current_directory (Some up) c))
       (add_log [io_exists real; io_is_dir real] w))
  /\ (d = root_path -> up = root_path).
Proof.
  intros Hl Hu Hd Hok up real He Hdir Hperm.
  split; [| intros ->; reflexivity].
  pose proof (get_paths_of_resolved (connection w) u up Hu
                (parent_resolved_ok d Hok)) as Hget.
  pose proof (ftp_cwd_accepted (to_string up) env w b u real up
                Hl Hu Hget He Hdir Hperm) as Hgo.
  unfold ftp_cdup, ConnectionConditions.
  unfold bind at 1. unfold get_connection at 1. cbv iota beta.
  cbn [find fst login_required field_is_None]. rewrite Hl.
  unfold bind at 1. unfold get_connection at 1. cbv iota beta.
  rewrite Hd. fold up. exact Hgo.
Qed.

End CwdCdupFacts.

Lemma cwd_only_to_readable_directory_witness :
  let w := mkWorld plain_server (jailed_connection "/") [] in
  logged (connection w) = Some true
  /\ current_directory (connection (snd (ftp_cwd "pub" files_env w)))
     = Some (PurePosixPath.parse "/pub")
  /\ current_directory (connection (snd (ftp_cwd "pub" barren_env w)))
     = Some (PurePosixPath.parse "/").
Proof.
  cbv zeta. split; [reflexivity |].
  pose (u := User.mk (Some "u") None (PurePosixPath.parse "/srv/ftp")
               (PurePosixPath.parse "/") [Permission.default] 10
               None None None None).
  split.
  - destruct (cwd_only_to_readable_directory "pub" files_env
                (mkWorld plain_server (jailed_connection "/") []) true u
                (PurePosixPath.parse "/srv/ftp/pub") (PurePosixPath.parse "/pub")
                eq_refl eq_refl eq_refl) as (_ & _ & _ & Hgo).
    exact (f_equal (fun r => current_directory (connection (snd r)))
                   (Hgo eq_refl eq_refl eq_refl)).
  - destruct (cwd_only_to_readable_directory "pub" barren_env
                (mkWorld plain_server (jailed_connection "/") []) true u
                (PurePosixPath.parse "/srv/ftp/pub") (PurePosixPath.parse "/pub")
                eq_refl eq_refl eq_refl) as (Hno & _).
    exact (f_equal (fun r => current_directory (connection (snd r)))
                   (Hno eq_refl)).
Defined.

Lemma cdup_witness :
  let w := mkWorld plain_server (jailed_connection "/pub/incoming") [] in
  current_directory (connection w)
  = Some (PurePosixPath.parse "/pub/incoming")
  /\ current_directory (connection (snd (ftp_cdup "" files_env w)))
     = Some (PurePosixPath.parse "/pub").
Proof.
  cbv zeta. split; [reflexivity |].
  destruct (cdup_goes_to_parent "" files_env
              (mkWorld plain_server (jailed_connection "/pub/incoming") [])
              true
              (User.mk (Some "u") None (PurePosixPath.parse "/srv/ftp")
                 (PurePosixPath.parse "/") [Permission.default] 10
                 None None None None)
              (PurePosixPath.parse "/pub/incoming")
              eq_refl eq_refl eq_refl
              ltac:(repeat split; intros [H | [H | []]]; discriminate)
              eq_refl eq_refl eq_refl) as [Hrun _].
  exact (f_equal (fun r => current_directory (connection (snd r))) Hrun).
Defined.

(** ** The port queue serves the least pair *)

From Stdlib Require Import Sorted.

Definition item_le (a b : PriorityQueue.item) : Prop :=
  PriorityQueue.item_leb a b = true.

(** On a server with a port pool: the pool stays a queue in ascending
    order. *)
Definition stays_sorted (w w' : World) : Prop :=
  forall q,
    available_data_ports (server w) = Some q ->
    StronglySorted item_le q ->
    exists q',
      available_data_ports (server w') = Some q'
      /\ StronglySorted item_le q'.

Section SortedQueueFacts.
Import PriorityQueue.

Lemma item_leb_total (a b : item) : item_leb a b = false -> item_le b a.
Proof.
  unfold item_le, item_leb. destruct a as [pa a], b as [pb b]. cbn.
  destruct (Z.ltb_spec pa pb), (Z.eqb_spec pa pb), (Z.leb_spec a b);
    cbn; try discriminate; intros _;
    destruct (Z.ltb_spec pb pa), (Z.eqb_spec pb pa), (Z.leb_spec b a);
    cbn; try reflexivity; lia.
Qed.

Lemma item_le_trans (a b c : item) : item_le a b -> item_le b c -> item_le a c.
Proof.
  unfold item_le, item_leb. destruct a as [pa a], b as [pb b], c as [pc c].
  cbn.
  destruct (Z.ltb_spec pa pb), (Z.eqb_spec pa pb), (Z.leb_spec a b);
    cbn; try discriminate; intros _;
    destruct (Z.ltb_spec pb pc), (Z.eqb_spec pb pc), (Z.leb_spec b c);
    cbn; try discriminate; intros _;
    destruct (Z.ltb_spec pa pc), (Z.eqb_spec pa pc), (Z.leb_spec a c);
    cbn; try reflexivity; lia.
Qed.

Lemma put_nowait_sorted (q : PriorityQueue.t) (x : item) :
  StronglySorted item_le q -> StronglySorted item_le (put_nowait q x).
Proof.
  induction 1 as [| y q Hq IH Hy]; cbn [put_nowait].
  - repeat constructor.
  - destruct (item_leb x y) eqn:Hxy.
    + constructor; [constructor; assumption |].
      constructor; [exact Hxy |].
      rewrite Forall_forall in Hy |- *. intros z Hz.
      apply (item_le_trans x y z Hxy). apply Hy. exact Hz.
    + constructor; [exact IH |].
      apply (Permutation_Forall (Permutation_sym (put_nowait_perm q x))).
      constructor; [apply item_leb_total; exact Hxy | exact Hy].
Qed.

Lemma of_ports_sorted (data_ports : list Z) :
  StronglySorted item_le (of_ports data_ports).
Proof.
  unfold of_ports.
  assert (Hgen : forall q, StronglySorted item_le q ->
                           StronglySorted item_le
                             (fold_left (fun q p => put_nowait q (0, p))
                                        data_ports q)).
  { induction data_ports as [| p l IH]; intros q Hq; [exact Hq |].
    cbn [fold_left]. apply IH, put_nowait_sorted, Hq. }
  apply Hgen. constructor.
Qed.

Variable E : ErrorsModule.

Lemma passive_loop_sorted (start : Z -> Exc + PassiveServer) (fuel : nat) :
  forall q viewed,
    StronglySorted item_le q ->
    StronglySorted item_le (fst (passive_loop E start fuel q viewed)).
Proof.
  induction fuel as [| fuel IH]; intros q viewed Hq; [exact Hq |].
  cbn [passive_loop]. destruct q as [| [priority port] q1]; [exact Hq |].
  cbn [get_nowait]. inversion Hq as [| ? ? Hq1 _]; subst.
  pose proof (put_nowait_sorted q1 (priority + 1, port) Hq1) as Hput.
  cbv zeta.
  destruct (if existsb (Z.eqb port) viewed then inl NoAvailablePort
            else start port) as [err | srv]; [| exact Hq1].
  destruct err; cbn [is_OSError errno_of]; try exact Hq1;
    try (destruct (NoAvailablePort_is_OSError E); [exact Hput | exact Hq1]).
  destruct (errno =? EADDRINUSE); [| exact Hput].
  apply IH. exact Hput.
Qed.

Lemma stays_sorted_refl (w : World) : stays_sorted w w.
Proof. intros q Hq Hs. exists q. split; assumption. Qed.

Lemma stays_sorted_trans (w1 w2 w3 : World) :
  stays_sorted w1 w2 -> stays_sorted w2 w3 -> stays_sorted w1 w3.
Proof.
  intros H12 H23 q Hq Hs. destruct (H12 q Hq Hs) as (q2 & Hq2 & Hs2).
  exact (H23 q2 Hq2 Hs2).
Qed.

Lemma stays_sorted_same (w w' : World) :
  server w' = server w -> stays_sorted w w'.
Proof. intros Heq q Hq Hs. exists q. rewrite Heq. split; assumption. Qed.

Lemma stays_sorted_log (w : World) (c : PathIOCall) :
  stays_sorted w (mkWorld (server w) (connection w) (io_log w ++ [c])).
Proof. apply stays_sorted_same. reflexivity. Qed.

Lemma stays_sorted_response (w : World) (r : Response) :
  stays_sorted w (update_connection (push_response r) w).
Proof. apply stays_sorted_same. reflexivity. Qed.

Opaque passive_loop.

Lemma start_passive_server_sorted :
  keeps any_env stays_sorted (_start_passive_server E).
Proof.
  intros env [s c log] _. unfold _start_passive_server. msimpl.
  destruct (available_data_ports s) as [q |] eqn:Hq.
  - pose proof (passive_loop_sorted (start_server env (server_host c))
                  (S (List.length q)) q []) as Hsorted.
    destruct (passive_loop E (start_server env (server_host c))
                (S (List.length q)) q []) as [q' out].
    cbn [fst] in Hsorted.
    destruct out; msimpl; intros q0 Hq0 Hs0; cbn in Hq0 |- *;
      rewrite Hq in Hq0; injection Hq0 as <-; exists q';
      (split; [reflexivity | exact (Hsorted Hs0)]).
  - destruct (start_server env (server_host c) (passive_server_port c));
      msimpl; apply stays_sorted_same; reflexivity.
Qed.

Transparent passive_loop.

Ltac sorted_frame :=
  repeat first
    [ apply start_passive_server_sorted
    | kstep any_env stays_sorted stays_sorted_refl stays_sorted_trans
            stays_sorted_log stays_sorted_response
    | apply (keeps_modify any_env stays_sorted); intros [? ? ?];
      apply stays_sorted_same; reflexivity ].

Lemma run_command_sorted (f : Command) (rest : string) :
  modelled_command f = true ->
  keeps any_env stays_sorted (run_command E f rest).
Proof.
  intros Hm. destruct f; try discriminate; cbn [run_command];
    unfold ftp_quit, ftp_pwd, ftp_cwd, ftp_size, ftp_size_body, ftp_noop,
      ftp_type, ftp_pbsz, ftp_prot, ftp_syst, ftp_rest, ftp_retr, ftp_appe,
      ftp_stor, ftp_pasv, ftp_epsv, ensure_passive_server, add_worker,
      drop_stale_data_connection;
    sorted_frame.
Qed.

Lemma run_worker_sorted (wk : Worker) :
  keeps any_env stays_sorted (run_worker wk).
Proof. unfold run_worker, open_file, seek_and_copy. sorted_frame. Qed.

Lemma after_task_sorted (w : World) (r : (Exc + PyResult) * World) :
  stays_sorted w (snd r) -> stays_sorted w (fst (after_task r)).
Proof.
  intros Hr. destruct r as [[e | res] w']; cbn in Hr |- *.
  - destruct e; exact Hr.
  - destruct res as [[|] |]; exact Hr.
Qed.

Lemma dispatcher_step_sorted (i : Input) (env : Env) (w : World) :
  modelled_input i = true ->
  stays_sorted w (fst (dispatcher_step E i env w)).
Proof.
  intros Hm. destruct i as [cmd rest | stream | |]; cbn [dispatcher_step].
  - unfold dispatch. cbn [modelled_input] in Hm.
    destruct (commands_mapping cmd) as [f |].
    + apply after_task_sorted.
      set (w1 := if is_transfer_command cmd then w
                 else update_connection (set_restart_offset 0) w).
      apply (stays_sorted_trans w w1).
      * unfold w1. destruct (is_transfer_command cmd);
          [apply stays_sorted_refl |].
        destruct w. apply stays_sorted_same; reflexivity.
      * apply (run_command_sorted f rest Hm env w1 I).
    + apply stays_sorted_response.
  - destruct w. apply stays_sorted_same; reflexivity.
  - destruct (extra_workers (connection w)) as [| wk others];
      [apply stays_sorted_refl |].
    apply after_task_sorted.
    apply (stays_sorted_trans _ (update_connection (set_extra_workers others) w)).
    + destruct w. apply stays_sorted_same; reflexivity.
    + apply (run_worker_sorted wk env _ I).
  - apply stays_sorted_refl.
Qed.

Lemma dispatcher_finally_sorted (w : World) :
  stays_sorted w (dispatcher_finally w).
Proof.
  intros q Hq Hs. unfold dispatcher_finally. cbn. rewrite Hq.
  destruct (passive_server (connection w)).
  - eexists. split; [reflexivity | apply put_nowait_sorted, Hs].
  - exists q. split; assumption.
Qed.

Lemma system_step_sorted (sys : System) (ev : nat * Input * Env) :
  modelled_input (snd (fst ev)) = true ->
  (exists q, available_data_ports (sys_server sys) = Some q
             /\ StronglySorted item_le q) ->
  exists q, available_data_ports (sys_server (system_step E sys ev)) = Some q
            /\ StronglySorted item_le q.
Proof.
  intros Hm (q & Hq & Hs). destruct ev as [[n i] env]. cbn [fst snd] in Hm.
  unfold system_step.
  destruct (nth_error (sessions sys) n) as [c |];
    [| exists q; split; assumption].
  pose proof (dispatcher_step_sorted i env (mkWorld (sys_server sys) c []) Hm
                q Hq Hs) as (q1 & Hq1 & Hs1).
  destruct (dispatcher_step E i env (mkWorld (sys_server sys) c []))
    as [w ending]. cbn [fst] in Hq1.
  destruct ending.
  - exact (dispatcher_finally_sorted w q1 Hq1 Hs1).
  - exists q1. split; assumption.
Qed.

(** The pool is a priority queue in the code's sense.  Built from
    [data_ports] by [Server.__init__] and then used by any sequence of
    inputs handled by modelled code, in any environment, it is in
    ascending order of [(priority, port)]; so the candidate
    [_start_passive_server] tries first is a least pair of the pool, and
    when that port binds it is the one the listener gets. *)
Theorem pool_serves_least_pair (data_ports : list Z) (forced : option string)
    (sessions0 : list Connection) (evs : list (nat * Input * Env)) :
  Forall (fun ev => modelled_input (snd (fst ev)) = true) evs ->
  let sys :=
    system_run E evs
      (mkSystem (mkServer (Some (of_ports data_ports)) forced) sessions0) in
  exists q,
    available_data_ports (sys_server sys) = Some q
    /\ StronglySorted item_le q
    /\ forall x q1 start fuel srv,
         q = x :: q1 ->
         start (snd x) = inr srv ->
         passive_loop E start (S fuel) q [] = (q1, Bound srv (snd x))
         /\ Forall (item_le x) q1.
Proof.
  intros Hev sys.
  assert (Hinv : exists q, available_data_ports (sys_server sys) = Some q
                           /\ StronglySorted item_le q).
  { unfold sys, system_run.
    assert (Hgen : forall sys0,
               (exists q, available_data_ports (sys_server sys0) = Some q
                          /\ StronglySorted item_le q) ->
               exists q,
                 available_data_ports
                   (sys_server (fold_left (system_step E) evs sys0)) = Some q
                 /\ StronglySorted item_le q).
    { induction Hev as [| ev evs Hm _ IH]; intros sys0 H0; [exact H0 |].
      cbn [fold_left]. apply IH. apply system_step_sorted; assumption. }
    apply Hgen. eexists. split; [reflexivity | apply of_ports_sorted]. }
  destruct Hinv as (q & Hq & Hs). exists q.
  split; [exact Hq | split; [exact Hs |]].
  intros [priority port] q1 start fuel srv -> Hstart. cbn [snd] in Hstart.
  split.
  - cbn [passive_loop get_nowait existsb]. rewrite Hstart. reflexivity.
  - inversion Hs; assumption.
Qed.

End SortedQueueFacts.

Lemma pool_serves_least_pair_witness :
  let evs := [ (0%nat, in_command "pasv" "", barren_env);
               (1%nat, in_command "pasv" "", free_ports_env) ] in
  let sys0 := mkSystem (mkServer (Some (PriorityQueue.of_ports [2122; 2121]))
                          None)
                [jailed_connection "/"; jailed_connection "/"] in
  Forall (fun ev => modelled_input (snd (fst ev)) = true) evs
  /\ available_data_ports (sys_server sys0) = Some [(0, 2121); (0, 2122)]
  /\ exists q,
       available_data_ports (sys_server (system_run oserror_errors evs sys0))
       = Some q
       /\ StronglySorted item_le q.
Proof.
  cbv zeta.
  assert (Hev : Forall (fun ev => modelled_input (snd (fst ev)) = true)
                  [ (0%nat, in_command "pasv" "", barren_env);
                    (1%nat, in_command "pasv" "", free_ports_env) ])
    by (repeat constructor).
  split; [exact Hev | split; [reflexivity |]].
  destruct (pool_serves_least_pair oserror_errors [2122; 2121] None
              [jailed_connection "/"; jailed_connection "/"] _ Hev)
    as (q & Hq & Hs & _).
  exists q. split; assumption.
Defined.

(* ================================================================== *)
(** * Part IV. Login, greeting and the command channel                 *)
(* ================================================================== *)

(** ** [server.MemoryUserManager] *)

Module MemoryUserManager.

(** The manager keeps [users] and a dictionary from each user object to
    its connection counter.  The users are distinct objects, so the
    dictionary is kept as the counter standing next to each user, in the
    order of [users]; a user is named by its position. *)
Record t : Type := mk {
  entries : list (User.t * AvailableConnections.t)
}.

Definition users (self : t) : list User.t := map fst (entries self).

(** [User()] *)
Definition default_user : User.t :=
  User.mk None None (PurePosixPath.parse ".") (PurePosixPath.parse "/")
    [Permission.default] 10 None None None None.

(** [MemoryUserManager(users)]: [users or [User()]], each with a counter
    at its [maximum_connections]. *)
Definition init (users : list User.t) : t :=
  mk (map (fun u => (u, AvailableConnections.init
                          (Some (User.maximum_connections u))))
          (match users with
           | [] => [default_user]
           | _ => users
           end)).

Inductive GetUserResponse : Type := OK | PASSWORD_REQUIRED | ERROR.

(** The [for] loop of [get_user] from position [i] on, with [user] the
    choice so far: an anonymous user is taken when nothing is chosen
    yet, a user whose login equals [login] is taken and ends the loop. *)
Fixpoint select_from (us : list User.t) (i : nat) (login : string)
    (user : option nat) : option nat :=
  match us with
  | [] => user
  | u :: us' =>
      match User.login u, user with
      | None, None => select_from us' (S i) login (Some i)
      | _, _ =>
          if Py.eq_str (User.login u) login then Some i
          else select_from us' (S i) login user
      end
  end.

(** What can go wrong in the manager: a user that is not in the
    dictionary, or an exception of a counter. *)
Inductive Failure : Type := KeyError | Raised (e : Exc).

(** [user.login or 'anonymous'] *)
Definition shown_login (u : User.t) : string :=
  match User.login u with
  | Some l => if Py.truthy l then l else "anonymous"
  | None => "anonymous"
  end.

(** [get_user(login)]: the new manager and either a failure or
    [(state, user, info)]. *)
Definition get_user (self : t) (login : string)
  : t * (Failure + GetUserResponse * option nat * string) :=
  match select_from (users self) 0 login None with
  | None => (self, inr (ERROR, None, "no such username"))
  | Some i =>
      match nth_error (entries self) i with
      | None => (self, inl KeyError)
      | Some (u, counter) =>
          if AvailableConnections.locked counter then
            (self, inr (ERROR, Some i,
                        "too much connections for "
                        ++ Py.repr (shown_login u)))
          else
            let '(state, info) :=
              match User.login u, User.password u with
              | None, _ => (OK, "anonymous login")
              | Some _, None => (OK, "login without password")
              | Some _, Some _ => (PASSWORD_REQUIRED, "password required")
              end in
            let '(counter', raised) := AvailableConnections.acquire counter in
            let self' := mk (replace_nth i (u, counter') (entries self)) in
            match raised with
            | Some e => (self', inl (Raised e))
            | None => (self', inr (state, Some i, info))
            end
      end
  end.

(** [authenticate(user, password)] *)
Definition authenticate (u : User.t) (password : string) : bool :=
  Py.eq_str (User.password u) password.

(** [notify_logout(user)] for the user at position [i]. *)
Definition notify_logout (self : t) (i : nat) : t * option Failure :=
  match nth_error (entries self) i with
  | None => (self, Some KeyError)
  | Some (u, counter) =>
      let '(counter', raised) := AvailableConnections.release counter in
      (mk (replace_nth i (u, counter') (entries self)),
       option_map Raised raised)
  end.

End MemoryUserManager.

(** ** [ftp_user], [ftp_pass] and [greeting] *)

Definition set_user (v : option User.t) (c : Connection) : Connection :=
  mkConnection (server_host c) (passive_server_port c) v (logged c)
    (current_directory c) (passive_server c) (data_connection c)
    (transfer_type c) (rename_from c) (restart_offset c) (block_size c)
    (acquired c) (extra_workers c) (response_queue c).

Definition set_logged (v : option bool) (c : Connection) : Connection :=
  mkConnection (server_host c) (passive_server_port c) (user c) v
    (current_directory c) (passive_server c) (data_connection c)
    (transfer_type c) (rename_from c) (restart_offset c) (block_size c)
    (acquired c) (extra_workers c) (response_queue c).

Definition set_acquired (v : bool) (c : Connection) : Connection :=
  mkConnection (server_host c) (passive_server_port c) (user c) (logged c)
    (current_directory c) (passive_server c) (data_connection c)
    (transfer_type c) (rename_from c) (restart_offset c) (block_size c)
    v (extra_workers c) (response_queue c).

(** A session as the login handlers see it: the user manager, the
    connection, and which user of the manager [connection.user] is. *)
Record Login : Type := mkLogin {
  manager : MemoryUserManager.t;
  who : option nat;
  conn : Connection
}.

(** [ftp_user].  The throttles installed for the user are left out. *)
Definition ftp_user (rest : string) (s : Login)
  : Login * (MemoryUserManager.Failure + PyResult) :=
  let logout :=
    match user (conn s), who s with
    | None, _ => (manager s, None)
    | Some _, Some i => MemoryUserManager.notify_logout (manager s) i
    | Some _, None => (manager s, Some MemoryUserManager.KeyError)
    end in
  match logout with
  | (m1, Some failure) => (mkLogin m1 (who s) (conn s), inl failure)
  | (m1, None) =>
      let c1 := set_logged None (set_user None (conn s)) in
      match MemoryUserManager.get_user m1 rest with
      | (m2, inl failure) => (mkLogin m2 None c1, inl failure)
      | (m2, inr (state, found, info)) =>
          let chosen :=
            match found with
            | Some i => nth_error (MemoryUserManager.users m2) i
            | None => None
            end in
          let '(code, c2, who2) :=
            match state with
            | MemoryUserManager.OK =>
                ("230", set_user chosen (set_logged (Some true) c1), found)
            | MemoryUserManager.PASSWORD_REQUIRED =>
                ("331", set_user chosen c1, found)
            | MemoryUserManager.ERROR => ("530", c1, None)
            end in
          let c3 :=
            match user c2 with
            | Some u => set_current_directory (Some (User.home_path u)) c2
            | None => c2
            end in
          (mkLogin m2 who2 (push_response (code, Line info) c3),
           inr (PyBool true))
      end
  end.

(** [ftp_pass], under [ConnectionConditions(user_required)]. *)
Definition ftp_pass (rest : string) (s : Login) : Login * PyResult :=
  match user (conn s) with
  | None =>
      (mkLogin (manager s) (who s)
         (push_response ("503", Line "no user (use USER firstly)") (conn s)),
       PyNone)
  | Some u =>
      let '(code, info, c1) :=
        match logged (conn s) with
        | Some true => ("503", "already logged in", conn s)
        | _ =>
            if MemoryUserManager.authenticate u rest
            then ("230", "normal login", set_logged (Some true) (conn s))
            else ("530", "wrong password", conn s)
        end in
      (mkLogin (manager s) (who s) (push_response (code, Line info) c1),
       PyBool true)
  end.

(** [greeting], on the server's connection counter. *)
Definition greeting (available : AvailableConnections.t) (c : Connection)
  : AvailableConnections.t * Connection * (Exc + PyResult) :=
  if AvailableConnections.locked available then
    (available, push_response ("421", Line "Too many connections") c,
     inr (PyBool false))
  else
    let c1 := set_acquired true c in
    match AvailableConnections.acquire available with
    | (available', Some e) => (available', c1, inl e)
    | (available', None) =>
        (available', push_response ("220", Line "welcome") c1,
         inr (PyBool true))
    end.

(** The counter part of the dispatcher's [finally] block:
    [if connection.acquired: self.available_connections.release()]. *)
Definition finally_release (available : AvailableConnections.t)
    (c : Connection) : AvailableConnections.t * option Exc :=
  if acquired c then AvailableConnections.release available
  else (available, None).

(** ** Which user [get_user] selects *)

(** The position of the first element that satisfies [f]. *)
Fixpoint find_index {A : Type} (f : A -> bool) (l : list A) : option nat :=
  match l with
  | [] => None
  | x :: l' => if f x then Some O else option_map S (find_index f l')
  end.

Definition has_login (login : string) (u : User.t) : bool :=
  Py.eq_str (User.login u) login.

Definition is_anonymous (u : User.t) : bool :=
  match User.login u with
  | None => true
  | Some _ => false
  end.

Section SelectionFacts.
Import MemoryUserManager.

Lemma find_index_spec {A : Type} (f : A -> bool) (l : list A) :
  match find_index f l with
  | Some i =>
      (exists x, nth_error l i = Some x /\ f x = true)
      /\ forall j y, (j < i)%nat -> nth_error l j = Some y -> f y = false
  | None => forall y, In y l -> f y = false
  end.
Proof.
  induction l as [| x l IH]; cbn [find_index].
  - intros y [].
  - destruct (f x) eqn:Hx.
    + split; [exists x; split; [reflexivity | exact Hx] |].
      intros j y Hj. lia.
    + destruct (find_index f l) as [i |]; cbn [option_map].
      * destruct IH as [(y & Hy & Hfy) Hbefore]. split.
        -- exists y. split; assumption.
        -- intros j z Hj Hz. destruct j as [| j]; cbn in Hz.
           ++ injection Hz as <-. exact Hx.
           ++ apply (Hbefore j z); [lia | exact Hz].
      * intros y [<- | Hy]; [exact Hx | apply IH; exact Hy].
Qed.

Lemma select_from_spec (us : list User.t) (login : string) :
  forall i0 user,
    select_from us i0 login user
    = match find_index (has_login login) us with
      | Some k => Some (i0 + k)%nat
      | None =>
          match user with
          | Some x => Some x
          | None =>
              option_map (fun k => (i0 + k)%nat) (find_index is_anonymous us)
          end
      end.
Proof.
  induction us as [| u us IH]; intros i0 user; cbn [select_from find_index].
  - destruct user; reflexivity.
  - unfold has_login at 1, is_anonymous at 1.
    destruct (User.login u) as [l |] eqn:Hl.
    + cbn [Py.eq_str]. destruct (String.eqb l login).
      * f_equal. lia.
      * rewrite IH. destruct (find_index (has_login login) us) as [k |];
          cbn [option_map]; [f_equal; lia |].
        destruct user; [reflexivity |].
        destruct (find_index is_anonymous us); cbn [option_map];
          [f_equal; lia | reflexivity].
    + cbn [Py.eq_str]. destruct user as [x |].
      * rewrite IH. destruct (find_index (has_login login) us) as [k |];
          cbn [option_map]; [f_equal; lia | reflexivity].
      * rewrite IH. destruct (find_index (has_login login) us) as [k |];
          cbn [option_map]; f_equal; lia.
Qed.

(** The loop of [get_user] selects the first user whose login is the
    given one; when there is none, the first anonymous user (login
    [None]); when there is none either, nobody.  An anonymous user that
    stands before the matching user does not hide it. *)
Theorem get_user_selects_first_match (us : list User.t) (login : string) :
  select_from us 0 login None
  = match find_index (has_login login) us with
    | Some k => Some k
    | None => find_index is_anonymous us
    end
  /\ (forall k, find_index (has_login login) us = Some k ->
        exists u, nth_error us k = Some u /\ User.login u = Some login
                  /\ forall j u', (j < k)%nat -> nth_error us j = Some u' ->
                                  User.login u' <> Some login)
  /\ (find_index (has_login login) us = None ->
      forall u, In u us -> User.login u <> Some login).
Proof.
  split; [| split].
  - rewrite select_from_spec.
    destruct (find_index (has_login login) us); [reflexivity |].
    destruct (find_index is_anonymous us); reflexivity.
  - intros k Hk. pose proof (find_index_spec (has_login login) us) as Hspec.
    rewrite Hk in Hspec. destruct Hspec as [(u & Hu & Hlog) Hbefore].
    exists u. split; [exact Hu |]. split.
    + unfold has_login, Py.eq_str in Hlog.
      destruct (User.login u) as [l |]; [| discriminate].
      apply String.eqb_eq in Hlog. subst. reflexivity.
    + intros j u' Hj Hu' Heq. specialize (Hbefore j u' Hj Hu').
      unfold has_login in Hbefore. rewrite Heq in Hbefore. cbn in Hbefore.
      rewrite String.eqb_refl in Hbefore. discriminate.
  - intros Hnone u Hin Heq.
    pose proof (find_index_spec (has_login login) us) as Hspec.
    rewrite Hnone in Hspec. specialize (Hspec u Hin).
    unfold has_login in Hspec. rewrite Heq in Hspec. cbn in Hspec.
    rewrite String.eqb_refl in Hspec. discriminate.
Qed.

End SelectionFacts.

(** An anonymous user first, then two users named ["bob"]. *)
Definition three_users : list User.t :=
  [ MemoryUserManager.default_user;
    User.mk (Some "bob") (Some "secret") (PurePosixPath.parse "/srv/bob")
      (PurePosixPath.parse "/") [Permission.default] 1 None None None None;
    User.mk (Some "bob") None (PurePosixPath.parse "/srv/bob2")
      (PurePosixPath.parse "/") [Permission.default] 10 None None None None ].

Lemma get_user_selects_witness :
  find_index (has_login "bob") three_users = Some 1%nat
  /\ MemoryUserManager.select_from three_users 0 "bob" None = Some 1%nat
  /\ MemoryUserManager.select_from three_users 0 "eve" None = Some 0%nat.
Proof.
  split; [reflexivity |].
  destruct (get_user_selects_first_match three_users "bob") as [Hbob _].
  destruct (get_user_selects_first_match three_users "eve") as [Heve _].
  split; [rewrite Hbob | rewrite Heve]; reflexivity.
Defined.

(** ** Slots and logins *)

Section ReplaceFacts.
Context {A : Type}.

Lemma replace_nth_app (l1 l2 : list A) (x z : A) :
  replace_nth (List.length l1) x (l1 ++ z :: l2) = (l1 ++ x :: l2)%list.
Proof.
  unfold replace_nth.
  rewrite firstn_app, Nat.sub_diag, firstn_all, skipn_app, skipn_all2 by lia.
  replace (S (List.length l1) - List.length l1)%nat with 1%nat by lia.
  cbn. rewrite app_nil_r. reflexivity.
Qed.

Lemma replace_nth_split (l : list A) (i : nat) (y : A) :
  nth_error l i = Some y ->
  exists l1 l2, l = (l1 ++ y :: l2)%list /\ List.length l1 = i.
Proof.
  intros Hn. destruct (nth_error_split l i Hn) as (l1 & l2 & Hl & Hlen).
  exists l1, l2. split; assumption.
Qed.

Lemma nth_error_replace_nth (l : list A) (i : nat) (x y : A) :
  nth_error l i = Some y -> nth_error (replace_nth i x l) i = Some x.
Proof.
  intros Hn. destruct (replace_nth_split l i y Hn) as (l1 & l2 & -> & <-).
  rewrite replace_nth_app, nth_error_app2, Nat.sub_diag by lia. reflexivity.
Qed.

Lemma replace_nth_back (l : list A) (i : nat) (x y : A) :
  nth_error l i = Some y -> replace_nth i y (replace_nth i x l) = l.
Proof.
  intros Hn. destruct (replace_nth_split l i y Hn) as (l1 & l2 & -> & <-).
  rewrite !replace_nth_app. reflexivity.
Qed.

Lemma nth_error_replace_other (l : list A) (i j : nat) (x y : A) :
  nth_error l i = Some y -> j <> i ->
  nth_error (replace_nth i x l) j = nth_error l j.
Proof.
  intros Hn Hj. destruct (replace_nth_split l i y Hn) as (l1 & l2 & -> & <-).
  rewrite replace_nth_app.
  destruct (Nat.lt_ge_cases j (List.length l1)) as [Hlt | Hge].
  - rewrite !nth_error_app1 by exact Hlt. reflexivity.
  - rewrite !nth_error_app2 by exact Hge.
    destruct (j - List.length l1)%nat as [| k] eqn:Hk; [lia | reflexivity].
Qed.

End ReplaceFacts.

Lemma users_after_replace (entries : list (User.t * AvailableConnections.t))
    (i : nat) (u : User.t) (counter counter' : AvailableConnections.t) :
  nth_error entries i = Some (u, counter) ->
  map fst (replace_nth i (u, counter') entries) = map fst entries.
Proof.
  intros Hn. destruct (replace_nth_split entries i _ Hn) as (l1 & l2 & -> & <-).
  rewrite replace_nth_app, !map_app. reflexivity.
Qed.

Section LoginFacts.
Import MemoryUserManager.

(** A counter holding [v] of at most [mx]. *)
Definition counter (v mx : Z) : AvailableConnections.t :=
  AvailableConnections.mk (Some v) (Some mx).

(** The state and the text [get_user] answers for a user with a free
    slot. *)
Definition answer_for (u : User.t) : GetUserResponse * string :=
  match User.login u, User.password u with
  | None, _ => (OK, "anonymous login")
  | Some _, None => (OK, "login without password")
  | Some _, Some _ => (PASSWORD_REQUIRED, "password required")
  end.

Lemma get_user_free_slot (m : MemoryUserManager.t) (login : string) (i : nat)
    (u : User.t) (v mx : Z) :
  select_from (users m) 0 login None = Some i ->
  nth_error (entries m) i = Some (u, counter v mx) ->
  0 < v ->
  get_user m login
  = (mk (replace_nth i (u, counter (v - 1) mx) (entries m)),
     inr (fst (answer_for u), Some i, snd (answer_for u))).
Proof.
  intros Hsel Hn Hv. unfold get_user. rewrite Hsel, Hn.
  unfold counter, AvailableConnections.locked, AvailableConnections.acquire.
  cbn [AvailableConnections.value AvailableConnections.maximum_value].
  destruct (Z.eqb_spec v 0); [lia |].
  destruct (Z.ltb_spec (v - 1) 0); [lia |].
  unfold answer_for.
  destruct (User.login u); [destruct (User.password u) |]; reflexivity.
Qed.

Lemma chosen_after_take (m : MemoryUserManager.t) (i : nat) (u : User.t)
    (c c' : AvailableConnections.t) :
  nth_error (entries m) i = Some (u, c) ->
  nth_error (users (mk (replace_nth i (u, c') (entries m)))) i = Some u.
Proof.
  intros Hn. unfold users. cbn [entries].
  rewrite (users_after_replace _ _ _ _ _ Hn), nth_error_map, Hn. reflexivity.
Qed.

Lemma notify_logout_after_take (m : MemoryUserManager.t) (i : nat)
    (u : User.t) (v mx : Z) :
  nth_error (entries m) i = Some (u, counter v mx) ->
  v <= mx ->
  notify_logout (mk (replace_nth i (u, counter (v - 1) mx) (entries m))) i
  = (m, None).
Proof.
  intros Hn Hle. unfold notify_logout. cbn [entries].
  rewrite (nth_error_replace_nth _ _ (u, counter (v - 1) mx) _ Hn).
  unfold counter, AvailableConnections.release.
  cbn [AvailableConnections.value AvailableConnections.maximum_value].
  destruct (Z.ltb_spec mx (v - 1 + 1)); [lia |].
  replace (v - 1 + 1) with v by lia.
  change (AvailableConnections.mk (Some v) (Some mx)) with (counter v mx).
  rewrite (replace_nth_back _ _ _ _ Hn). destruct m. reflexivity.
Qed.

(** [get_user] and the user's connection slots.  When nobody is
    selected the answer is [ERROR], ["no such username"].  When the
    selected user (with a login of one-byte characters) has no slot
    left the answer is [ERROR] with ["too much connections for "] and
    the [repr] of the login, and in both cases the manager is
    unchanged.  Otherwise exactly one slot of the selected
    user is taken, already at [USER] time: before any password is seen.
    The state is [PASSWORD_REQUIRED] exactly for a named user with a
    password, and [notify_logout] gives the slot back, restoring the
    manager. *)
Theorem get_user_takes_one_slot (m : MemoryUserManager.t) (login : string) :
  (select_from (users m) 0 login None = None ->
     get_user m login = (m, inr (ERROR, None, "no such username")))
  /\ (forall i u v mx,
        select_from (users m) 0 login None = Some i ->
        nth_error (entries m) i = Some (u, counter v mx) ->
        (v = 0 ->
         ascii_only (shown_login u) = true ->
           get_user m login
           = (m, inr (ERROR, Some i,
                      "too much connections for " ++ Py.repr (shown_login u))))
        /\ (0 < v ->
            let m' := mk (replace_nth i (u, counter (v - 1) mx) (entries m)) in
            exists state info,
              get_user m login = (m', inr (state, Some i, info))
              /\ state <> ERROR
              /\ (state = PASSWORD_REQUIRED <->
                  User.login u <> None /\ User.password u <> None)
              /\ users m' = users m
              /\ (v <= mx -> notify_logout m' i = (m, None)))).
Proof.
  split.
  - intros Hsel. unfold get_user. rewrite Hsel. reflexivity.
  - intros i u v mx Hsel Hn. split.
    + intros -> _. unfold get_user. rewrite Hsel, Hn. reflexivity.
    + intros Hv m'.
      assert (Hrun : get_user m login
                     = (m', inr (fst (answer_for u), Some i,
                                 snd (answer_for u))))
        by (apply get_user_free_slot; assumption).
      assert (Hback : v <= mx -> notify_logout m' i = (m, None))
        by (intros Hle; apply notify_logout_after_take; assumption).
      assert (Husers : users m' = users m).
      { unfold users, m'. cbn [entries]. apply (users_after_replace _ _ _ _ _ Hn). }
      exists (fst (answer_for u)), (snd (answer_for u)).
      split; [exact Hrun |]. unfold answer_for.
      destruct (User.login u) as [l |];
        [destruct (User.password u) as [p |] |]; cbn [fst snd].
      * split; [discriminate |]. split; [| split; assumption].
        split; [intros _; split; discriminate | reflexivity].
      * split; [discriminate |]. split; [| split; assumption].
        split; [discriminate | intros [_ H]; contradiction].
      * split; [discriminate |]. split; [| split; assumption].
        split; [discriminate | intros [H _]; contradiction].
Qed.

(** The login dialogue for a user with a password.  [USER] answers 331,
    records the user, moves to the user's home directory and leaves the
    connection not logged in; [PASS] with another password answers
    ["530 wrong password"] and changes nothing else; [PASS] with the
    password answers ["230 normal login"] and logs in; a further [PASS]
    answers ["503 already logged in"]. *)
Theorem password_login_dialogue (s : Login) (login p x : string) (i : nat)
    (u : User.t) (v mx : Z) (l : string) :
  user (conn s) = None ->
  select_from (users (manager s)) 0 login None = Some i ->
  nth_error (entries (manager s)) i = Some (u, counter v mx) ->
  0 < v ->
  User.login u = Some l ->
  User.password u = Some p ->
  x <> p ->
  let s1 := fst (ftp_user login s) in
  let answered code info (c : Connection) := push_response (code, Line info) c in
  snd (ftp_user login s) = inr (PyBool true)
  /\ who s1 = Some i
  /\ conn s1
     = answered "331" "password required"
         (set_current_directory (Some (User.home_path u))
            (set_user (Some u) (set_logged None (set_user None (conn s)))))
  /\ logged (conn s1) = None
  /\ ftp_pass x s1
     = (mkLogin (manager s1) (who s1)
          (answered "530" "wrong password" (conn s1)), PyBool true)
  /\ ftp_pass p s1
     = (mkLogin (manager s1) (who s1)
          (answered "230" "normal login" (set_logged (Some true) (conn s1))),
        PyBool true)
  /\ (forall y,
        ftp_pass y (fst (ftp_pass p s1))
        = (mkLogin (manager s1) (who s1)
             (answered "503" "already logged in"
                (conn (fst (ftp_pass p s1)))), PyBool true)).
Proof.
  intros Hnone Hsel Hn Hv Hlog Hpw Hx s1 answered.
  assert (Hget := get_user_free_slot _ _ _ _ _ _ Hsel Hn Hv).
  unfold answer_for in Hget. rewrite Hlog, Hpw in Hget. cbn [fst snd] in Hget.
  assert (Hchosen := chosen_after_take _ _ _ _ (counter (v - 1) mx) Hn).
  assert (Hrun : ftp_user login s
                 = (mkLogin (mk (replace_nth i (u, counter (v - 1) mx)
                                   (entries (manager s))))
                      (Some i)
                      (answered "331" "password required"
                         (set_current_directory (Some (User.home_path u))
                            (set_user (Some u)
                               (set_logged None (set_user None (conn s)))))),
                    inr (PyBool true))).
  { unfold ftp_user. rewrite Hnone, Hget, Hchosen. reflexivity. }
  subst s1. rewrite Hrun. cbn [fst snd who conn manager].
  split; [reflexivity |]. split; [reflexivity |]. split; [reflexivity |].
  split; [reflexivity |].
  assert (Hwrong : authenticate u x = false).
  { unfold authenticate. rewrite Hpw. cbn.
    destruct (String.eqb_spec p x); [subst; contradiction | reflexivity]. }
  assert (Hright : authenticate u p = true).
  { unfold authenticate. rewrite Hpw. cbn. apply String.eqb_refl. }
  split; [| split].
  - unfold ftp_pass. cbn. rewrite Hwrong. reflexivity.
  - unfold ftp_pass. cbn. rewrite Hright. reflexivity.
  - intros y. unfold ftp_pass. cbn. rewrite Hright. reflexivity.
Qed.

(** A user without password, and the anonymous user, are logged in by
    [USER] alone (reply 230); [PASS] before any [USER] is answered
    ["503 no user (use USER firstly)"] and returns [None]. *)
Theorem passwordless_login (s : Login) (login : string) (i : nat)
    (u : User.t) (v mx : Z) :
  user (conn s) = None ->
  select_from (users (manager s)) 0 login None = Some i ->
  nth_error (entries (manager s)) i = Some (u, counter v mx) ->
  0 < v ->
  (User.login u = None \/ User.password u = None) ->
  let s1 := fst (ftp_user login s) in
  snd (ftp_user login s) = inr (PyBool true)
  /\ user (conn s1) = Some u
  /\ logged (conn s1) = Some true
  /\ current_directory (conn s1) = Some (User.home_path u)
  /\ response_queue (conn s1)
     = (response_queue (conn s)
        ++ [("230", Line (match User.login u with
                          | None => "anonymous login"
                          | Some _ => "login without password"
                          end))])%list
  /\ (forall y,
        ftp_pass y s
        = (mkLogin (manager s) (who s)
             (push_response ("503", Line "no user (use USER firstly)") (conn s)),
           PyNone)).
Proof.
  intros Hnone Hsel Hn Hv Hopen s1.
  assert (Hget := get_user_free_slot _ _ _ _ _ _ Hsel Hn Hv).
  assert (Hans : answer_for u
                 = (OK, match User.login u with
                        | None => "anonymous login"
                        | Some _ => "login without password"
                        end)).
  { unfold answer_for. destruct (User.login u) as [l |]; [| reflexivity].
    destruct Hopen as [Ho | Ho]; [discriminate | rewrite Ho; reflexivity]. }
  rewrite Hans in Hget. cbn [fst snd] in Hget.
  assert (Hchosen := chosen_after_take _ _ _ _ (counter (v - 1) mx) Hn).
  assert (Hrun : ftp_user login s
                 = (mkLogin (mk (replace_nth i (u, counter (v - 1) mx)
                                   (entries (manager s))))
                      (Some i)
                      (push_response
                         ("230", Line (match User.login u with
                                       | None => "anonymous login"
                                       | Some _ => "login without password"
                                       end))
                         (set_current_directory (Some (User.home_path u))
                            (set_user (Some u)
                               (set_logged (Some true)
                                  (set_logged None (set_user None (conn s))))))),
                    inr (PyBool true))).
  { unfold ftp_user. rewrite Hnone, Hget, Hchosen. reflexivity. }
  subst s1. rewrite Hrun. cbn [fst snd conn].
  repeat split. intros y. unfold ftp_pass. rewrite Hnone. reflexivity.
Qed.

(** [USER] on a session that has a user starts with that user's
    [notify_logout]. *)
Lemma ftp_user_after_logout (s : Login) (login : string) (i : nat)
    (u0 : User.t) (m1 : MemoryUserManager.t) :
  user (conn s) = Some u0 ->
  who s = Some i ->
  notify_logout (manager s) i = (m1, None) ->
  ftp_user login s = ftp_user login (mkLogin m1 None (set_user None (conn s))).
Proof.
  intros Hu Hwho Hout. unfold ftp_user at 1. rewrite Hu, Hwho, Hout.
  unfold ftp_user. cbn [conn manager who user set_user]. reflexivity.
Qed.

(** What [USER] leaves behind for a user with a free slot, on a session
    without user. *)
Lemma ftp_user_free_slot (s : Login) (login : string) (i : nat)
    (u : User.t) (v mx : Z) :
  user (conn s) = None ->
  select_from (users (manager s)) 0 login None = Some i ->
  nth_error (entries (manager s)) i = Some (u, counter v mx) ->
  0 < v ->
  let s1 := fst (ftp_user login s) in
  manager s1 = mk (replace_nth i (u, counter (v - 1) mx) (entries (manager s)))
  /\ who s1 = Some i
  /\ user (conn s1) = Some u.
Proof.
  intros Hnone Hsel Hn Hv s1.
  assert (Hget := get_user_free_slot _ _ _ _ _ _ Hsel Hn Hv).
  assert (Hchosen := chosen_after_take _ _ _ _ (counter (v - 1) mx) Hn).
  subst s1. unfold ftp_user. rewrite Hnone, Hget, Hchosen.
  unfold answer_for.
  destruct (User.login u); [destruct (User.password u) |];
    cbn; repeat split.
Qed.

(** A session holds the slot of its current user only.  After [USER] for
    one user and then [USER] for another (or the same) one, the manager
    is what it would be had only the second [USER] been sent: the first
    user's slot is back, and one slot of the second user is taken. *)
Theorem user_again_holds_one_slot (s : Login) (login1 login2 : string)
    (i j : nat) (u1 u2 : User.t) (v1 mx1 v2 mx2 : Z) :
  user (conn s) = None ->
  select_from (users (manager s)) 0 login1 None = Some i ->
  select_from (users (manager s)) 0 login2 None = Some j ->
  nth_error (entries (manager s)) i = Some (u1, counter v1 mx1) ->
  nth_error (entries (manager s)) j = Some (u2, counter v2 mx2) ->
  0 < v1 <= mx1 ->
  0 < v2 ->
  let s2 := fst (ftp_user login2 (fst (ftp_user login1 s))) in
  manager s2
  = mk (replace_nth j (u2, counter (v2 - 1) mx2) (entries (manager s)))
  /\ manager s2 = manager (fst (ftp_user login2 s))
  /\ who s2 = Some j
  /\ user (conn s2) = Some u2.
Proof.
  intros Hnone Hsel1 Hsel2 Hn1 Hn2 Hv1 Hv2 s2.
  destruct (ftp_user_free_slot s login1 i u1 v1 mx1 Hnone Hsel1 Hn1
              ltac:(lia)) as (Hm1 & Hw1 & Hu1).
  destruct (ftp_user_free_slot s login2 j u2 v2 mx2 Hnone Hsel2 Hn2 Hv2)
    as (Hm2 & _ & _).
  assert (Hout : notify_logout (manager (fst (ftp_user login1 s))) i
                 = (manager s, None)).
  { rewrite Hm1. apply notify_logout_after_take; [assumption | lia]. }
  subst s2.
  rewrite (ftp_user_after_logout _ login2 i u1 (manager s) Hu1 Hw1 Hout).
  destruct (ftp_user_free_slot
              (mkLogin (manager s) None
                 (set_user None (conn (fst (ftp_user login1 s)))))
              login2 j u2 v2 mx2 eq_refl Hsel2 Hn2 Hv2) as (Hm & Hw & Hu).
  cbn [manager] in Hm. rewrite Hm2. repeat split; assumption.
Qed.

(** The greeting and the server's connection counter.  With no
    connection left the greeting is ["421 Too many connections"], the
    handler returns [False] and the counter is not touched, neither then
    nor by the session's [finally] block.  Otherwise the greeting is
    ["220 welcome"], one connection is taken and the connection is marked
    [acquired]; the [finally] block gives it back, so that the counter is
    what it was. *)
Theorem greeting_takes_and_returns_slot (v mx : Z) (c : Connection) :
  acquired c = false ->
  0 <= v <= mx ->
  (v = 0 ->
     greeting (counter v mx) c
     = (counter v mx, push_response ("421", Line "Too many connections") c,
        inr (PyBool false))
     /\ finally_release (counter v mx)
          (push_response ("421", Line "Too many connections") c)
        = (counter v mx, None))
  /\ (0 < v ->
      let c1 := push_response ("220", Line "welcome") (set_acquired true c) in
      greeting (counter v mx) c = (counter (v - 1) mx, c1, inr (PyBool true))
      /\ finally_release (counter (v - 1) mx) c1 = (counter v mx, None)).
Proof.
  intros Hacq Hv. split.
  - intros ->. split; [reflexivity |].
    unfold finally_release. cbn. rewrite Hacq. reflexivity.
  - intros Hpos c1. unfold greeting, finally_release, counter,
      AvailableConnections.locked, AvailableConnections.acquire,
      AvailableConnections.release. cbn.
    destruct (Z.eqb_spec v 0); [lia |].
    destruct (Z.ltb_spec (v - 1) 0); [lia |].
    destruct (Z.ltb_spec mx (v - 1 + 1)); [lia |].
    replace (v - 1 + 1) with v by lia. split; reflexivity.
Qed.

End LoginFacts.

(** A manager of three users (the anonymous one, [bob] with a password
    and a single slot, a second [bob]) and a fresh session on it. *)
Definition bob : User.t :=
  User.mk (Some "bob") (Some "secret") (PurePosixPath.parse "/srv/bob")
    (PurePosixPath.parse "/") [Permission.default] 1 None None None None.

Definition fresh_login : Login :=
  mkLogin (MemoryUserManager.init three_users) None
    (new_connection "127.0.0.1").

Lemma get_user_slot_witness :
  MemoryUserManager.select_from
    (MemoryUserManager.users (manager fresh_login)) 0 "bob" None = Some 1%nat
  /\ nth_error (MemoryUserManager.entries (manager fresh_login)) 1
     = Some (bob, counter 1 1)
  /\ 0 < 1
  /\ exists state info,
       MemoryUserManager.get_user (manager fresh_login) "bob"
       = (MemoryUserManager.mk
            (replace_nth 1 (bob, counter (1 - 1) 1)
               (MemoryUserManager.entries (manager fresh_login))),
          inr (state, Some 1%nat, info))
       /\ state = MemoryUserManager.PASSWORD_REQUIRED
       /\ ascii_only (MemoryUserManager.shown_login bob) = true
       /\ snd (MemoryUserManager.get_user
                 (MemoryUserManager.mk
                    (replace_nth 1 (bob, counter 0 1)
                       (MemoryUserManager.entries (manager fresh_login))))
                 "bob")
          = inr (MemoryUserManager.ERROR, Some 1%nat,
                 "too much connections for 'bob'").
Proof.
  split; [reflexivity |]. split; [reflexivity |]. split; [lia |].
  destruct (get_user_takes_one_slot (manager fresh_login) "bob") as [_ Hslot].
  destruct (Hslot 1%nat bob 1 1 eq_refl eq_refl) as [_ Htake].
  destruct (Htake ltac:(lia)) as (state & info & Hget & _ & Hstate & _).
  exists state, info. split; [exact Hget |].
  split; [apply Hstate; split; discriminate |].
  split; [reflexivity |].
  destruct (get_user_takes_one_slot
              (MemoryUserManager.mk
                 (replace_nth 1 (bob, counter 0 1)
                    (MemoryUserManager.entries (manager fresh_login))))
              "bob") as [_ Hfull].
  destruct (Hfull 1%nat bob 0 1 eq_refl eq_refl) as [Hnone _].
  rewrite (Hnone eq_refl eq_refl). reflexivity.
Defined.

Lemma password_login_witness :
  snd (ftp_user "bob" fresh_login) = inr (PyBool true)
  /\ logged (conn (fst (ftp_user "bob" fresh_login))) = None
  /\ snd (ftp_pass "guess" (fst (ftp_user "bob" fresh_login))) = PyBool true.
Proof.
  destruct (password_login_dialogue fresh_login "bob" "secret" "guess" 1%nat
              bob 1 1 "bob" eq_refl eq_refl eq_refl ltac:(lia) eq_refl eq_refl
              ltac:(discriminate))
    as (Hret & _ & _ & Hlogged & Hwrong & _).
  split; [exact Hret |]. split; [exact Hlogged |].
  rewrite Hwrong. reflexivity.
Defined.

Lemma passwordless_login_witness :
  logged (conn (fst (ftp_user "eve" fresh_login))) = Some true
  /\ current_directory (conn (fst (ftp_user "eve" fresh_login)))
     = Some (PurePosixPath.parse "/").
Proof.
  destruct (passwordless_login fresh_login "eve" 0%nat
              MemoryUserManager.default_user 10 10 eq_refl eq_refl eq_refl
              ltac:(lia) (or_introl eq_refl))
    as (_ & _ & Hlogged & Hcwd & _).
  split; [exact Hlogged | exact Hcwd].
Defined.

Lemma user_again_witness :
  manager (fst (ftp_user "bob" (fst (ftp_user "eve" fresh_login))))
  = manager (fst (ftp_user "bob" fresh_login)).
Proof.
  destruct (user_again_holds_one_slot fresh_login "eve" "bob" 0%nat 1%nat
              MemoryUserManager.default_user bob 10 10 1 1
              eq_refl eq_refl eq_refl eq_refl eq_refl
              ltac:(lia) ltac:(lia))
    as (_ & Hsame & _).
  exact Hsame.
Defined.

Lemma greeting_witness :
  greeting (counter 1 1) (new_connection "127.0.0.1")
  = (counter 0 1,
     push_response ("220", Line "welcome")
       (set_acquired true (new_connection "127.0.0.1")),
     inr (PyBool true))
  /\ fst (greeting (counter 0 1) (new_connection "127.0.0.1"))
     = (counter 0 1,
        push_response ("421", Line "Too many connections")
          (new_connection "127.0.0.1")).
Proof.
  destruct (greeting_takes_and_returns_slot 1 1 (new_connection "127.0.0.1")
              eq_refl ltac:(lia)) as [_ Htake].
  destruct (Htake ltac:(lia)) as [Hgreet _].
  destruct (greeting_takes_and_returns_slot 0 1 (new_connection "127.0.0.1")
              eq_refl ltac:(lia)) as [Hfull _].
  destruct (Hfull eq_refl) as [Hrefused _].
  split; [exact Hgreet | rewrite Hrefused; reflexivity].
Defined.

(** * Command lines and replies on the wire *)

(** [END_OF_LINE = "\r\n"] *)
Definition END_OF_LINE : string :=
  String (ascii_of_nat 13) (String (ascii_of_nat 10) "").

(** [str.isspace] on a one-byte character: tab, line feed, vertical tab,
    form feed, carriage return, the four separators 28..31 and space. *)
Definition isspace (c : ascii) : bool :=
  let n := nat_of_ascii c in
  ((9 <=? n) && (n <=? 13) || (28 <=? n) && (n <=? 32))%nat.

(** [str.rstrip()] *)
Fixpoint rstrip (s : string) : string :=
  match s with
  | EmptyString => EmptyString
  | String c s' =>
      match rstrip s' with
      | EmptyString => if isspace c then EmptyString else String c EmptyString
      | r => String c r
      end
  end.

(** [cmd, _, rest = s.partition(sep)] for a one-character [sep] *)
Fixpoint partition (sep : ascii) (s : string) : string * string :=
  match s with
  | EmptyString => (EmptyString, EmptyString)
  | String c s' =>
      if Ascii.eqb c sep then (EmptyString, s')
      else let '(cmd, rest) := partition sep s' in (String c cmd, rest)
  end.

(** [str.lower] on one-byte characters: [A]..[Z] to [a]..[z]. *)
Definition lower_char (c : ascii) : ascii :=
  let n := nat_of_ascii c in
  if ((65 <=? n) && (n <=? 90))%nat then ascii_of_nat (n + 32) else c.

Fixpoint lower (s : string) : string :=
  match s with
  | EmptyString => EmptyString
  | String c s' => String (lower_char c) (lower s')
  end.

(** [parse_command], applied to the line [stream.readline()] returned.
    The result is [None] for a line with a byte of 128 or more, where
    decoding and the Unicode rules of [rstrip] and [lower] are outside
    this model; the logging is left out. *)
Definition parse_command (line : string) : option (Exc + string * string) :=
  if negb (Py.truthy line) then Some (inl ConnectionResetError)
  else if ascii_only line then
    let s := rstrip line in
    let '(cmd, rest) := partition " " s in
    Some (inr (lower cmd, rest))
  else None.

Section CommandLineFacts.

Definition no_space (s : string) : Prop :=
  forallb (fun c => negb (isspace c)) (list_ascii_of_string s) = true.

Definition all_space (s : string) : Prop :=
  forallb isspace (list_ascii_of_string s) = true.

(** The last character of a string. *)
Fixpoint last_char (s : string) : option ascii :=
  match s with
  | EmptyString => None
  | String c EmptyString => Some c
  | String _ s' => last_char s'
  end.

(** The string is empty or its last character is not white space. *)
Definition ends_clean (s : string) : Prop :=
  match last_char s with
  | Some c => isspace c = false
  | None => True
  end.

Lemma last_char_snoc (s : string) (c : ascii) :
  last_char (s ++ String c "") = Some c.
Proof.
  induction s as [| d s IH]; [reflexivity |].
  cbn [String.append last_char]. rewrite IH.
  destruct s; reflexivity.
Qed.

Lemma rstrip_all_space (s : string) : all_space s -> rstrip s = "".
Proof.
  unfold all_space. induction s as [| c s IH]; [reflexivity |].
  cbn [list_ascii_of_string forallb rstrip]. intros H.
  apply andb_prop in H as [Hc Hs]. rewrite (IH Hs), Hc. reflexivity.
Qed.

Lemma rstrip_app_space (a b : string) :
  all_space b -> rstrip (a ++ b) = rstrip a.
Proof.
  intros Hb. induction a as [| c a IH].
  - cbn. apply rstrip_all_space, Hb.
  - cbn [String.append rstrip]. rewrite IH. reflexivity.
Qed.

Lemma rstrip_app_kept (a b : string) :
  rstrip b <> "" -> rstrip (a ++ b) = (a ++ rstrip b)%string.
Proof.
  intros Hb. induction a as [| c a IH]; [reflexivity |].
  cbn [String.append rstrip]. rewrite IH.
  destruct (a ++ rstrip b)%string eqn:Heq; [| reflexivity].
  destruct a; cbn in Heq; [contradiction | discriminate].
Qed.

Lemma rstrip_no_space (s : string) : no_space s -> rstrip s = s.
Proof.
  unfold no_space. induction s as [| c s IH]; [reflexivity |].
  cbn [list_ascii_of_string forallb rstrip]. intros H.
  apply andb_prop in H as [Hc Hs]. rewrite (IH Hs).
  destruct s; [| reflexivity].
  destruct (isspace c); [discriminate | reflexivity].
Qed.

Lemma string_last (s : string) :
  s = "" \/ exists s' c, s = (s' ++ String c "")%string.
Proof.
  induction s as [| c s IH]; [left; reflexivity | right].
  destruct IH as [-> | (s' & d & ->)].
  - exists "", c. reflexivity.
  - exists (String c s'), d. reflexivity.
Qed.

Lemma partition_found (sep : ascii) (a b : string) :
  forallb (fun c => negb (Ascii.eqb c sep)) (list_ascii_of_string a) = true ->
  partition sep (a ++ String sep b) = (a, b).
Proof.
  induction a as [| c a IH]; cbn [list_ascii_of_string forallb].
  - intros _. cbn. rewrite Ascii.eqb_refl. reflexivity.
  - intros H. apply andb_prop in H as [Hc Ha].
    cbn [String.append partition].
    destruct (Ascii.eqb c sep); [discriminate |]. rewrite (IH Ha). reflexivity.
Qed.

Lemma partition_missing (sep : ascii) (a : string) :
  forallb (fun c => negb (Ascii.eqb c sep)) (list_ascii_of_string a) = true ->
  partition sep a = (a, "").
Proof.
  induction a as [| c a IH]; cbn [list_ascii_of_string forallb];
    [reflexivity |].
  intros H. apply andb_prop in H as [Hc Ha]. cbn [partition].
  destruct (Ascii.eqb c sep); [discriminate |]. rewrite (IH Ha). reflexivity.
Qed.

Lemma no_space_no_blank (s : string) :
  no_space s ->
  forallb (fun c => negb (Ascii.eqb c " ")) (list_ascii_of_string s) = true.
Proof.
  unfold no_space. intros H. rewrite forallb_forall in *. intros c Hc.
  specialize (H c Hc). destruct (Ascii.eqb_spec c " "); [| reflexivity].
  subst c. discriminate.
Qed.

Lemma ascii_only_app (a b : string) :
  ascii_only (a ++ b) = ascii_only a && ascii_only b.
Proof.
  unfold ascii_only. induction a as [| c a IH]; [reflexivity |].
  cbn [String.append list_ascii_of_string forallb]. rewrite IH.
  apply andb_assoc.
Qed.

Lemma app_empty_r (s : string) : (s ++ "")%string = s.
Proof. induction s as [| c s IH]; [reflexivity | cbn; rewrite IH; reflexivity]. Qed.

Lemma string_app_assoc (a b c : string) :
  ((a ++ b) ++ c)%string = (a ++ b ++ c)%string.
Proof.
  induction a as [| x a IH]; [reflexivity | cbn; rewrite IH; reflexivity].
Qed.

(** What [parse_command] reads.  An empty line (end of stream) raises
    [ConnectionResetError].  A line [<name> <argument>\r\n], where the
    name has no white space and the argument does not end in white
    space, is read as the name in lower case and the argument as it is
    (inner spaces kept); the same holds without the line end, and
    [<name>\r\n] is read as the name with an empty argument. *)
Theorem parse_command_reads (name argument : string) :
  ascii_only name = true ->
  ascii_only argument = true ->
  no_space name ->
  ends_clean argument ->
  parse_command "" = Some (inl ConnectionResetError)
  /\ parse_command (name ++ " " ++ argument ++ END_OF_LINE)
     = Some (inr (lower name, argument))
  /\ parse_command (name ++ " " ++ argument)
     = Some (inr (lower name, argument))
  /\ parse_command (name ++ END_OF_LINE) = Some (inr (lower name, "")).
Proof.
  intros Hname Harg Hns Hclean.
  assert (Heol : all_space END_OF_LINE) by reflexivity.
  assert (Hblank := no_space_no_blank _ Hns).
  assert (Hbody : rstrip (name ++ " " ++ argument)
                  = match argument with
                    | EmptyString => name
                    | _ => (name ++ " " ++ argument)%string
                    end).
  { destruct (string_last argument) as [-> | (s' & c & Heq)].
    - change (name ++ " " ++ "")%string with (name ++ " ")%string.
      rewrite (rstrip_app_space name " " eq_refl). apply rstrip_no_space, Hns.
    - subst argument. unfold ends_clean in Hclean.
      rewrite last_char_snoc in Hclean. rename Hclean into Hc.
      change (name ++ " " ++ s' ++ String c "")%string
        with (name ++ String " " (s' ++ String c ""))%string.
      replace (name ++ String " " (s' ++ String c ""))%string
        with ((name ++ String " " s') ++ String c "")%string
        by (rewrite string_app_assoc; reflexivity).
      rewrite rstrip_app_kept; cbn [rstrip]; rewrite Hc;
        [| discriminate].
      destruct s'; reflexivity. }
  assert (Hsplit : partition " " (rstrip (name ++ " " ++ argument))
                   = (name, argument)).
  { rewrite Hbody. destruct argument as [| c s'].
    - apply partition_missing, Hblank.
    - apply (partition_found " " name (String c s')), Hblank. }
  split; [reflexivity |]. split; [| split].
  - unfold parse_command.
    assert (Hne : Py.truthy (name ++ " " ++ argument ++ END_OF_LINE) = true)
      by (destruct name; reflexivity).
    rewrite Hne. cbn [negb].
    rewrite !ascii_only_app, Hname, Harg. cbn [andb].
    change (ascii_only " " && (true && ascii_only END_OF_LINE)) with true.
    cbv iota.
    replace (name ++ " " ++ argument ++ END_OF_LINE)%string
      with ((name ++ " " ++ argument) ++ END_OF_LINE)%string
      by (rewrite string_app_assoc; reflexivity).
    rewrite (rstrip_app_space _ _ Heol), Hsplit. reflexivity.
  - unfold parse_command.
    assert (Hne : Py.truthy (name ++ " " ++ argument) = true)
      by (destruct name; reflexivity).
    rewrite Hne. cbn [negb].
    rewrite !ascii_only_app, Hname, Harg. cbn [andb].
    change (ascii_only " " && true) with true. cbv iota.
    rewrite Hsplit. reflexivity.
  - unfold parse_command.
    assert (Hne : Py.truthy (name ++ END_OF_LINE) = true)
      by (destruct name; reflexivity).
    rewrite Hne. cbn [negb].
    rewrite ascii_only_app, Hname. cbn [andb].
    change (ascii_only END_OF_LINE) with true. cbv iota.
    rewrite (rstrip_app_space _ _ Heol), (rstrip_no_space _ Hns),
      (partition_missing _ _ Hblank). reflexivity.
Qed.

End CommandLineFacts.

Lemma parse_command_witness :
  parse_command ("RETR" ++ " " ++ "my file.txt" ++ END_OF_LINE)
  = Some (inr ("retr", "my file.txt"))
  /\ commands_mapping "retr" = Some c_retr.
Proof.
  destruct (parse_command_reads "RETR" "my file.txt" eq_refl eq_refl eq_refl
              eq_refl) as (_ & Hline & _).
  split; [exact Hline | reflexivity].
Defined.

(** [write_line]: the bytes handed to [stream.write] (the server's
    encoding is UTF-8, the encoding of the strings here). *)
Definition write_line (line : string) : string := (line ++ END_OF_LINE)%string.

(** [wrap_with_container] on what [connection.response] is called
    with: a string becomes a one-element tuple. *)
Definition wrap_with_container (o : Info) : list string :=
  match o with
  | Line s => [s]
  | Lines ls => ls
  end.

(** The [ValueError] of an unpacking that finds too few values. *)
Definition unpack_error (expected : Z) (got : nat) : Exc :=
  ValueError ("not enough values to unpack (expected at least "
              ++ Py.str expected ++ ", got " ++ Py.str (Z.of_nat got) ++ ")").

(** [write_response]: the chunks written, in order, or the exception of
    the unpacking, which is raised before anything is written.  [list']
    is the source's parameter [list]. *)
Definition write_response (code : string) (line_or_lines : Info)
    (list' : bool) : Exc + list string :=
  let lines := wrap_with_container line_or_lines in
  if list' then
    match lines with
    | head :: (_ :: _) as rest =>
        inr (write_line (code ++ "-" ++ head)
             :: map (fun line => write_line (" " ++ line)) (removelast rest)
             ++ [write_line (code ++ " " ++ last rest "")])%list
    | _ => inl (unpack_error 2 (List.length lines))
    end
  else
    match lines with
    | _ :: _ =>
        inr (map (fun line => write_line (code ++ "-" ++ line))
               (removelast lines)
             ++ [write_line (code ++ " " ++ last lines "")])%list
    | [] => inl (unpack_error 1 0)
    end.

(** What the control connection carries: the chunks one after the
    other. *)
Definition wire (chunks : list string) : string :=
  fold_right String.append "" chunks.

Definition cons_char (c : ascii) (pieces : list string) : list string :=
  match pieces with
  | piece :: more => String c piece :: more
  | [] => [String c ""]
  end.

(** [s.split("\r\n")]: the pieces between the line ends, as the client
    reads them; the last piece is what follows the last line end. *)
Fixpoint split_lines (s : string) : list string :=
  match s with
  | EmptyString => [EmptyString]
  | String c s' =>
      match s' with
      | String d s'' =>
          if Ascii.eqb c (ascii_of_nat 13) && Ascii.eqb d (ascii_of_nat 10)
          then EmptyString :: split_lines s''
          else cons_char c (split_lines s')
      | EmptyString => cons_char c (split_lines s')
      end
  end.

(** A text without line feed. *)
Definition one_line (s : string) : Prop :=
  forallb (fun c => negb (Ascii.eqb c (ascii_of_nat 10)))
          (list_ascii_of_string s) = true.

Section ReplyFacts.

Lemma prefix_app (a b c : string) :
  String.prefix (a ++ b) (a ++ c) = String.prefix b c.
Proof.
  induction a as [| x a IH]; [reflexivity |].
  cbn [String.append String.prefix].
  destruct (ascii_dec x x); [exact IH | contradiction].
Qed.

(** In a list whose last element alone passes a test, an element passes
    it exactly when it stands last. *)
Lemma only_last_passes {A : Type} (P : A -> bool) (pre : list A) (x : A) :
  (forall y, In y pre -> P y = false) ->
  P x = true ->
  forall k c, nth_error (pre ++ [x]) k = Some c ->
              (P c = true <-> S k = List.length (pre ++ [x])%list).
Proof.
  intros Hpre Hx k c Hk. rewrite length_app. cbn [List.length].
  destruct (Nat.lt_ge_cases k (List.length pre)) as [Hlt | Hge].
  - rewrite nth_error_app1 in Hk by assumption.
    apply nth_error_In in Hk. rewrite (Hpre c Hk).
    split; [discriminate | lia].
  - rewrite nth_error_app2 in Hk by assumption.
    destruct (k - List.length pre)%nat as [| n] eqn:Hd.
    + cbn in Hk. injection Hk as <-. split; [lia | intros _; exact Hx].
    + destruct n; discriminate.
Qed.

Lemma one_line_app (a b : string) :
  one_line a -> one_line b -> one_line (a ++ b).
Proof.
  unfold one_line. intros Ha Hb. induction a as [| c a IH]; [exact Hb |].
  cbn [String.append list_ascii_of_string forallb] in *.
  apply andb_prop in Ha as [Hc Ha]. rewrite Hc, (IH Ha). reflexivity.
Qed.

(** A line without line feed, written with its line end, is read back
    as that line. *)
Lemma split_lines_write_line (line rest : string) :
  one_line line ->
  split_lines (write_line line ++ rest) = line :: split_lines rest.
Proof.
  unfold one_line, write_line. induction line as [| c line IH]; intros Hl.
  - cbn. reflexivity.
  - cbn [list_ascii_of_string forallb] in Hl.
    apply andb_prop in Hl as [Hc Hl]. specialize (IH Hl).
    cbn [String.append] in *. cbn [split_lines].
    destruct ((line ++ END_OF_LINE) ++ rest)%string as [| d tail] eqn:Hnext.
    + destruct line; discriminate.
    + assert (Hd : Ascii.eqb d (ascii_of_nat 10) = false).
      { destruct line as [| e line].
        - cbn in Hnext. injection Hnext as <- _. reflexivity.
        - cbn in Hnext. injection Hnext as <- _.
          cbn [list_ascii_of_string forallb] in Hl.
          apply andb_prop in Hl as [He _].
          destruct (Ascii.eqb e (ascii_of_nat 10)); [discriminate |].
          reflexivity. }
      rewrite Hd, andb_false_r, IH. reflexivity.
Qed.

Lemma split_lines_wire (lines : list string) :
  Forall one_line lines ->
  split_lines (wire (map write_line lines)) = (lines ++ [""])%list.
Proof.
  induction 1 as [| line lines Hl _ IH]; [reflexivity |].
  cbn [map wire fold_right]. fold (wire (map write_line lines)).
  rewrite (split_lines_write_line _ _ Hl), IH. reflexivity.
Qed.

Lemma Forall_removelast {A : Type} (P : A -> Prop) (l : list A) :
  Forall P l -> Forall P (removelast l).
Proof.
  induction 1 as [| x l Hx Hl IH]; [constructor |].
  destruct l; [constructor |].
  change (removelast (x :: a :: l)) with (x :: removelast (a :: l)).
  constructor; assumption.
Qed.

Lemma Forall_last (P : string -> Prop) (l : list string) :
  Forall P l -> l <> [] -> P (last l "").
Proof.
  induction 1 as [| x l Hx Hl IH]; [contradiction |].
  intros _. destruct l; [exact Hx |]. apply IH. discriminate.
Qed.

Lemma length_removelast_cons {A : Type} (x : A) (l : list A) :
  List.length (removelast (x :: l)) = List.length l.
Proof.
  revert x. induction l as [| y l IH]; intros x; [reflexivity |].
  change (removelast (x :: y :: l)) with (x :: removelast (y :: l)).
  cbn [List.length]. rewrite IH. reflexivity.
Qed.

(** How [write_response] frames a reply.  It fails, before writing
    anything, exactly when there is no line (or fewer than two lines in
    [list] mode).  Otherwise, when neither the code nor a line holds a
    line feed, the client reads off the connection as many lines as
    there are, each ended by [END_OF_LINE] and nothing after the last;
    and, for a code that does not begin with a space, the line that
    begins with the code and a space is the last one and no other: the
    end of a reply of several lines cannot be mistaken. *)
Theorem reply_ends_at_last_line (code : string) (o : Info) (list' : bool) :
  code <> "" ->
  (forall rest, code <> String " " rest) ->
  one_line code ->
  Forall one_line (wrap_with_container o) ->
  let lines := wrap_with_container o in
  let needed := if list' then 2%nat else 1%nat in
  ((List.length lines < needed)%nat ->
     write_response code o list'
     = inl (unpack_error (Z.of_nat needed) (List.length lines)))
  /\ ((needed <= List.length lines)%nat ->
      exists chunks received,
        write_response code o list' = inr chunks
        /\ split_lines (wire chunks) = (received ++ [""])%list
        /\ List.length received = List.length lines
        /\ (forall k line, nth_error received k = Some line ->
              (String.prefix (code ++ " ") line = true
               <-> S k = List.length received))).
Proof.
  intros Hne Hcode Hc1 Hall lines needed.
  assert (Hdash : forall l,
             String.prefix (code ++ " ") (code ++ "-" ++ l) = false).
  { intros l. rewrite prefix_app. reflexivity. }
  assert (Hlast : forall l,
             String.prefix (code ++ " ") (code ++ " " ++ l) = true).
  { intros l. rewrite prefix_app. cbn [String.append String.prefix].
    destruct (ascii_dec " " " "); [| contradiction].
    destruct l; reflexivity. }
  assert (Hblank : forall l, String.prefix (code ++ " ") (" " ++ l) = false).
  { intros l. destruct code as [| c code']; [contradiction |].
    cbn. destruct (ascii_dec c " ") as [-> |]; [| reflexivity].
    exfalso. exact (Hcode code' eq_refl). }
  assert (Hsp : one_line " ") by reflexivity.
  assert (Hds : one_line "-") by reflexivity.
  unfold write_response. fold lines. fold lines in Hall. subst needed.
  destruct list'.
  - destruct lines as [| head [| second rest]] eqn:Hlines; cbn [List.length].
    + split; [reflexivity | lia].
    + split; [reflexivity | lia].
    + split; [lia | intros _].
      inversion Hall as [| ? ? Hhead Hrest]; subst.
      set (body := removelast (second :: rest)).
      set (tail := last (second :: rest) "").
      set (received := ((code ++ "-" ++ head)%string
                        :: map (fun line => (" " ++ line)%string) body
                        ++ [(code ++ " " ++ tail)%string])%list).
      exists (map write_line received), received.
      assert (Hbody : Forall one_line body)
        by (apply Forall_removelast; exact Hrest).
      assert (Htail : one_line tail)
        by (apply Forall_last; [exact Hrest | discriminate]).
      split; [| split; [| split]].
      * unfold received. cbn [map]. rewrite map_app, map_map. reflexivity.
      * apply split_lines_wire. unfold received. constructor.
        -- repeat apply one_line_app; assumption.
        -- apply Forall_app. split.
           ++ apply Forall_forall. intros x Hx.
              apply in_map_iff in Hx as (l & <- & Hl).
              apply one_line_app; [exact Hsp |].
              rewrite Forall_forall in Hbody. apply Hbody, Hl.
           ++ constructor; [| constructor].
              repeat apply one_line_app; assumption.
      * unfold received. cbn [List.length]. rewrite length_app, length_map.
        unfold body. rewrite length_removelast_cons. cbn [List.length]. lia.
      * apply (only_last_passes (String.prefix (code ++ " "))
                 ((code ++ "-" ++ head)%string
                  :: map (fun line => (" " ++ line)%string) body)).
        -- intros y [<- | Hy]; [apply Hdash |].
           apply in_map_iff in Hy as (l & <- & _). apply Hblank.
        -- apply Hlast.
  - destruct lines as [| first rest] eqn:Hlines; cbn [List.length].
    + split; [reflexivity | lia].
    + split; [lia | intros _].
      set (body := removelast (first :: rest)).
      set (tail := last (first :: rest) "").
      set (received := (map (fun line => (code ++ "-" ++ line)%string) body
                        ++ [(code ++ " " ++ tail)%string])%list).
      exists (map write_line received), received.
      assert (Hbody : Forall one_line body)
        by (apply Forall_removelast; exact Hall).
      assert (Htail : one_line tail)
        by (apply Forall_last; [exact Hall | discriminate]).
      split; [| split; [| split]].
      * unfold received. rewrite map_app, map_map. reflexivity.
      * apply split_lines_wire. unfold received.
        apply Forall_app. split.
        -- apply Forall_forall. intros x Hx.
           apply in_map_iff in Hx as (l & <- & Hl).
           rewrite Forall_forall in Hbody.
           repeat apply one_line_app; try assumption. apply Hbody, Hl.
        -- constructor; [| constructor].
           repeat apply one_line_app; assumption.
      * unfold received. rewrite length_app, length_map. unfold body.
        rewrite length_removelast_cons. cbn [List.length]. lia.
      * apply only_last_passes.
        -- intros y Hy. apply in_map_iff in Hy as (l & <- & _). apply Hdash.
        -- apply Hlast.
Qed.

End ReplyFacts.

Lemma reply_witness :
  split_lines
    (wire [write_line "250-start"; write_line " type=file; a.txt";
           write_line "250 end"])
  = ["250-start"; " type=file; a.txt"; "250 end"; ""]
  /\ write_response "250" (Lines ["start"; "type=file; a.txt"; "end"]) true
     = inr [write_line "250-start"; write_line " type=file; a.txt";
            write_line "250 end"]
  /\ write_response "421" (Lines ["no free ports"]) false
     = inr [write_line "421 no free ports"].
Proof.
  split; [reflexivity |].
  destruct (reply_ends_at_last_line "250"
              (Lines ["start"; "type=file; a.txt"; "end"]) true
              ltac:(discriminate) ltac:(discriminate) eq_refl
              ltac:(repeat constructor)) as [_ Hmany].
  destruct (Hmany ltac:(cbn; lia)) as (chunks & received & Hrun & _).
  destruct (reply_ends_at_last_line "421" (Lines ["no free ports"]) false
              ltac:(discriminate) ltac:(discriminate) eq_refl
              ltac:(repeat constructor)) as [_ Hone].
  destruct (Hone ltac:(cbn; lia)) as (chunks' & received' & Hrun' & _).
  split.
  - rewrite Hrun. cbn in Hrun. injection Hrun as <-. reflexivity.
  - rewrite Hrun'. cbn in Hrun'. injection Hrun' as <-. reflexivity.
Defined.

(* ================================================================== *)
(** * Part V. Handlers as tasks: the awaits of passive mode            *)
(* ================================================================== *)

(** The dispatcher starts the handler of every command as a task of its
    own and goes on reading commands.  A task runs until it awaits
    something that is not ready; the other tasks of the loop run until
    it is.  [ftp_pasv] and [ftp_epsv] await [asyncio.start_server], once
    for each port they try.  This part cuts the two handlers at that
    await, to follow handlers that are under way at the same time. *)

Inductive PassiveCommand : Type := passive_pasv | passive_epsv.

Definition passive_name (cmd : PassiveCommand) : string :=
  match cmd with
  | passive_pasv => "pasv"
  | passive_epsv => "epsv"
  end.

Definition passive_handler (E : ErrorsModule) (cmd : PassiveCommand)
  : handler :=
  match cmd with
  | passive_pasv => ftp_pasv E
  | passive_epsv => ftp_epsv E
  end.

(** A handler task: suspended in [await asyncio.start_server(...)] for
    [port], or finished with a result.  [turn] holds the variables
    [priority] and [viewed_ports] of the loop over the pool when the
    await is the one inside that loop. *)
Inductive PassiveTask : Type :=
| awaiting_start_server (cmd : PassiveCommand) (turn : option (Z * list Z))
                        (port : Z)
| returned (r : Exc + PyResult).

(** A stretch of the handler that runs to the handler's end. *)
Definition finish (m : M PyResult) : M PassiveTask :=
  fun env w => let '(r, w') := m env w in (inr (returned r), w').

(** The two handlers from the line after [connection.passive_server =
    await coro] on; [line] is the first line of the reply. *)
Definition passive_reply (cmd : PassiveCommand) (line : string)
  : M PyResult :=
  match cmd with
  | passive_pasv =>
      c <- get_connection ;;
      s <- get_server ;;
      match passive_server c with
      | None => raise AttributeError
      | Some srv =>
          match find (fun sock => match family sock with
                                  | AF_INET => true
                                  | _ => false
                                  end) (sockets srv) with
          | None =>
              response "503" (Lines ["this server started in ipv6 mode"]) ;;;
              ret (PyBool false)
          | Some sock =>
              let host :=
                match ipv4_pasv_forced_response_address s with
                | Some forced =>
                    if Py.truthy forced then forced else sockname_host sock
                | None => sockname_host sock
                end in
              let port := sockname_port sock in
              match int_all (Py.split "." host) with
              | None => raise (ValueError "invalid literal for int()")
              | Some octets =>
                  let nums :=
                    (octets ++ [Z.shiftr port 8; Z.land port 255])%list in
                  let address :=
                    "(" ++ Py.join "," (map Py.str nums) ++ ")" in
                  drop_stale_data_connection ;;;
                  response "227" (Lines [line; address]) ;;;
                  ret (PyBool true)
              end
          end
      end
  | passive_epsv =>
      c <- get_connection ;;
      match passive_server c with
      | None => raise AttributeError
      | Some srv =>
          match find (fun sock => match family sock with
                                  | AF_INET | AF_INET6 => true
                                  | _ => false
                                  end) (sockets srv) with
          | None => raise UnboundLocalError
          | Some sock =>
              let port := sockname_port sock in
              drop_stale_data_connection ;;;
              response "229"
                (Lines [line ++ " (|||" ++ Py.str port ++ "|)"]) ;;;
              ret (PyBool true)
          end
      end
  end.

(** An exception that leaves [_start_passive_server]: the handler's
    [except errors.NoAvailablePort] answers 421 and returns [False],
    any other exception ends the task. *)
Definition passive_raised (e : Exc) : M PassiveTask :=
  if is_NoAvailablePort e
  then finish (response "421" (Lines ["no free ports"]) ;;; ret (PyBool false))
  else ret (returned (inl e)).

(** The [except] clauses of the loop, for an exception [err] raised in
    the turn that took [(priority, port)] off the queue; [next] is the
    next turn of the loop. *)
Definition passive_except (E : ErrorsModule) (priority port : Z) (err : Exc)
    (next : M PassiveTask) : M PassiveTask :=
  match err with
  | QueueEmpty => passive_raised NoAvailablePort
  | _ =>
      if is_OSError E err then
        s <- get_server ;;
        match available_data_ports s with
        | None => ret (returned (inl AttributeError))
        | Some q =>
            put_server
              (set_available_data_ports
                 (Some (PriorityQueue.put_nowait q (priority + 1, port))) s) ;;;
            match errno_of err with
            | Some n => if n =? EADDRINUSE then next else passive_raised err
            | None => passive_raised err
            end
        end
      else passive_raised err
  end.

(** One turn of the loop, from [get_nowait] to the await.  A port met
    for the second time raises [NoAvailablePort] inside the [try]; that
    exception has no [errno], so the loop does not go on after it. *)
Definition passive_next_port (E : ErrorsModule) (cmd : PassiveCommand)
    (viewed_ports : list Z) : M PassiveTask :=
  s <- get_server ;;
  match available_data_ports s with
  | None => ret (returned (inl AttributeError))
  | Some q =>
      match PriorityQueue.get_nowait q with
      | None => passive_raised NoAvailablePort
      | Some ((priority, port), q1) =>
          put_server (set_available_data_ports (Some q1) s) ;;;
          if existsb (Z.eqb port) viewed_ports
          then passive_except E priority port NoAvailablePort
                 (ret (returned (inl FuelExhausted)))
          else ret (awaiting_start_server cmd
                      (Some (priority, port :: viewed_ports)) port)
      end
  end.

(** The handler from its first line to its first await (or to its end):
    the [login_required] guard, the argument test of [ftp_epsv], the test
    [connection.passive_server is None], and the call of
    [_start_passive_server]. *)
Definition passive_begin (E : ErrorsModule) (cmd : PassiveCommand)
    (rest : string) : M PassiveTask :=
  c <- get_connection ;;
  if field_is_None c (fst login_required)
  then finish (response "503" (Line (snd login_required)) ;;; ret PyNone)
  else
    match cmd, Py.truthy rest with
    | passive_epsv, true =>
        finish
          (response "522"
             (Lines ["custom protocols support not implemented"]) ;;;
           ret (PyBool false))
    | _, _ =>
        match passive_server c with
        | Some _ => finish (passive_reply cmd "listen socket already exists")
        | None =>
            s <- get_server ;;
            match available_data_ports s with
            | Some _ => passive_next_port E cmd []
            | None =>
                ret (awaiting_start_server cmd None (passive_server_port c))
            end
        end
    end.

(** The handler from the moment [asyncio.start_server] answers to its
    next await (or to its end).  A listener is stored in
    [connection.passive_server] whatever that attribute holds by now:
    the test for [None] was made before the await. *)
Definition passive_resume (E : ErrorsModule) (task : PassiveTask)
  : M PassiveTask :=
  match task with
  | returned _ => ret task
  | awaiting_start_server cmd turn port =>
      env <- ask ;;
      c <- get_connection ;;
      match start_server env (server_host c) port, turn with
      | inr srv, Some _ =>
          modify_connection (set_passive_server_port port) ;;;
          modify_connection (set_passive_server (Some srv)) ;;;
          finish (passive_reply cmd "listen socket created")
      | inr srv, None =>
          modify_connection (set_passive_server (Some srv)) ;;;
          finish (passive_reply cmd "listen socket created")
      | inl err, Some (priority, viewed_ports) =>
          passive_except E priority port err
            (passive_next_port E cmd viewed_ports)
      | inl err, None => passive_raised err
      end
  end.

Definition task_of (r : (Exc + PassiveTask) * World) : PassiveTask * World :=
  match r with
  | (inr task, w) => (task, w)
  | (inl e, w) => (returned (inl e), w)
  end.

(** One session and its handler tasks, oldest first. *)
Record Running : Type := mkRunning {
  world : World;
  tasks : list PassiveTask
}.

(** What happens next in the session: the dispatcher takes a [PASV] or
    [EPSV] line from the parser, creates the handler's task, and the
    task runs to its first await; or [asyncio.start_server] answers the
    [n]-th task, which runs on. *)
Inductive Tick : Type :=
| starts (cmd : PassiveCommand) (rest : string)
| resumes (n : nat).

Definition tick (E : ErrorsModule) (env : Env) (r : Running) (t : Tick)
  : Running :=
  match t with
  | starts cmd rest =>
      let w1 := fst (dispatch (passive_name cmd) rest (world r)) in
      let '(task, w2) := task_of (passive_begin E cmd rest env w1) in
      mkRunning w2 (tasks r ++ [task])
  | resumes n =>
      match nth_error (tasks r) n with
      | None => r
      | Some task =>
          let '(task', w') := task_of (passive_resume E task env (world r)) in
          mkRunning w' (replace_nth n task' (tasks r))
      end
  end.

(** C4, where the code departs from it.  A pool of the two ports 2121
    and 2122, every bind succeeding, one logged-in connection, and two
    [PASV] lines of which the second is dispatched while the first
    handler awaits its listener.  Both handlers pass the test
    [connection.passive_server is None], both take a port off the queue
    and both answer 227; the connection keeps the second listener only.
    When the session ends, its [finally] block puts port 2122 back:
    port 2121 is in the pool no more.  (Dispatched one after the other,
    the same two lines leave both ports in the pool.) *)
Theorem overlapping_pasv_loses_port :
  let w0 := mkWorld two_port_server (jailed_connection "/") [] in
  let run := fold_left (tick oserror_errors free_ports_env) in
  let overlapped :=
    run [starts passive_pasv ""; starts passive_pasv "";
         resumes 0%nat; resumes 1%nat] (mkRunning w0 []) in
  let in_turn :=
    run [starts passive_pasv ""; resumes 0%nat;
         starts passive_pasv ""] (mkRunning w0 []) in
  tasks overlapped
    = [returned (inr (PyBool true)); returned (inr (PyBool true))]
  /\ response_queue (connection (world overlapped))
     = [ ("227", Lines ["listen socket created"; "(127,0,0,1,8,73)"]);
         ("227", Lines ["listen socket created"; "(127,0,0,1,8,74)"]) ]
  /\ passive_server (connection (world overlapped)) = Some (listener 2122)
  /\ available_data_ports (server (world overlapped)) = Some []
  /\ available_data_ports (server (dispatcher_finally (world overlapped)))
     = Some [(0, 2122)]
  /\ ~ Permutation (PriorityQueue.ports [(0, 2122)]) [2121; 2122]
  /\ response_queue (connection (world in_turn))
     = [ ("227", Lines ["listen socket created"; "(127,0,0,1,8,73)"]);
         ("227", Lines ["listen socket already exists";
                        "(127,0,0,1,8,73)"]) ]
  /\ available_data_ports (server (dispatcher_finally (world in_turn)))
     = Some [(0, 2121); (0, 2122)].
Proof.
  cbv zeta. repeat split.
  intros Hperm. apply Permutation_length in Hperm. discriminate.
Qed.

(** ** A task that runs alone is the handler *)

(** The task with every await answered at once, nothing else running in
    between. *)
Fixpoint run_alone (E : ErrorsModule) (env : Env) (fuel : nat)
    (task : PassiveTask) (w : World) : (Exc + PyResult) * World :=
  match task with
  | returned r => (r, w)
  | awaiting_start_server _ _ _ =>
      match fuel with
      | O => (inl FuelExhausted, w)
      | S fuel' =>
          let '(task', w') := task_of (passive_resume E task env w) in
          run_alone E env fuel' task' w'
      end
  end.

Definition with_queue (q : PriorityQueue.t) (w : World) : World :=
  mkWorld (set_available_data_ports (Some q) (server w)) (connection w)
          (io_log w).

(** What a handler makes of the outcome of the loop over the pool. *)
Definition after_loop (cmd : PassiveCommand)
    (out : PriorityQueue.t * LoopOutcome) (env : Env) (w : World)
  : (Exc + PyResult) * World :=
  let w1 := with_queue (fst out) w in
  match snd out with
  | Bound srv port =>
      passive_reply cmd "listen socket created" env
        (update_connection
           (fun c => set_passive_server (Some srv)
                       (set_passive_server_port port c)) w1)
  | Raised e =>
      if is_NoAvailablePort e
      then (inr (PyBool false),
            update_connection
              (push_response ("421", Lines ["no free ports"])) w1)
      else (inl e, w1)
  | NoFuel => (inl FuelExhausted, w1)
  end.

Section AloneFacts.

Variable E : ErrorsModule.
Variable env : Env.
Variable cmd : PassiveCommand.

Lemma with_queue_again (q1 q2 : PriorityQueue.t) (w : World) :
  with_queue q2 (with_queue q1 w) = with_queue q2 w.
Proof. reflexivity. Qed.

Lemma run_alone_returned (fuel : nat) (r : Exc + PyResult) (w : World) :
  run_alone E env fuel (returned r) w = (r, w).
Proof. destruct fuel; reflexivity. Qed.

Lemma loop_turns_alone (fuel : nat) :
  forall q viewed w,
    let start := start_server env (server_host (connection w)) in
    snd (passive_loop E start fuel q viewed) <> NoFuel ->
    (let '(task, w') :=
       task_of (passive_next_port E cmd viewed env (with_queue q w)) in
     run_alone E env fuel task w')
    = after_loop cmd (passive_loop E start fuel q viewed) env w.
Proof.
  induction fuel as [| fuel IH]; intros q viewed w start Hfuel.
  - exfalso. apply Hfuel. reflexivity.
  - destruct w as [s c log]. cbn [connection] in start.
    cbn [passive_loop] in Hfuel |- *.
    destruct q as [| [priority port] q1]; [reflexivity |].
    cbn [PriorityQueue.get_nowait] in Hfuel |- *.
    unfold passive_next_port, with_queue. msimpl.
    destruct (existsb (Z.eqb port) viewed) eqn:Hseen.
    + unfold passive_except. cbn [is_OSError errno_of].
      destruct (NoAvailablePort_is_OSError E); reflexivity.
    + cbn [task_of run_alone passive_resume]. msimpl.
      fold start. destruct (start port) as [err | srv] eqn:Hstart.
      * unfold passive_except.
        destruct err; cbn [is_OSError errno_of];
          try (unfold passive_raised, finish, after_loop, with_queue;
               msimpl; rewrite ?run_alone_returned; reflexivity).
        -- destruct (NoAvailablePort_is_OSError E);
             unfold passive_raised, finish, after_loop, with_queue;
             msimpl; rewrite ?run_alone_returned; reflexivity.
        -- msimpl. destruct (errno =? EADDRINUSE) eqn:Hno.
           ++ specialize (IH (PriorityQueue.put_nowait q1 (priority + 1, port))
                             (port :: viewed) (mkWorld s c log)).
              cbn [connection] in IH. fold start in IH.
              cbn [is_OSError errno_of] in Hfuel.
              rewrite Hno in Hfuel. specialize (IH Hfuel).
              unfold with_queue in IH. cbn [server connection io_log] in IH.
              exact IH.
           ++ unfold passive_raised, finish, after_loop, with_queue;
                msimpl; rewrite ?run_alone_returned; reflexivity.
      * unfold finish, after_loop, with_queue, update_connection.
        cbn [fst snd server connection io_log].
        destruct (passive_reply cmd "listen socket created" env _)
          as [r w'] eqn:Hreply.
        cbn [task_of]. rewrite run_alone_returned. reflexivity.
Qed.

End AloneFacts.

Section AloneTheorem.

Variable E : ErrorsModule.

Opaque passive_loop.

(** The cut is faithful to the handlers of Part I: a [PASV] or [EPSV]
    task that runs alone, each of its awaits answered before anything
    else happens on the server, ends with the result and in the state
    that the handler, taken as one step, gives.  What two tasks do
    when their stretches alternate is therefore the handlers' own
    doing. *)
Theorem passive_task_alone (cmd : PassiveCommand) (rest : string)
    (env : Env) (w : World) :
  let fuel := match available_data_ports (server w) with
              | Some q => S (List.length q)
              | None => 1%nat
              end in
  (let '(task, w') := task_of (passive_begin E cmd rest env w) in
   run_alone E env fuel task w')
  = passive_handler E cmd rest env w.
Proof.
  destruct w as [s c log]. cbn [server].
  assert (Hloop : forall q,
             available_data_ports s = Some q ->
             passive_server c = None ->
             (let '(task, w') :=
                task_of (passive_next_port E cmd [] env (mkWorld s c log)) in
              run_alone E env (S (List.length q)) task w')
             = after_loop cmd
                 (passive_loop E (start_server env (server_host c))
                    (S (List.length q)) q []) env (mkWorld s c log)).
  { intros q Hq Hp.
    pose proof (loop_turns_alone E env cmd (S (List.length q)) q []
                  (mkWorld s c log)) as Hsim.
    cbv zeta in Hsim. cbn [connection] in Hsim.
    replace (with_queue q (mkWorld s c log)) with (mkWorld s c log) in Hsim
      by (unfold with_queue; destruct s; cbn in Hq |- *; rewrite Hq;
          reflexivity).
    apply Hsim. apply passive_loop_total.
    pose proof (unviewed_length [] q). lia. }
  unfold passive_begin. msimpl.
  destruct (logged c) as [b |] eqn:Hl.
  2:{ destruct cmd; unfold passive_handler, ftp_pasv, ftp_epsv; msimpl;
      rewrite Hl; unfold finish; msimpl;
      first [reflexivity | destruct (available_data_ports s); reflexivity]. }
  assert (Hbody :
            (let '(task, w') :=
               task_of
                 (match passive_server c with
                  | Some _ =>
                      finish (passive_reply cmd "listen socket already exists")
                  | None =>
                      s0 <- get_server ;;
                      match available_data_ports s0 with
                      | Some _ => passive_next_port E cmd []
                      | None =>
                          ret (awaiting_start_server cmd None
                                 (passive_server_port c))
                      end
                  end env (mkWorld s c log)) in
             run_alone E env
               match available_data_ports s with
               | Some q => S (List.length q)
               | None => 1%nat
               end task w')
            = (first <- ensure_passive_server E ;;
               match first with
               | None => ret (PyBool false)
               | Some line => passive_reply cmd line
               end) env (mkWorld s c log)).
  { unfold ensure_passive_server. msimpl.
    destruct (passive_server c) as [srv |] eqn:Hp.
    - msimpl. unfold finish.
      destruct (passive_reply cmd "listen socket already exists" env
                  (mkWorld s c log)) as [r w'].
      cbn [task_of]. apply run_alone_returned.
    - msimpl. destruct (available_data_ports s) as [q |] eqn:Hq.
      + rewrite (Hloop q eq_refl eq_refl).
        unfold _start_passive_server. msimpl. rewrite ?Hq. msimpl.
        destruct (passive_loop E (start_server env (server_host c))
                    (S (List.length q)) q []) as [q' out].
        unfold after_loop, with_queue. cbn [fst snd server connection io_log].
        destruct out as [srv port | e |]; msimpl.
        * first [ reflexivity
                | match goal with
                  | |- context [passive_reply ?a ?b ?c ?d] =>
                      destruct (passive_reply a b c d)
                  end; reflexivity ].
        * destruct (is_NoAvailablePort e); reflexivity.
        * reflexivity.
      + cbn [task_of run_alone passive_resume]. msimpl.
        unfold _start_passive_server. msimpl. rewrite ?Hq. msimpl.
        destruct (start_server env (server_host c) (passive_server_port c))
          as [err | srv]; msimpl.
        * unfold passive_raised, finish. msimpl.
          destruct (is_NoAvailablePort err); reflexivity.
        * unfold finish.
          first [ reflexivity
                | match goal with
                  | |- context [passive_reply ?a ?b ?c ?d] =>
                      destruct (passive_reply a b c d)
                  end; reflexivity ]. }
  destruct cmd.
  - unfold passive_handler, ftp_pasv. msimpl. rewrite Hl.
    destruct (Py.truthy rest); exact Hbody.
  - unfold passive_handler, ftp_epsv. msimpl. rewrite Hl.
    destruct (Py.truthy rest) eqn:Ht.
    + unfold finish. msimpl.
      first [reflexivity | destruct (available_data_ports s); reflexivity].
    + exact Hbody.
Qed.

Transparent passive_loop.

End AloneTheorem.

(* ================================================================== *)
(** * Part VI. [get_paths] on a Windows host                           *)
(* ================================================================== *)

(** [connection.user.base_path] and the real path are [pathlib.Path]
    values: on a Windows host they are Windows paths, for which the
    backslash separates components too.  The virtual path is a
    [PurePosixPath] on every host. *)

Module PureWindowsPath.

(** A path is its drive (["C:"], or empty), its root (a backslash, or
    empty) and its components. *)
Record t : Type := mk { drive : string; root : string; tail : list string }.

Definition is_sep (c : ascii) : bool :=
  Ascii.eqb c Py.backslash || Ascii.eqb c "/"%char.

(** The root of a drive: one backslash. *)
Definition sep : string := String Py.backslash EmptyString.

Definition is_letter (c : ascii) : bool :=
  let n := nat_of_ascii c in
  ((65 <=? n) && (n <=? 90) || (97 <=? n) && (n <=? 122))%nat.

(** [part.replace(altsep, sep).split(sep)]: every separator of either
    kind cuts. *)
Fixpoint split_seps (s : string) : list string :=
  match s with
  | EmptyString => [EmptyString]
  | String c s' =>
      if is_sep c then EmptyString :: split_seps s'
      else match split_seps s' with
           | [] => [String c EmptyString]
           | h :: t => String c h :: t
           end
  end.

(** [splitroot] finds neither a drive (a letter and a colon) nor a root
    (a leading separator) in the text. *)
Definition unanchored (s : string) : bool :=
  match s with
  | EmptyString => true
  | String c s' =>
      negb (is_sep c)
      && negb (match s' with
               | String d _ => Ascii.eqb d ":"%char && is_letter c
               | EmptyString => false
               end)
  end.

(** The components [parse_parts] finds in a text without drive and
    root: the pieces between separators, the empty ones and ["."]
    dropped. *)
Definition components (s : string) : list string :=
  filter (fun x => negb (String.eqb x "") && negb (String.eqb x "."))
         (split_seps s).

(** [base / rel] for a relative [PurePosixPath] with the components
    [rel_parts]: each of them is parsed again as Windows text.  [None]
    when one of them has a drive or a root, which replaces [base] or a
    part of it; that case is not followed here. *)
Definition join_posix (base : t) (rel_parts : list string) : option t :=
  if forallb unanchored rel_parts
  then Some (mk (drive base) (root base)
                (tail base ++ flat_map components rel_parts))
  else None.

Definition abs_parts (p : t) : list string :=
  if negb (String.eqb (root p) "") then drive p :: root p :: tail p
  else if negb (String.eqb (drive p) "") then drive p :: tail p
  else tail p.

(** [p.relative_to(other)]: the components are compared in lower case;
    [None] stands for [ValueError]. *)
Definition relative_to (p other : t) : option (list string) :=
  let to_abs_parts := abs_parts other in
  let n := List.length to_abs_parts in
  let differ :=
    match n with
    | O => negb (String.eqb (root p) "") || negb (String.eqb (drive p) "")
    | _ => if list_eq_dec string_dec
                (map lower (firstn n (abs_parts p))) (map lower to_abs_parts)
           then false else true
    end in
  if differ then None else Some (skipn n (abs_parts p)).

(** Where a file system gets to by following the components one by
    one, [".."] leading to the parent. *)
Definition walk (l : list string) : list string :=
  fold_left (fun at_ x => if String.eqb x ".." then removelast at_
                          else (at_ ++ [x])%list) l [].

End PureWindowsPath.

(** [get_paths] on a Windows host, [base_path] being the user's
    [base_path] there.  The result is [None] where [join_posix] is. *)
Definition get_paths_windows (c : Connection)
    (base_path : PureWindowsPath.t) (path : string)
  : Exc + option (PureWindowsPath.t * PurePosixPath.t) :=
  let virtual_path := PurePosixPath.parse path in
  let joined :=
    if PurePosixPath.is_absolute virtual_path then inr virtual_path
    else match current_directory c with
         | Some cwd => inr (PurePosixPath.joinpath cwd virtual_path)
         | None => inl TypeError
         end in
  match joined with
  | inl e => inl e
  | inr virtual_path' =>
      let resolved_virtual_path :=
        fold_left resolve_step (List.tl (PurePosixPath.parts virtual_path'))
                  root_path in
      match user c with
      | None => inl AttributeError
      | Some _ =>
          match PurePosixPath.relative_to resolved_virtual_path root_path with
          | None => inl (ValueError "not in the subpath")
          | Some rel =>
              match PureWindowsPath.join_posix base_path
                      (PurePosixPath.parts rel) with
              | None => inr None
              | Some real_path =>
                  match PureWindowsPath.relative_to real_path base_path with
                  | Some _ => inr (Some (real_path, resolved_virtual_path))
                  | None => inr (Some (base_path, root_path))
                  end
              end
          end
      end
  end.

(** C1, where the code departs from it.  On a Windows host, for a user
    with base path [C:\srv\ftp] and a connection at ["/"], the client
    path [..\..\etc\passwd] has no slash: it is one component of the
    virtual path, and not [".."], so the loop keeps it.  Joined to the
    base path it is read as Windows text and falls into four
    components, two of them [".."].  The base path is still the
    beginning of the result, so [relative_to] succeeds and nothing is
    clamped; but the path names [C:\etc\passwd], outside the base
    path. *)
Theorem get_paths_windows_leaves_base :
  let base_path := PureWindowsPath.mk "C:" PureWindowsPath.sep ["srv"; "ftp"] in
  let real_path :=
    PureWindowsPath.mk "C:" PureWindowsPath.sep
      ["srv"; "ftp"; ".."; ".."; "etc"; "passwd"] in
  get_paths_windows (jailed_connection "/") base_path "..\..\etc\passwd"
  = inr (Some (real_path, PurePosixPath.mk "/" ["..\..\etc\passwd"]))
  /\ PureWindowsPath.relative_to real_path base_path
     = Some [".."; ".."; "etc"; "passwd"]
  /\ PureWindowsPath.walk (PureWindowsPath.tail base_path) = ["srv"; "ftp"]
  /\ PureWindowsPath.walk (PureWindowsPath.tail real_path) = ["etc"; "passwd"]
  /\ get_paths (jailed_connection "/") "../../etc/passwd"
     = inr (PurePosixPath.parse "/srv/ftp/etc/passwd",
            PurePosixPath.parse "/etc/passwd").
Proof. cbv zeta. repeat split. Qed.
